(** * atad_marshmallow: four ways of binding a JSON document to objects

    A shallow embedding of [main.py].  The program reads a JSON document
    (the text [responsestr]), and runs three demonstrations one after the
    other: [method00] (marshmallow schema, nested dictionaries),
    [method01] (marshmallow schema with [post_load] constructors) and
    [method02] ([json.loads] with a [SimpleNamespace] object hook).  A
    fourth, [method03], is defined but never called.

    The file has three layers:
    - the part of the Python runtime the program touches (values,
      exceptions, [str], [int], [float], attribute access, [json.loads]);
    - the part of marshmallow 2 the program touches (fields, schemas,
      [Schema.load], the [only] option, [post_load]);
    - the program itself, one definition per source function or class.

    Conventions.  A Python [str] is a [string] whose characters are the bytes
    of its UTF-8 encoding.  A [dict] is an association list in insertion
    order with unique keys.  A float is an IEEE 754 binary64 number.  Standard
    output is the list of printed lines.  The marshmallow model follows the
    2.x line ([UnmarshalResult] with [data] and [errors], dotted [only]
    names, numeric overflow reported as a validation error); schema fields
    are visited in declaration order. *)

From Stdlib Require Import ZArith List String Ascii Bool Lia DecimalString.
Import ListNotations.
Local Open Scope string_scope.
Local Open Scope list_scope.
Set Warnings "-register-all".

(** ** Python values *)

(** IEEE 754 binary64: [FFinite neg m e] is [(-1)^neg * m * 2^e]. *)
Inductive pyfloat : Type :=
| FZero (neg : bool)
| FInf (neg : bool)
| FNan
| FFinite (neg : bool) (m : positive) (e : Z).

(** The classes the program instantiates. *)
Inductive pyclass : Type :=
| SimpleNamespace          (* types.SimpleNamespace, method02 *)
| Extra                    (* method01 *)
| Location                 (* method01 *)
| Station                  (* method01 *)
| Network                  (* method01 *)
| CityBikesAPI             (* method01 *)
| Station03.               (* class Station of method03 *)

Inductive value : Type :=
| VNone
| VBool (b : bool)
| VInt (z : Z)
| VFloat (f : pyfloat)
| VStr (s : string)
| VList (l : list value)
| VDict (d : list (string * value))
| VObject (cls : pyclass) (attrs : list (string * value)).

Definition dict := list (string * value).

(** Uncaught exceptions.  [PyException msg] is the program's own
    [raise Exception(str(result.errors))]. *)
Inductive exn : Type :=
| JSONDecodeError (msg : string) (pos : nat)
| PyException (msg : string)
| TypeError
| AttributeError (name : string)
| KeyError (key : string)
| RecursionError.

Inductive result (A : Type) : Type :=
| Ok (a : A)
| Raise (e : exn).
Arguments Ok {A} a.
Arguments Raise {A} e.

Definition rbind {A B} (r : result A) (k : A -> result B) : result B :=
  match r with Ok a => k a | Raise e => Raise e end.

(** What one [print] call writes.  The text that [schema.dumps] produces is
    not modelled character by character (its key order follows the hash
    order of the field names): the two lines that show it are kept as the
    object that was serialised. *)
Inductive line : Type :=
| Line (text : string)
| DumpsLine (obj : value)             (* print(out.data), out = schema.dumps(obj) *)
| MarshalResultLine (obj : value).    (* print(dataout), dataout = schema.dumps(obj) *)

(** A computation that prints: the lines written so far and how it ended.
    Standard output accepts every line. *)
Definition io (A : Type) : Type := list line * result A.

Definition io_ret {A} (a : A) : io A := ([], Ok a).
Definition io_bind {A B} (c : io A) (k : A -> io B) : io B :=
  match c with
  | (out, Ok a) => let '(out', r) := k a in (out ++ out', r)
  | (out, Raise e) => (out, Raise e)
  end.
Definition io_lift {A} (r : result A) : io A := ([], r).
Definition print (s : string) : io unit := ([Line s], Ok tt).
Definition pass : io unit := io_ret tt.
Definition raise {A} (e : exn) : io A := ([], Raise e).

(** A [for] loop whose body prints. *)
Fixpoint for_each {A} (l : list A) (body : A -> io unit) : io unit :=
  match l with
  | [] => io_ret tt
  | x :: l' => io_bind (body x) (fun _ => for_each l' body)
  end.

Declare Scope io_scope.
Delimit Scope io_scope with io.
Notation "x <- c ;; k" := (io_bind c (fun x => k))
  (at level 61, c at next level, right associativity) : io_scope.
Notation "c ;; k" := (io_bind c (fun _ => k))
  (at level 61, right associativity) : io_scope.

Declare Scope result_scope.
Delimit Scope result_scope with result.
Notation "x <- c ;; k" := (rbind c (fun x => k))
  (at level 61, c at next level, right associativity) : result_scope.

(** ** Dictionaries and attribute access *)

Fixpoint dict_get {A} (k : string) (d : list (string * A)) : option A :=
  match d with
  | [] => None
  | (k', v) :: d' => if String.eqb k k' then Some v else dict_get k d'
  end.

(** [d[k] = v]: replaces in place, or appends. *)
Fixpoint dict_set {A} (k : string) (v : A) (d : list (string * A)) : list (string * A) :=
  match d with
  | [] => [(k, v)]
  | (k', v') :: d' =>
      if String.eqb k k' then (k, v) :: d' else (k', v') :: dict_set k v d'
  end.

Definition dict_mem {A} (k : string) (d : list (string * A)) : bool :=
  match dict_get k d with Some _ => true | None => false end.

(** [dict(pairs)]. *)
Definition dict_of_pairs {A} (pairs : list (string * A)) : list (string * A) :=
  fold_left (fun d kv => dict_set (fst kv) (snd kv) d) pairs [].

(** [obj.name] *)
Definition getattr (obj : value) (name : string) : result value :=
  match obj with
  | VObject _ attrs =>
      match dict_get name attrs with
      | Some v => Ok v
      | None => Raise (AttributeError name)
      end
  | _ => Raise (AttributeError name)
  end.

(** [obj.name = v] on an instance. *)
Definition setattr (obj : value) (name : string) (v : value) : result value :=
  match obj with
  | VObject c attrs => Ok (VObject c (dict_set name v attrs))
  | _ => Raise (AttributeError name)
  end.

(** [obj[key]] with a string key. *)
Definition getitem (obj : value) (key : string) : result value :=
  match obj with
  | VDict d =>
      match dict_get key d with
      | Some v => Ok v
      | None => Raise (KeyError key)
      end
  | _ => Raise TypeError
  end.

(** [key in obj] with a string key: membership in a dict, in a list
    (equality with an element, only a [str] element can be equal), substring
    of a [str]; other operands are not containers. *)
Fixpoint substring_at (sub s : string) : bool :=
  match sub, s with
  | EmptyString, _ => true
  | String a sub', String b s' => Ascii.eqb a b && substring_at sub' s'
  | String _ _, EmptyString => false
  end.

Fixpoint is_substring (sub s : string) : bool :=
  substring_at sub s ||
  match s with
  | EmptyString => false
  | String _ s' => is_substring sub s'
  end.

Definition py_in (key : string) (obj : value) : result bool :=
  match obj with
  | VDict d => Ok (dict_mem key d)
  | VList l =>
      Ok (existsb (fun x => match x with VStr s => String.eqb key s | _ => false end) l)
  | VStr s => Ok (is_substring key s)
  | _ => Raise TypeError
  end.

(** The elements a [for] loop visits. *)
Definition py_iter (obj : value) : result (list value) :=
  match obj with
  | VList l => Ok l
  | VDict d => Ok (map (fun kv => VStr (fst kv)) d)
  | VStr s => Ok (map (fun c => VStr (String c EmptyString)) (list_ascii_of_string s))
  | _ => Raise TypeError
  end.

(** [a + b] where [b] is a [str]. *)
Definition py_add_str (a : value) (b : string) : result string :=
  match a with
  | VStr s => Ok (s ++ b)%string
  | _ => Raise TypeError
  end.

(** ** Numbers and their conversions *)

(** What [int(x)] and [float(x)] can do: return, or raise one of three
    exceptions that marshmallow tells apart. *)
Inductive conv (A : Type) : Type :=
| Conv (a : A)
| ConvValueError
| ConvTypeError
| ConvOverflowError.
Arguments Conv {A} a.
Arguments ConvValueError {A}.
Arguments ConvTypeError {A}.
Arguments ConvOverflowError {A}.

Definition pyfloat_eqb (a b : pyfloat) : bool :=
  match a, b with
  | FZero s, FZero t => Bool.eqb s t
  | FInf s, FInf t => Bool.eqb s t
  | FNan, FNan => true
  | FFinite s m e, FFinite t n f => Bool.eqb s t && Pos.eqb m n && Z.eqb e f
  | _, _ => false
  end.

(** The integer nearest to [p / q] ([0 < q]), ties to even. *)
Definition round_half_even (p q : Z) : Z :=
  let (k, r) := Z.div_eucl p q in
  match Z.compare (2 * r) q with
  | Lt => k
  | Gt => (k + 1)%Z
  | Eq => if Z.even k then k else (k + 1)%Z
  end.

(** The binary64 number nearest to [p / q], for [0 < p] and [0 < q]. *)
Definition float_of_ratio (neg : bool) (p q : Z) : pyfloat :=
  let lg := (Z.log2 p - Z.log2 q)%Z in
  let below :=
    if (0 <=? lg)%Z then (p <? q * 2 ^ lg)%Z else (p * 2 ^ (- lg) <? q)%Z in
  let e1 := (if below then lg - 53 else lg - 52)%Z in
  let e := Z.max e1 (-1074) in
  let m := if (0 <=? e)%Z then round_half_even p (q * 2 ^ e)
           else round_half_even (p * 2 ^ (- e)) q in
  let '(m, e) := if (m =? 2 ^ 53)%Z then ((2 ^ 52)%Z, (e + 1)%Z) else (m, e) in
  match m with
  | Zpos mp => if (971 <? e)%Z then FInf neg else FFinite neg mp e
  | _ => FZero neg
  end.

(** The binary64 number nearest to [m * 10^e], for [0 <= m]: what [float]
    makes of a decimal literal. *)
Definition float_of_decimal (neg : bool) (m e : Z) : pyfloat :=
  if (m =? 0)%Z then FZero neg
  else if (310 <? Z.log2 m * 3 / 10 + e)%Z then FInf neg
  else if ((Z.log2 m + 1) * 31 / 100 + 1 + e <? -326)%Z then FZero neg
  else if (0 <=? e)%Z then float_of_ratio neg (m * 10 ^ e) 1
  else float_of_ratio neg m (10 ^ (- e)).

(** [float(z)] for an [int]. *)
Definition float_of_Z (z : Z) : conv pyfloat :=
  match z with
  | Z0 => Conv (FZero false)
  | _ =>
      match float_of_ratio (z <? 0)%Z (Z.abs z) 1 with
      | FInf _ => ConvOverflowError
      | f => Conv f
      end
  end.

(** [int(f)] for a [float]: truncation towards zero. *)
Definition Z_of_float (f : pyfloat) : conv Z :=
  match f with
  | FZero _ => Conv 0%Z
  | FInf _ => ConvOverflowError
  | FNan => ConvValueError
  | FFinite neg m e =>
      let a := if (0 <=? e)%Z then (Zpos m * 2 ^ e)%Z else (Zpos m / 2 ^ (- e))%Z in
      Conv (if neg then (- a)%Z else a)
  end.

(** *** Characters *)

Definition is_digit (c : ascii) : bool :=
  (48 <=? nat_of_ascii c)%nat && (nat_of_ascii c <=? 57)%nat.

Definition digit_val (c : ascii) : Z := (Z.of_nat (nat_of_ascii c) - 48)%Z.

(** The ASCII characters that [str.strip], [int] and [float] skip. *)
Definition is_space (c : ascii) : bool :=
  let n := nat_of_ascii c in
  (n =? 32)%nat || ((9 <=? n)%nat && (n <=? 13)%nat) || ((28 <=? n)%nat && (n <=? 31)%nat).

Definition lower (c : ascii) : ascii :=
  let n := nat_of_ascii c in
  if (65 <=? n)%nat && (n <=? 90)%nat then ascii_of_nat (n + 32) else c.

Fixpoint lstrip (s : list ascii) : list ascii :=
  match s with
  | c :: s' => if is_space c then lstrip s' else s
  | [] => []
  end.

Definition strip (s : list ascii) : list ascii := rev (lstrip (rev (lstrip s))).

(** A run of digits in which single underscores may separate digits:
    the accumulated value, the number of digits, and what follows. *)
Fixpoint digit_run (s : list ascii) (acc : Z) (n : Z) : Z * Z * list ascii :=
  match s with
  | c :: s' =>
      if is_digit c then digit_run s' (acc * 10 + digit_val c)%Z (n + 1)%Z
      else
        match s' with
        | d :: _ =>
            if Ascii.eqb c "_" && is_digit d && (0 <? n)%Z then digit_run s' acc n
            else (acc, n, s)
        | [] => (acc, n, s)
        end
  | [] => (acc, n, s)
  end.

Definition split_sign (s : list ascii) : bool * list ascii :=
  match s with
  | "-"%char :: s' => (true, s')
  | "+"%char :: s' => (false, s')
  | _ => (false, s)
  end.

(** [int(s)] for a [str], base ten. *)
Definition Z_of_string (s : string) : conv Z :=
  let '(neg, body) := split_sign (strip (list_ascii_of_string s)) in
  match digit_run body 0 0 with
  | (z, n, []) =>
      if (0 <? n)%Z then Conv (if neg then (- z)%Z else z) else ConvValueError
  | _ => ConvValueError
  end.

(** [float(s)] for a [str]. *)
Definition float_of_string (s : string) : conv pyfloat :=
  let '(neg, body) := split_sign (strip (list_ascii_of_string s)) in
  let word := string_of_list_ascii (map lower body) in
  if String.eqb word "inf" || String.eqb word "infinity" then Conv (FInf neg)
  else if String.eqb word "nan" then Conv FNan
  else
    let '(ip, ni, r1) := digit_run body 0 0 in
    let '(m, nf, r2) :=
      match r1 with
      | "."%char :: r => digit_run r ip 0
      | _ => (ip, 0%Z, r1)
      end in
    if (ni + nf =? 0)%Z then ConvValueError
    else
      match r2 with
      | [] => Conv (float_of_decimal neg m (- nf))
      | c :: r =>
          if Ascii.eqb (lower c) "e" then
            let '(eneg, r3) := split_sign r in
            match digit_run r3 0 0 with
            | (x, nx, []) =>
                if (0 <? nx)%Z
                then Conv (float_of_decimal neg m ((if eneg then - x else x) - nf))
                else ConvValueError
            | _ => ConvValueError
            end
          else ConvValueError
      end.

(** ** [str] and [repr] *)

Local Open Scope string_scope.

Definition string_of_Z (z : Z) : string :=
  match z with
  | Z0 => "0"
  | Zpos p => NilEmpty.string_of_uint (Pos.to_uint p)
  | Zneg p => "-" ++ NilEmpty.string_of_uint (Pos.to_uint p)
  end.

Fixpoint repeat_string (n : nat) (s : string) : string :=
  match n with
  | O => ""
  | S n' => s ++ repeat_string n' s
  end.

(** [p / q < 10^d] *)
Definition ratio_lt_pow10 (p q d : Z) : bool :=
  if (0 <=? d)%Z then (p <? q * 10 ^ d)%Z else (p * 10 ^ (- d) <? q)%Z.

(** The [d] with [10^(d-1) <= p/q < 10^d], searched from an estimate. *)
Fixpoint adjust_decpt (fuel : nat) (p q d : Z) : Z :=
  match fuel with
  | O => d
  | S n =>
      if ratio_lt_pow10 p q (d - 1) then adjust_decpt n p q (d - 1)
      else if ratio_lt_pow10 p q d then d
      else adjust_decpt n p q (d + 1)
  end.

Definition decpt_of (p q : Z) : Z :=
  adjust_decpt 8 p q ((Z.log2 p - Z.log2 q) * 30103 / 100000 + 1).

(** The shortest decimal that reads back as [FFinite neg m e]: for growing
    numbers of digits [n], the two [n]-digit decimals around the exact value
    are tried, the nearer first.  Returns the digits as an integer and the
    power of ten that scales them. *)
Fixpoint shortest_decimal (fuel : nat) (n : Z) (neg : bool) (m : positive) (e : Z)
    (p q dp : Z) : Z * Z :=
  let s := (n - dp)%Z in
  let '(num, den) := if (0 <=? s)%Z then ((p * 10 ^ s)%Z, q) else (p, (q * 10 ^ (- s))%Z) in
  let lo := (num / den)%Z in
  let hi := (lo + 1)%Z in
  let reads d := pyfloat_eqb (float_of_decimal neg d (- s)) (FFinite neg m e) in
  let near := round_half_even num den in
  let far := if (near =? lo)%Z then hi else lo in
  match fuel with
  | O => (near, (- s)%Z)
  | S fuel' =>
      if reads near then (near, (- s)%Z)
      else if reads far then (far, (- s)%Z)
      else shortest_decimal fuel' (n + 1) neg m e p q dp
  end.

Fixpoint strip_zeros (fuel : nat) (d x : Z) : Z * Z :=
  match fuel with
  | O => (d, x)
  | S n => if (d mod 10 =? 0)%Z then strip_zeros n (d / 10) (x + 1) else (d, x)
  end.

(** [repr(f)], the shortest string that reads back as [f]; fixed notation
    when the decimal point falls within [-4 < decpt <= 16], exponent
    notation otherwise. *)
Definition float_repr (f : pyfloat) : string :=
  match f with
  | FNan => "nan"
  | FInf neg => if neg then "-inf" else "inf"
  | FZero neg => if neg then "-0.0" else "0.0"
  | FFinite neg m e =>
      let '(p, q) := if (0 <=? e)%Z then ((Zpos m * 2 ^ e)%Z, 1%Z)
                     else (Zpos m, (2 ^ (- e))%Z) in
      let dp := decpt_of p q in
      let '(d0, x0) := shortest_decimal 16 1 neg m e p q dp in
      let '(d, x) := strip_zeros 20 d0 x0 in
      let digits := string_of_Z d in
      let nd := Z.of_nat (String.length digits) in
      let decpt := (nd + x)%Z in
      let sign := if neg then "-" else "" in
      let body :=
        if ((-4 <? decpt) && (decpt <=? 16))%Z then
          if (decpt <=? 0)%Z then
            "0." ++ repeat_string (Z.to_nat (- decpt)) "0" ++ digits
          else if (nd <=? decpt)%Z then
            digits ++ repeat_string (Z.to_nat (decpt - nd)) "0" ++ ".0"
          else
            substring 0 (Z.to_nat decpt) digits ++ "." ++
            substring (Z.to_nat decpt) (Z.to_nat (nd - decpt)) digits
        else
          let ex := (decpt - 1)%Z in
          let mant :=
            if (nd =? 1)%Z then digits
            else substring 0 1 digits ++ "." ++ substring 1 (Z.to_nat (nd - 1)) digits in
          let exs := string_of_Z (Z.abs ex) in
          mant ++ "e" ++ (if (ex <? 0)%Z then "-" else "+") ++
          (if (Z.abs ex <? 10)%Z then "0" ++ exs else exs) in
      sign ++ body
  end.

Definition hex_digit (n : nat) : ascii :=
  if (n <? 10)%nat then ascii_of_nat (48 + n) else ascii_of_nat (87 + n).

(** The double quote character. *)
Definition DQUOTE : ascii := ascii_of_nat 34.

Fixpoint contains_char (c : ascii) (s : string) : bool :=
  match s with
  | EmptyString => false
  | String a s' => Ascii.eqb a c || contains_char c s'
  end.

Fixpoint escape_chars (quote : ascii) (s : string) : string :=
  match s with
  | EmptyString => ""
  | String c s' =>
      let n := nat_of_ascii c in
      let rest := escape_chars quote s' in
      if Ascii.eqb c quote || Ascii.eqb c "\" then String "\" (String c rest)
      else if (n =? 9)%nat then "\t" ++ rest
      else if (n =? 10)%nat then "\n" ++ rest
      else if (n =? 13)%nat then "\r" ++ rest
      else if (n <? 32)%nat || (n =? 127)%nat then
        "\x" ++ String (hex_digit (n / 16)) (String (hex_digit (n mod 16)) rest)
      else String c rest
  end.

(** [repr(s)] for a [str]: single quotes unless the text has a single quote
    and no double quote. *)
Definition str_repr (s : string) : string :=
  let quote := if contains_char "'" s && negb (contains_char DQUOTE s)
               then DQUOTE else "'"%char in
  String quote (escape_chars quote s ++ String quote "").

Fixpoint insert_sorted (kv : string * string) (l : list (string * string))
    : list (string * string) :=
  match l with
  | [] => [kv]
  | kv' :: l' =>
      if String.leb (fst kv) (fst kv') then kv :: l else kv' :: insert_sorted kv l'
  end.

Definition sort_by_key (l : list (string * string)) : list (string * string) :=
  fold_right insert_sorted [] l.

Definition class_name (c : pyclass) : string :=
  match c with
  | SimpleNamespace => "types.SimpleNamespace"
  | Extra => "__main__.method01.<locals>.Extra"
  | Location => "__main__.method01.<locals>.Location"
  | Station => "__main__.method01.<locals>.Station"
  | Network => "__main__.method01.<locals>.Network"
  | CityBikesAPI => "__main__.method01.<locals>.CityBikesAPI"
  | Station03 => "__main__.method03.<locals>.Station"
  end.

(** [str(v)] when [as_repr] is false, [repr(v)] when it is true.  The classes
    of method01 define [__repr__] as
    [str(self.__class__) + " " + str(self.__dict__)]; the class of method03
    defines [__str__] only, and its default [repr] is given without the
    object's address. *)
Fixpoint py_format (as_repr : bool) (v : value) : string :=
  match v with
  | VNone => "None"
  | VBool b => if b then "True" else "False"
  | VInt z => string_of_Z z
  | VFloat f => float_repr f
  | VStr s => if as_repr then str_repr s else s
  | VList l => "[" ++ String.concat ", " (map (py_format true) l) ++ "]"
  | VDict d =>
      "{" ++ String.concat ", "
        (map (fun kv => str_repr (fst kv) ++ ": " ++ py_format true (snd kv)) d) ++ "}"
  | VObject SimpleNamespace attrs =>
      "namespace(" ++ String.concat ", "
        (map (fun kv => fst kv ++ "=" ++ snd kv)
           (sort_by_key (map (fun kv => (fst kv, py_format true (snd kv))) attrs))) ++ ")"
  | VObject Station03 attrs =>
      if as_repr then "<" ++ class_name Station03 ++ " object>"
      else
        let strs := map (fun kv => (fst kv, py_format false (snd kv))) attrs in
        match dict_get "name" strs, dict_get "free_bikes" strs with
        | Some n, Some f => n ++ " | Free Bikes: " ++ f
        | _, _ => ""
        end
  | VObject c attrs =>
      "<class '" ++ class_name c ++ "'> {" ++ String.concat ", "
        (map (fun kv => str_repr (fst kv) ++ ": " ++ py_format true (snd kv)) attrs) ++ "}"
  end.

Definition py_str (v : value) : string := py_format false v.
Definition py_repr (v : value) : string := py_format true v.

(** ** [json.loads]

    The decoder of the standard library ([json/decoder.py],
    [json/scanner.py]; messages and positions as the C scanner reports
    them), with its [object_hook] argument.  Positions are computed from the
    number of characters left. *)

Local Open Scope list_scope.

Inductive scan (A : Type) : Type :=
| Scanned (a : A) (rest : list ascii)
| ScanError (msg : string) (left : nat)    (* JSONDecodeError *)
| StopIteration (left : nat)
| DepthExceeded.                           (* RecursionError *)
Arguments Scanned {A} a rest.
Arguments ScanError {A} msg left.
Arguments StopIteration {A} left.
Arguments DepthExceeded {A}.

(** WHITESPACE = [ \t\n\r]* *)
Definition is_json_ws (c : ascii) : bool :=
  let n := nat_of_ascii c in
  (n =? 32)%nat || (n =? 9)%nat || (n =? 10)%nat || (n =? 13)%nat.

Fixpoint skip_ws (s : list ascii) : list ascii :=
  match s with
  | c :: s' => if is_json_ws c then skip_ws s' else s
  | [] => []
  end.

Fixpoint strip_prefix (p : string) (s : list ascii) : option (list ascii) :=
  match p, s with
  | EmptyString, _ => Some s
  | String a p', b :: s' => if Ascii.eqb a b then strip_prefix p' s' else None
  | String _ _, [] => None
  end.

Definition hex_val (c : ascii) : option Z :=
  let n := nat_of_ascii c in
  if is_digit c then Some (Z.of_nat n - 48)%Z
  else if (97 <=? n)%nat && (n <=? 102)%nat then Some (Z.of_nat n - 87)%Z
  else if (65 <=? n)%nat && (n <=? 70)%nat then Some (Z.of_nat n - 55)%Z
  else None.

(** _decode_uXXXX: four hexadecimal digits. *)
Definition decode_uXXXX (s : list ascii) : option (Z * list ascii) :=
  match s with
  | a :: b :: c :: d :: r =>
      match hex_val a, hex_val b, hex_val c, hex_val d with
      | Some x, Some y, Some z, Some w => Some ((((x * 16 + y) * 16 + z) * 16 + w)%Z, r)
      | _, _, _, _ => None
      end
  | _ => None
  end.

Definition byte (z : Z) : ascii := ascii_of_N (Z.to_N z).

(** chr(uni), as the bytes of its UTF-8 encoding. *)
Definition chr (uni : Z) : list ascii :=
  if (uni <? 128)%Z then [byte uni]
  else if (uni <? 2048)%Z then [byte (192 + uni / 64); byte (128 + uni mod 64)]
  else if (uni <? 65536)%Z then
    [byte (224 + uni / 4096); byte (128 + uni / 64 mod 64); byte (128 + uni mod 64)]
  else
    [byte (240 + uni / 262144); byte (128 + uni / 4096 mod 64);
     byte (128 + uni / 64 mod 64); byte (128 + uni mod 64)].

(** BACKSLASH *)
Definition BACKSLASH (esc : ascii) : option ascii :=
  if Ascii.eqb esc DQUOTE then Some DQUOTE
  else if Ascii.eqb esc "\" then Some "\"%char
  else if Ascii.eqb esc "/" then Some "/"%char
  else if Ascii.eqb esc "b" then Some (ascii_of_nat 8)
  else if Ascii.eqb esc "f" then Some (ascii_of_nat 12)
  else if Ascii.eqb esc "n" then Some (ascii_of_nat 10)
  else if Ascii.eqb esc "r" then Some (ascii_of_nat 13)
  else if Ascii.eqb esc "t" then Some (ascii_of_nat 9)
  else None.

(** scanstring, strict: [s] starts after the opening quote, [begin] is the
    number of characters left at that quote, [chunks] the decoded characters
    so far, last first. *)
Fixpoint scanstring (fuel : nat) (s : list ascii) (begin : nat) (chunks : list ascii)
    : scan string :=
  match fuel with
  | O => ScanError "Unterminated string starting at" begin
  | S fuel' =>
      match s with
      | [] => ScanError "Unterminated string starting at" begin
      | c :: r =>
          if Ascii.eqb c DQUOTE then Scanned (string_of_list_ascii (rev chunks)) r
          else if Ascii.eqb c "\" then
            match r with
            | [] => ScanError "Unterminated string starting at" begin
            | esc :: r1 =>
                if negb (Ascii.eqb esc "u") then
                  match BACKSLASH esc with
                  | Some char => scanstring fuel' r1 begin (char :: chunks)
                  | None => ScanError "Invalid \escape" (List.length s)
                  end
                else
                  match decode_uXXXX r1 with
                  | None => ScanError "Invalid \uXXXX escape" (List.length r)
                  | Some (uni, r2) =>
                      let single := scanstring fuel' r2 begin (rev (chr uni) ++ chunks) in
                      if ((55296 <=? uni) && (uni <=? 56319))%Z then
                        match r2 with
                        | "\"%char :: "u"%char :: r3 =>
                            match decode_uXXXX r3 with
                            | None => ScanError "Invalid \uXXXX escape" (S (List.length r3))
                            | Some (uni2, r4) =>
                                if ((56320 <=? uni2) && (uni2 <=? 57343))%Z then
                                  let uni' := (65536 + ((uni - 55296) * 1024 + (uni2 - 56320)))%Z in
                                  scanstring fuel' r4 begin (rev (chr uni') ++ chunks)
                                else single
                            end
                        | _ => single
                        end
                      else single
                  end
            end
          else if (nat_of_ascii c <? 32)%nat then
            ScanError "Invalid control character at" (List.length s)
          else scanstring fuel' r begin (c :: chunks)
      end
  end.

Fixpoint take_digits (s : list ascii) (acc : Z) (n : Z) : Z * Z * list ascii :=
  match s with
  | c :: s' =>
      if is_digit c then take_digits s' (acc * 10 + digit_val c)%Z (n + 1)%Z
      else (acc, n, s)
  | [] => (acc, n, s)
  end.

(** NUMBER_RE followed by [parse_int] or [parse_float]: an optional minus
    sign, then 0 or a nonzero digit and more digits, an optional fraction
    (a dot and at least one digit), an optional exponent (e or E, an
    optional sign, at least one digit). *)
Definition match_number (s : list ascii) : option (value * list ascii) :=
  let '(neg, s0) := match s with
                    | "-"%char :: r => (true, r)
                    | _ => (false, s)
                    end in
  let integer :=
    match s0 with
    | c :: r =>
        if Ascii.eqb c "0" then Some (0%Z, r)
        else if is_digit c then
          let '(z, _, r') := take_digits s0 0 0 in Some (z, r')
        else None
    | [] => None
    end in
  match integer with
  | None => None
  | Some (ip, r1) =>
      let '(m, nf, r2) :=
        match r1 with
        | "."%char :: d :: _ =>
            if is_digit d then take_digits (tl r1) ip 0 else (ip, 0%Z, r1)
        | _ => (ip, 0%Z, r1)
        end in
      let '(ex, r3) :=
        match r2 with
        | c :: r =>
            if Ascii.eqb c "e" || Ascii.eqb c "E" then
              let '(eneg, rs) :=
                match r with
                | "-"%char :: r' => (true, r')
                | "+"%char :: r' => (false, r')
                | _ => (false, r)
                end in
              match take_digits rs 0 0 with
              | (x, nx, r') =>
                  if (0 <? nx)%Z then (Some (if eneg then (- x)%Z else x), r')
                  else (None, r2)
              end
            else (None, r2)
        | [] => (None, r2)
        end in
      match ex, (0 <? nf)%Z with
      | None, false => Some (VInt (if neg then (- ip)%Z else ip), r3)
      | Some x, _ => Some (VFloat (float_of_decimal neg m (x - nf)), r3)
      | None, true => Some (VFloat (float_of_decimal neg m (- nf)), r3)
      end
  end.

Section Decoder.

(** [object_hook]; the identity [VDict] when none is given. *)
Variable object_hook : dict -> value.

(** The [while True] loop of JSONArray; [values] last first. *)
Fixpoint array_loop (scan_once : list ascii -> scan value) (fuel : nat)
    (s : list ascii) (values : list value) : scan value :=
  match fuel with
  | O => DepthExceeded
  | S fuel' =>
      match scan_once s with
      | Scanned v r =>
          let r := skip_ws r in
          match r with
          | "]"%char :: r' => Scanned (VList (rev (v :: values))) r'
          | ","%char :: r' => array_loop scan_once fuel' (skip_ws r') (v :: values)
          | _ => ScanError "Expecting ',' delimiter" (List.length r)
          end
      | StopIteration n => ScanError "Expecting value" n
      | ScanError msg n => ScanError msg n
      | DepthExceeded => DepthExceeded
      end
  end.

Definition JSONArray (scan_once : list ascii -> scan value) (s : list ascii)
    : scan value :=
  let s := skip_ws s in
  match s with
  | "]"%char :: r => Scanned (VList []) r
  | _ => array_loop scan_once (S (List.length s)) s []
  end.

(** The [while True] loop of JSONObject; [s] starts after the opening quote
    of a key, [pairs] last first. *)
Fixpoint object_loop (scan_once : list ascii -> scan value) (fuel : nat)
    (s : list ascii) (pairs : list (string * value)) : scan value :=
  match fuel with
  | O => DepthExceeded
  | S fuel' =>
      match scanstring (List.length s) s (S (List.length s)) [] with
      | Scanned key r =>
          let r := skip_ws r in
          match r with
          | ":"%char :: r1 =>
              match scan_once (skip_ws r1) with
              | Scanned v r2 =>
                  let r2 := skip_ws r2 in
                  match r2 with
                  | "}"%char :: r3 =>
                      Scanned (object_hook (dict_of_pairs (rev ((key, v) :: pairs)))) r3
                  | ","%char :: r3 =>
                      let r3 := skip_ws r3 in
                      match r3 with
                      | c :: r4 =>
                          if Ascii.eqb c DQUOTE
                          then object_loop scan_once fuel' r4 ((key, v) :: pairs)
                          else
                            ScanError "Expecting property name enclosed in double quotes"
                              (List.length r3)
                      | [] =>
                          ScanError "Expecting property name enclosed in double quotes"
                            (List.length r3)
                      end
                  | _ => ScanError "Expecting ',' delimiter" (List.length r2)
                  end
              | StopIteration n => ScanError "Expecting value" n
              | ScanError msg n => ScanError msg n
              | DepthExceeded => DepthExceeded
              end
          | _ => ScanError "Expecting ':' delimiter" (List.length r)
          end
      | ScanError msg n => ScanError msg n
      | StopIteration n => StopIteration n
      | DepthExceeded => DepthExceeded
      end
  end.

Definition JSONObject (scan_once : list ascii -> scan value) (s : list ascii)
    : scan value :=
  let s := skip_ws s in
  match s with
  | c :: r =>
      if Ascii.eqb c "}" then Scanned (object_hook []) r
      else if Ascii.eqb c DQUOTE then object_loop scan_once (S (List.length r)) r []
      else ScanError "Expecting property name enclosed in double quotes" (List.length s)
  | [] => ScanError "Expecting property name enclosed in double quotes" (List.length s)
  end.

(** _scan_once *)
Fixpoint scan_once (fuel : nat) (s : list ascii) : scan value :=
  match fuel with
  | O => DepthExceeded
  | S fuel' =>
      match s with
      | [] => StopIteration 0
      | nextchar :: r =>
          if Ascii.eqb nextchar DQUOTE then
            match scanstring (List.length r) r (List.length s) [] with
            | Scanned str r' => Scanned (VStr str) r'
            | ScanError msg n => ScanError msg n
            | StopIteration n => StopIteration n
            | DepthExceeded => DepthExceeded
            end
          else if Ascii.eqb nextchar "{" then JSONObject (scan_once fuel') r
          else if Ascii.eqb nextchar "[" then JSONArray (scan_once fuel') r
          else
            match strip_prefix "null" s, strip_prefix "true" s, strip_prefix "false" s with
            | Some r', _, _ => Scanned VNone r'
            | _, Some r', _ => Scanned (VBool true) r'
            | _, _, Some r' => Scanned (VBool false) r'
            | None, None, None =>
                match match_number s with
                | Some (res, r') => Scanned res r'
                | None =>
                    match strip_prefix "NaN" s, strip_prefix "Infinity" s,
                          strip_prefix "-Infinity" s with
                    | Some r', _, _ => Scanned (VFloat FNan) r'
                    | _, Some r', _ => Scanned (VFloat (FInf false)) r'
                    | _, _, Some r' => Scanned (VFloat (FInf true)) r'
                    | None, None, None => StopIteration (List.length s)
                    end
                end
            end
      end
  end.

(** JSONDecoder.decode, after the byte-order-mark check of [json.loads];
    [pos] is counted from the start of the text. *)
Definition json_loads (text : string) : result value :=
  let s := list_ascii_of_string text in
  let pos n := (List.length s - n)%nat in
  match strip_prefix (String (byte 239) (String (byte 187) (String (byte 191) ""))) s with
  | Some _ =>
      Raise (JSONDecodeError "Unexpected UTF-8 BOM (decode using utf-8-sig)" 0)
  | None =>
      match scan_once (S (List.length s)) (skip_ws s) with
      | Scanned obj r =>
          match skip_ws r with
          | [] => Ok obj
          | r' => Raise (JSONDecodeError "Extra data" (pos (List.length r')))
          end
      | StopIteration n => Raise (JSONDecodeError "Expecting value" (pos n))
      | ScanError msg n => Raise (JSONDecodeError msg (pos n))
      | DepthExceeded => Raise RecursionError
      end
  end.

End Decoder.

(** ** More of the runtime: [int], [float], truth values, [type] *)

(** [int(v)] *)
Definition py_int (v : value) : conv Z :=
  match v with
  | VBool b => Conv (if b then 1%Z else 0%Z)
  | VInt z => Conv z
  | VFloat f => Z_of_float f
  | VStr s => Z_of_string s
  | _ => ConvTypeError
  end.

(** [float(v)] *)
Definition py_float (v : value) : conv pyfloat :=
  match v with
  | VBool b => Conv (if b then FFinite false 4503599627370496 (-52) else FZero false)
  | VInt z => float_of_Z z
  | VFloat f => Conv f
  | VStr s => float_of_string s
  | _ => ConvTypeError
  end.

(** The truth value of [v], as in [err.data or missing]. *)
Definition py_truthy (v : value) : bool :=
  match v with
  | VNone => false
  | VBool b => b
  | VInt z => negb (z =? 0)%Z
  | VFloat (FZero _) => false
  | VFloat _ => true
  | VStr s => negb (String.eqb s "")
  | VList l => negb (Nat.eqb (List.length l) 0)
  | VDict d => negb (Nat.eqb (List.length d) 0)
  | VObject _ _ => true
  end.

(** [str(type(v))] *)
Definition py_type_str (v : value) : string :=
  let name :=
    match v with
    | VNone => "NoneType"
    | VBool _ => "bool"
    | VInt _ => "int"
    | VFloat _ => "float"
    | VStr _ => "str"
    | VList _ => "list"
    | VDict _ => "dict"
    | VObject c _ => class_name c
    end in
  ("<class '" ++ name ++ "'>")%string.

(** Calling a class with a dictionary unpacked into keyword arguments (the
    source's two stars), for a class whose [__init__] takes the parameters
    [params], none with a default, and assigns each to the attribute of the
    same name, in this order.  Every class of the program is of this kind.  A
    missing or an unexpected argument is a TypeError. *)
Definition instantiate (cls : pyclass) (params : list string) (kwargs : dict)
    : result value :=
  if forallb (fun p => dict_mem p kwargs) params
     && forallb (fun kv => existsb (String.eqb (fst kv)) params) kwargs
  then Ok (VObject cls
             (map (fun p => (p, match dict_get p kwargs with
                                | Some v => v
                                | None => VNone
                                end)) params))
  else Raise TypeError.

(** ** marshmallow 2: fields, schemas and [Schema.load] *)

(** A schema class: its declared fields and its [post_load] method. *)
Record schema_of (F : Type) : Type := {
  declared_fields : list (string * F);
  post_load : option (dict -> result value)
}.
Arguments declared_fields {F} s.
Arguments post_load {F} s.

Module fields.

(** [marshmallow.fields]: the five field classes the program uses, each
    with its [required] argument. *)
Inductive field : Type :=
| String (required : bool)
| Integer (required : bool)
| Float (required : bool)
| Nested (nested : schema_of field) (required : bool)
| List (container : field) (required : bool).

Definition required (f : field) : bool :=
  match f with
  | String r | Integer r | Float r | Nested _ r | List _ r => r
  end.

End fields.

Abbreviation field := fields.field.
Definition Schema : Type := schema_of field.

(** [required=True], and the default. *)
Notation "'required=True'" := true (only parsing).
Notation "'required=False'" := false (only parsing).

(** Error messages: a list of strings, or a dictionary keyed by field names
    and list indices. *)
Inductive errkey : Type :=
| Name (name : string)
| Index (idx : nat).

Inductive messages : Type :=
| Messages (msgs : list string)
| MessageDict (d : list (errkey * messages)).

Definition errdict := list (errkey * messages).

Record UnmarshalResult : Type := {
  data : value;
  errors : errdict
}.

(** What [Field.deserialize] does: return a value, raise a ValidationError
    (caught by marshmallow), or let another exception through. *)
Inductive deserialized : Type :=
| Deserialized (v : value)
| ValidationError (msgs : messages) (data : value)
| Uncaught (e : exn).

Definition fail (msg : string) : deserialized :=
  ValidationError (Messages [msg]) VNone.

Definition MISSING_MSG := "Missing data for required field.".
Definition NULL_MSG := "Field may not be null.".
Definition SCHEMA := "_schema".

(** *** The [only] option *)

(** [name.split('.', 1)] *)
Fixpoint split_dot (name : string) : string * option string :=
  match name with
  | EmptyString => ("", None)
  | String c rest =>
      if Ascii.eqb c "." then ("", Some rest)
      else let '(h, t) := split_dot rest in (String c h, t)
  end.

(** Whether the schema instance keeps the field [name]. *)
Definition selected (only : option (list string)) (name : string) : bool :=
  match only with
  | None => true
  | Some names => existsb (fun n => String.eqb (fst (split_dot n)) name) names
  end.

(** The [only] attribute that __apply_nested_option sets on the field
    [name]: the remainders of the dotted names that start with it. *)
Definition nested_only (only : option (list string)) (name : string)
    : option (list string) :=
  match only with
  | None => None
  | Some names =>
      match flat_map (fun n => match split_dot n with
                               | (h, Some t) => if String.eqb h name then [t] else []
                               | _ => []
                               end) names with
      | [] => None
      | l => Some l
      end
  end.

(** utils.is_collection on a decoded value, and what [enumerate] yields:
    an iterable that is neither a string nor a mapping.  Of the decoded
    values only a list is one. *)
Definition collection_items (v : value) : option (list value) :=
  match v with
  | VList l => Some l
  | _ => None
  end.

(** The [type] entry of a field's error messages: Nested has its own, the
    other fields inherit the one of Field. *)
Definition type_message (f : field) : string :=
  match f with
  | fields.Nested _ _ => "Invalid type."
  | _ => "Invalid input type."
  end.

(** *** Missing values *)

(** Nested._check_required: the messages of the ValidationError with which
    [Field._validate_missing] answers a missing required field.  A nested
    field reports the required fields of its schema; when there are none, or
    one of them is itself a nested field without required fields, the
    plain message is raised. *)
Fixpoint check_required (f : field) (only : option (list string)) : messages :=
  let plain := Messages [MISSING_MSG] in
  match f with
  | fields.Nested schema _ =>
      let fix loop (fs : list (string * field)) (errs : errdict) : messages :=
        match fs with
        | [] => match errs with [] => plain | _ => MessageDict errs end
        | (name, f') :: fs' =>
            if selected only name && fields.required f' then
              match f' with
              | fields.Nested _ _ =>
                  match check_required f' (nested_only only name) with
                  | Messages msgs => Messages msgs
                  | MessageDict d => loop fs' (errs ++ [(Name name, MessageDict d)])
                  end
              | _ => loop fs' (errs ++ [(Name name, plain)])
              end
            else loop fs' errs
        end in
      loop (declared_fields schema) []
  | _ => plain
  end.

(** *** Unmarshaller and Schema.load *)

Section Load.

(** [Field.deserialize] on a value that is present. *)
Variable deserialize : field -> option (list string) -> value -> deserialized.

(** Unmarshaller.deserialize on a mapping: every selected field in turn.
    A missing field is skipped unless it is required; a ValidationError is
    stored under the field's name and its [data], when true, kept. *)
Fixpoint unmarshal (only : option (list string)) (d : dict)
    (fs : list (string * field)) (ret : dict) (errs : errdict)
    : result (dict * errdict) :=
  match fs with
  | [] => Ok (ret, errs)
  | (attr_name, field_obj) :: fs' =>
      if selected only attr_name then
        match dict_get attr_name d with
        | None =>
            if fields.required field_obj then
              unmarshal only d fs' ret
                (errs ++ [(Name attr_name,
                           check_required field_obj (nested_only only attr_name))])
            else unmarshal only d fs' ret errs
        | Some raw_value =>
            match deserialize field_obj (nested_only only attr_name) raw_value with
            | Deserialized v => unmarshal only d fs' (ret ++ [(attr_name, v)]) errs
            | ValidationError msgs edata =>
                unmarshal only d fs'
                  (if py_truthy edata then ret ++ [(attr_name, edata)] else ret)
                  (errs ++ [(Name attr_name, msgs)])
            | Uncaught e => Raise e
            end
        end
      else unmarshal only d fs' ret errs
  end.

(** Schema.load of an instance made with [only]: unmarshal, then
    [post_load] when there are no errors.

    On [None] the unmarshaller returns [None] without an error, and
    [post_load] is called on it: the methods of this program unpack their
    argument with two stars, which is a TypeError on [None].  On any other
    value that is not a mapping, the first field visited fails on
    [data.get], its [type] message is stored under [_schema] and the loop
    ends with an empty dictionary; with no field to visit the dictionary is
    empty and there is no error.  (The library visits the fields in the
    iteration order of a set of names; here they are taken in declaration
    order, which decides the first field and so this message.) *)
Definition do_load (schema : Schema) (only : option (list string)) (v : value)
    : result UnmarshalResult :=
  match v with
  | VDict d =>
      match unmarshal only d (declared_fields schema) [] [] with
      | Raise e => Raise e
      | Ok (ret, []) =>
          match post_load schema with
          | None => Ok {| data := VDict ret; errors := [] |}
          | Some postload =>
              match postload ret with
              | Ok obj => Ok {| data := obj; errors := [] |}
              | Raise e => Raise e
              end
          end
      | Ok (ret, errs) => Ok {| data := VDict ret; errors := errs |}
      end
  | VNone =>
      match post_load schema with
      | None => Ok {| data := VNone; errors := [] |}
      | Some _ => Raise TypeError
      end
  | _ =>
      match filter (fun nf => selected only (fst nf)) (declared_fields schema) with
      | (_, field_obj) :: _ =>
          Ok {| data := VDict [];
                errors := [(Name SCHEMA, Messages [type_message field_obj])] |}
      | [] =>
          match post_load schema with
          | None => Ok {| data := VDict []; errors := [] |}
          | Some postload =>
              match postload [] with
              | Ok obj => Ok {| data := obj; errors := [] |}
              | Raise e => Raise e
              end
          end
      end
  end.

(** The loop of List._deserialize. *)
Fixpoint list_loop (container : field) (items : list value) (idx : nat)
    (result : list value) (errs : errdict) : deserialized :=
  match items with
  | [] =>
      match errs with
      | [] => Deserialized (VList result)
      | _ => ValidationError (MessageDict errs) (VList result)
      end
  | each :: items' =>
      match deserialize container None each with
      | Deserialized v => list_loop container items' (S idx) (result ++ [v]) errs
      | ValidationError msgs edata =>
          list_loop container items' (S idx) (result ++ [edata])
            (errs ++ [(Index idx, msgs)])
      | Uncaught e => Uncaught e
      end
  end.

End Load.

(** Field.deserialize on a value that is present: [None] is refused, then
    the field's own [_deserialize].  The [only] attribute reaches the schema
    of a Nested field; a List field does not hand it to its container, so
    the elements of a list are loaded with every declared field (the source
    notes it: items on the same level of nesting are loaded too). *)
Fixpoint deserialize (f : field) (only : option (list string)) (v : value)
    : deserialized :=
  match v with
  | VNone => fail NULL_MSG
  | _ =>
      match f with
      | fields.String _ =>
          match v with
          | VStr _ => Deserialized v
          | _ => fail "Not a valid string."
          end
      | fields.Integer _ =>
          match py_int v with
          | Conv z => Deserialized (VInt z)
          | ConvOverflowError => fail "Number too large."
          | _ => fail "Not a valid integer."
          end
      | fields.Float _ =>
          match py_float v with
          | Conv x => Deserialized (VFloat x)
          | ConvOverflowError => fail "Number too large."
          | _ => fail "Not a valid number."
          end
      | fields.Nested schema _ =>
          match do_load deserialize schema only v with
          | Raise e => Uncaught e
          | Ok {| data := dat; errors := [] |} => Deserialized dat
          | Ok {| data := dat; errors := errs |} => ValidationError (MessageDict errs) dat
          end
      | fields.List container _ =>
          match collection_items v with
          | None => fail "Not a valid list."
          | Some items => list_loop deserialize container items 0 [] []
          end
      end
  end.

(** Schema.load and Schema.loads of an instance made with [only]. *)
Definition load (schema : Schema) (only : option (list string)) (v : value)
    : result UnmarshalResult :=
  do_load deserialize schema only v.

Definition loads (schema : Schema) (only : option (list string)) (json_data : string)
    : result UnmarshalResult :=
  rbind (json_loads VDict json_data) (load schema only).

(** [str(errors)] *)
Definition errkey_repr (k : errkey) : string :=
  match k with
  | Name name => str_repr name
  | Index idx => string_of_Z (Z.of_nat idx)
  end.

Fixpoint messages_repr (m : messages) : string :=
  match m with
  | Messages msgs => ("[" ++ String.concat ", " (map str_repr msgs) ++ "]")%string
  | MessageDict d =>
      ("{" ++ String.concat ", "
         (map (fun kv => errkey_repr (fst kv) ++ ": " ++ messages_repr (snd kv)) d)
       ++ "}")%string
  end.

Definition errors_str (errs : errdict) : string := messages_repr (MessageDict errs).

(** ** The program *)

Local Open Scope io_scope.

(** The module-level variable [responsestr], the text read from
    [response.txt] (or fetched from the API), is an argument of every
    method. *)

(** *** method00: nested dictionaries *)

Module Method00.

Definition ExtraSchema : Schema := {|
  declared_fields := [("slots", fields.Integer required=False)];
  post_load := None |}.

Definition LocationSchema : Schema := {|
  declared_fields :=
    [("city", fields.String required=False);
     ("country", fields.String required=False);
     ("latitude", fields.String required=False);
     ("longitude", fields.String required=False)];
  post_load := None |}.

Definition StationSchema : Schema := {|
  declared_fields :=
    [("empty_slots", fields.Integer required=False);
     ("extra", fields.Nested ExtraSchema required=False);
     ("free_bikes", fields.Integer required=True);
     ("id", fields.String required=False);
     ("latitude", fields.Float required=False);
     ("longitude", fields.Float required=False);
     ("name", fields.String required=True);
     ("timestamp", fields.String required=False)];
  post_load := None |}.

Definition NetworkSchema : Schema := {|
  declared_fields :=
    [("company", fields.List (fields.String required=False) required=False);
     ("href", fields.String required=False);
     ("id", fields.String required=False);
     ("location", fields.Nested LocationSchema required=True);
     ("name", fields.String required=False);
     ("stations", fields.List (fields.Nested StationSchema required=False) required=False)];
  post_load := None |}.

Definition CityBikesAPISchema : Schema := {|
  declared_fields := [("network", fields.Nested NetworkSchema required=True)];
  post_load := None |}.

(** schema = CityBikesAPISchema(only=[...]) *)
Definition only : option (list string) :=
  Some ["network.stations.name"; "network.stations.free_bikes"].

End Method00.

Definition method00 (responsestr : string) : io unit :=
  result <- io_lift (loads Method00.CityBikesAPISchema Method00.only responsestr) ;;
  (if Nat.eqb (List.length (errors result)) 0 then pass
   else raise (PyException (errors_str (errors result)))) ;;
  network <- io_lift (getitem (data result) "network") ;;
  stations <- io_lift (getitem network "stations") ;;
  stations <- io_lift (py_iter stations) ;;
  for_each stations (fun station =>
    name <- io_lift (getitem station "name") ;;
    left <- io_lift (py_add_str name " | Free Bikes: ") ;;
    free_bikes <- io_lift (getitem station "free_bikes") ;;
    print (left ++ py_str free_bikes)%string).

(** *** method01: class instances through post_load *)

Module Method01.

(** The classes.  Each [__init__] assigns its parameters to attributes of
    the same names. *)
Definition Extra__init__ := instantiate Extra ["slots"].
Definition Location__init__ := instantiate Location ["city"; "country"].
Definition Station__init__ :=
  instantiate Station
    ["empty_slots"; "extra"; "free_bikes"; "id"; "latitude"; "longitude"; "name";
     "timestamp"].
Definition Network__init__ :=
  instantiate Network ["company"; "href"; "id"; "location"; "name"; "stations"].
Definition CityBikesAPI__init__ := instantiate CityBikesAPI ["network"].

(** The schemas; every [postload] calls the class with the loaded
    dictionary as keyword arguments. *)
Definition ExtraSchema : Schema := {|
  declared_fields := [("slots", fields.Integer required=False)];
  post_load := Some Extra__init__ |}.

Definition LocationSchema : Schema := {|
  declared_fields :=
    [("city", fields.String required=False);
     ("country", fields.String required=False)];
  post_load := Some Location__init__ |}.

Definition StationSchema : Schema := {|
  declared_fields :=
    [("empty_slots", fields.Integer required=False);
     ("extra", fields.Nested ExtraSchema required=False);
     ("free_bikes", fields.Integer required=True);
     ("id", fields.String required=False);
     ("latitude", fields.Float required=False);
     ("longitude", fields.Float required=False);
     ("name", fields.String required=True);
     ("timestamp", fields.String required=False)];
  post_load := Some Station__init__ |}.

Definition NetworkSchema : Schema := {|
  declared_fields :=
    [("company", fields.List (fields.String required=False) required=False);
     ("href", fields.String required=False);
     ("id", fields.String required=False);
     ("location", fields.Nested LocationSchema required=True);
     ("name", fields.String required=False);
     ("stations", fields.List (fields.Nested StationSchema required=False) required=True)];
  post_load := Some Network__init__ |}.

Definition CityBikesAPISchema : Schema := {|
  declared_fields := [("network", fields.Nested NetworkSchema required=True)];
  post_load := Some CityBikesAPI__init__ |}.

End Method01.

(** The two calls of [schema.loads] return distinct objects: the assignment
    to [result.data.network.company] changes the first and leaves
    [datain.data] as it was loaded.  [Store.method01] below runs the same
    lines with the objects in a heap, where the assignment is a change of
    one object; the two print the same lines and end the same way
    ([store_method01_refines]). *)
Definition method01 (responsestr : string) : io unit :=
  result <- io_lift (loads Method01.CityBikesAPISchema None responsestr) ;;
  (if Nat.eqb (List.length (errors result)) 0 then pass
   else raise (PyException (errors_str (errors result)))) ;;
  print (py_str (data result)) ;;
  ([DumpsLine (data result)], Ok tt) ;;
  datain <- io_lift (loads Method01.CityBikesAPISchema None responsestr) ;;
  (if Nat.eqb (List.length (errors result)) 0 then pass
   else raise (PyException (errors_str (errors result)))) ;;
  network <- io_lift (getattr (data result) "network") ;;
  _ <- io_lift (setattr network "company" (VList [VStr "Systems Cyclopolis"])) ;;
  ([MarshalResultLine (data datain)], Ok tt).

(** *** method02: SimpleNamespace *)

Definition method02 (responsestr : string) : io unit :=
  boundclass <- io_lift (json_loads (fun arglist => VObject SimpleNamespace arglist)
                           responsestr) ;;
  network <- io_lift (getattr boundclass "network") ;;
  stations <- io_lift (getattr network "stations") ;;
  items <- io_lift (py_iter stations) ;;
  for_each items (fun station =>
    name <- io_lift (getattr station "name") ;;
    left <- io_lift (py_add_str name " | Free Bikes: ") ;;
    free_bikes <- io_lift (getattr station "free_bikes") ;;
    print (left ++ py_str free_bikes)%string) ;;
  network <- io_lift (getattr boundclass "network") ;;
  stations <- io_lift (getattr network "stations") ;;
  print ("type(boundclass.network.stations): " ++ py_type_str stations)%string.

(** *** method03: a hand-written object hook *)

Module Method03.

(** Station(name, free_bikes) *)
Definition Station__init__ (name free_bikes : value) : value :=
  VObject Station03 [("name", name); ("free_bikes", free_bikes)].

Definition object_decoder (obj : dict) : value :=
  if dict_mem "free_bikes" obj && dict_mem "name" obj then
    match dict_get "name" obj, dict_get "free_bikes" obj with
    | Some name, Some free_bikes => Station__init__ name free_bikes
    | _, _ => VDict obj
    end
  else VDict obj.

Definition object_decode (str : string) : result value :=
  (obj <- json_loads object_decoder str ;;
   has_network <- py_in "network" obj ;;
   if has_network then
     network <- getitem obj "network" ;;
     has_stations <- py_in "stations" network ;;
     if has_stations then
       network <- getitem obj "network" ;;
       getitem network "stations"
     else Ok VNone
   else Ok VNone)%result.

End Method03.

Definition method03 (responsestr : string) : io unit :=
  boundclasslist <- io_lift (Method03.object_decode responsestr) ;;
  items <- io_lift (py_iter boundclasslist) ;;
  for_each items (fun item => print (py_str item)) ;;
  print ("type(boundclasslist): " ++ py_type_str boundclasslist)%string.

(** *** The module's top level *)

Inductive call : Type :=
| CallMethod00
| CallMethod01
| CallMethod02
| CallMethod03.

(** The calls at the end of the file, in order. *)
Definition toplevel : list call := [CallMethod00; CallMethod01; CallMethod02].

Definition methods (c : call) : string -> io unit :=
  match c with
  | CallMethod00 => method00
  | CallMethod01 => method01
  | CallMethod02 => method02
  | CallMethod03 => method03
  end.

(** Running a sequence of calls, given the function each name is bound to:
    the calls that were entered, the lines printed, and how the run ended.
    An exception ends the run. *)
Fixpoint run_calls (bound : call -> string -> io unit) (calls : list call)
    (responsestr : string) : list call * io unit :=
  match calls with
  | [] => ([], io_ret tt)
  | c :: calls' =>
      match bound c responsestr with
      | (out, Ok _) =>
          let '(entered, (out', r)) := run_calls bound calls' responsestr in
          (c :: entered, (out ++ out', r))
      | (out, Raise e) => ([c], (out, Raise e))
      end
  end.

Definition main (responsestr : string) : io unit :=
  snd (run_calls methods toplevel responsestr).

(** ** Notions used to state the properties *)

(** The error kinds of the specification: malformed text, a failed
    validation (the program raises [Exception(str(result.errors))]), and
    everything else. *)
Inductive error_kind : Type :=
| SyntaxErrorKind
| ValidationErrorKind
| OtherErrorKind.

Definition kind_of (e : exn) : error_kind :=
  match e with
  | JSONDecodeError _ _ => SyntaxErrorKind
  | PyException _ => ValidationErrorKind
  | _ => OtherErrorKind
  end.

Definition errkey_eqb (a b : errkey) : bool :=
  match a, b with
  | Name x, Name y => String.eqb x y
  | Index i, Index j => Nat.eqb i j
  | _, _ => false
  end.

Fixpoint errdict_get (k : errkey) (d : errdict) : option messages :=
  match d with
  | [] => None
  | (k', m) :: d' => if errkey_eqb k k' then Some m else errdict_get k d'
  end.

(** The messages stored at a field path such as network.stations[0].name. *)
Fixpoint messages_at (path : list errkey) (m : messages) : option messages :=
  match path with
  | [] => Some m
  | k :: path' =>
      match m with
      | MessageDict d =>
          match errdict_get k d with
          | Some m' => messages_at path' m'
          | None => None
          end
      | Messages _ => None
      end
  end.

Definition errors_at (path : list errkey) (errs : errdict) : option messages :=
  messages_at path (MessageDict errs).

(** The line the presentation loop prints for a station. *)
Definition station_line (name : string) (free_bikes : Z) : line :=
  Line ((name ++ " | Free Bikes: ") ++ string_of_Z free_bikes)%string.

(** The document with the keys that a field's schema does not declare
    removed, at every level. *)
Fixpoint prune (f : field) (v : value) {struct v} : value :=
  match f, v with
  | fields.Nested schema _, VDict d =>
      VDict (flat_map (fun kv =>
                         match dict_get (fst kv) (declared_fields schema) with
                         | Some f' => [(fst kv, prune f' (snd kv))]
                         | None => []
                         end) d)
  | fields.List container _, VList l => VList (map (prune container) l)
  | _, _ => v
  end.

Definition prune_document (schema : Schema) (v : value) : value :=
  prune (fields.Nested schema required=True) v.

(** A value has the shape a field documents: a string, an integer, a number
    (a float, or an integer that a float can hold), an object whose
    selected fields have their shapes and whose required fields are present,
    an array of such. *)
Fixpoint conforms (f : field) (only : option (list string)) (v : value) : bool :=
  match f with
  | fields.String _ => match v with VStr _ => true | _ => false end
  | fields.Integer _ => match v with VInt _ => true | _ => false end
  | fields.Float _ =>
      match v with
      | VFloat _ => true
      | VInt z => match float_of_Z z with Conv _ => true | _ => false end
      | _ => false
      end
  | fields.Nested schema _ =>
      match v with
      | VDict d =>
          forallb (fun nf =>
                     if selected only (fst nf) then
                       match dict_get (fst nf) d with
                       | Some x => conforms (snd nf) (nested_only only (fst nf)) x
                       | None => negb (fields.required (snd nf))
                       end
                     else true) (declared_fields schema)
      | _ => false
      end
  | fields.List container _ =>
      match v with
      | VList l => forallb (conforms container None) l
      | _ => false
      end
  end.

(** The field [g] declares, at every level, the names that [f] declares. *)
Fixpoint covers (g f : field) {struct f} : bool :=
  match f with
  | fields.Nested schema _ =>
      match g with
      | fields.Nested schema' _ =>
          forallb (fun nf =>
                     match dict_get (fst nf) (declared_fields schema') with
                     | Some g' => covers g' (snd nf)
                     | None => false
                     end) (declared_fields schema)
      | _ => false
      end
  | fields.List container _ =>
      match g with
      | fields.List container' _ => covers container' container
      | _ => false
      end
  | _ =>
      match g with
      | fields.Nested _ _ | fields.List _ _ => false
      | _ => true
      end
  end.

(** What [json.loads] returns with an object hook, from what it returns
    without: the hook applied to every dictionary, innermost first. *)
Fixpoint hooked (object_hook : dict -> value) (v : value) : value :=
  match v with
  | VDict d => object_hook (map (fun kv => (fst kv, hooked object_hook (snd kv))) d)
  | VList l => VList (map (hooked object_hook) l)
  | _ => v
  end.

Definition scan_map {A B : Type} (f : A -> B) (s : scan A) : scan B :=
  match s with
  | Scanned a rest => Scanned (f a) rest
  | ScanError msg n => ScanError msg n
  | StopIteration n => StopIteration n
  | DepthExceeded => DepthExceeded
  end.

(** No schema under the field has a [post_load] method. *)
Fixpoint no_post_load (f : field) : bool :=
  match f with
  | fields.Nested schema _ =>
      match post_load schema with None => true | Some _ => false end
      && forallb (fun nf => no_post_load (snd nf)) (declared_fields schema)
  | fields.List container _ => no_post_load container
  | _ => true
  end.

Fixpoint distinct (names : list string) : bool :=
  match names with
  | [] => true
  | n :: names' => negb (existsb (String.eqb n) names') && distinct names'
  end.

(** Every schema under the field declares each name once, as a class body
    does. *)
Fixpoint distinct_names (f : field) : bool :=
  match f with
  | fields.Nested schema _ =>
      distinct (map fst (declared_fields schema))
      && forallb (fun nf => distinct_names (snd nf)) (declared_fields schema)
  | fields.List container _ => distinct_names container
  | _ => true
  end.

(** What [unmarshal] adds to the loaded dictionary and to the errors, field
    by field. *)
Definition field_values (only : option (list string)) (d : dict)
    (fs : list (string * field)) : dict :=
  flat_map (fun nf =>
    if selected only (fst nf) then
      match dict_get (fst nf) d with
      | Some raw =>
          match deserialize (snd nf) (nested_only only (fst nf)) raw with
          | Deserialized x => [(fst nf, x)]
          | ValidationError _ edata => if py_truthy edata then [(fst nf, edata)] else []
          | Uncaught _ => []
          end
      | None => []
      end
    else []) fs.

Definition field_errors (only : option (list string)) (d : dict)
    (fs : list (string * field)) : errdict :=
  flat_map (fun nf =>
    if selected only (fst nf) then
      match dict_get (fst nf) d with
      | Some raw =>
          match deserialize (snd nf) (nested_only only (fst nf)) raw with
          | ValidationError msgs _ => [(Name (fst nf), msgs)]
          | _ => []
          end
      | None =>
          if fields.required (snd nf)
          then [(Name (fst nf), check_required (snd nf) (nested_only only (fst nf)))]
          else []
      end
    else []) fs.

(** The line expected for a station object of the document. *)
Definition expected_line (station : value) : line :=
  match station with
  | VDict d =>
      match dict_get "name" d, dict_get "free_bikes" d with
      | Some (VStr name), Some (VInt free_bikes) => station_line name free_bikes
      | _, _ => Line ""
      end
  | _ => Line ""
  end.

(** The documents used as examples are written with single quotes in place
    of the double quotes of JSON. *)
Fixpoint json_text (s : string) : string :=
  match s with
  | EmptyString => EmptyString
  | String c s' => String (if Ascii.eqb c "'" then DQUOTE else c) (json_text s')
  end.

Definition minimal_document : string :=
  json_text
    "{'network':{'stations':[{'name':'Station A','free_bikes':3},{'name':'Station B','free_bikes':0}]}}".

Definition missing_name_document : string :=
  json_text
    "{'network':{'stations':[{'free_bikes':3}]}}".

Definition invalid_text : string := "{network:".

(** A document with every key of the documented shape. *)
Definition full_document : string :=
  json_text
    "{'network':{'company':['Cyclopolis'],'href':'/v2/networks/cyclopolis-rhodes','id':'cyclopolis-rhodes','location':{'city':'Rhodes','country':'GR','latitude':'36.43','longitude':'28.22'},'name':'Cyclopolis','stations':[{'empty_slots':4,'extra':{'slots':7},'free_bikes':3,'id':'a1','latitude':36.45,'longitude':28.22,'name':'Mandraki','timestamp':'2018-06-01T10:00:00Z'}]}}".

(** The same stations in a network without [location]. *)
Definition no_location_document : string :=
  json_text
    "{'network':{'stations':[{'empty_slots':4,'extra':{'slots':7},'free_bikes':3,'id':'a1','latitude':36.45,'longitude':28.22,'name':'Mandraki','timestamp':'2018-06-01T10:00:00Z'}]}}".

(** A key the schemas do not know, [network.extraField]. *)
Definition extra_field_document : string :=
  json_text
    "{'network':{'extraField':1,'stations':[{'name':'Station A','free_bikes':3}]}}".

Definition extra_field_removed : string :=
  json_text
    "{'network':{'stations':[{'name':'Station A','free_bikes':3}]}}".


(** What the loop of List._deserialize collects, element by element. *)
Definition list_values (container : field) (items : list value) : list value :=
  map (fun each =>
         match deserialize container None each with
         | Deserialized v => v
         | ValidationError _ edata => edata
         | Uncaught _ => VNone
         end) items.

Fixpoint list_errors (container : field) (items : list value) (idx : nat) : errdict :=
  match items with
  | [] => []
  | each :: items' =>
      match deserialize container None each with
      | ValidationError msgs _ => [(Index idx, msgs)]
      | _ => []
      end ++ list_errors container items' (S idx)
  end.

(** The object hook of method02. *)
Definition namespace_hook (arglist : dict) : value := VObject SimpleNamespace arglist.


(** The decoded [full_document]. *)
Definition full_document_top : dict :=
  Eval vm_compute in
    match json_loads VDict full_document with
    | Ok (VDict d) => d
    | _ => []
    end.

Definition full_document_network : dict :=
  Eval vm_compute in
    match dict_get "network" full_document_top with
    | Some (VDict d) => d
    | _ => []
    end.

Definition full_document_stations : list value :=
  Eval vm_compute in
    match dict_get "stations" full_document_network with
    | Some (VList l) => l
    | _ => []
    end.

(** What method01's schema makes of [no_location_document], and method00's
    of [missing_name_document]. *)
Definition no_location_result : UnmarshalResult :=
  Eval vm_compute in
    match loads Method01.CityBikesAPISchema None no_location_document with
    | Ok r => r
    | Raise _ => {| data := VNone; errors := [] |}
    end.

Definition missing_name_result : UnmarshalResult :=
  Eval vm_compute in
    match loads Method00.CityBikesAPISchema Method00.only missing_name_document with
    | Ok r => r
    | Raise _ => {| data := VNone; errors := [] |}
    end.

(** The decoded [extra_field_document]. *)
Definition extra_field_value : value :=
  Eval vm_compute in
    match json_loads VDict extra_field_document with
    | Ok v => v
    | Raise _ => VNone
    end.

(** What method01's schema makes of [full_document]. *)
Definition full_document_result : UnmarshalResult :=
  Eval vm_compute in
    match loads Method01.CityBikesAPISchema None full_document with
    | Ok r => r
    | Raise _ => {| data := VNone; errors := [] |}
    end.

(** The name method03 is bound to [f] instead of the function of the
    source. *)
Definition rebind_method03 (f : string -> io unit) (c : call) : string -> io unit :=
  match c with
  | CallMethod03 => f
  | _ => methods c
  end.

(** [l] is an initial segment of [l']. *)
Fixpoint is_prefix (l l' : list call) : Prop :=
  match l, l' with
  | [], _ => True
  | c :: l0, c' :: l0' => c = c' /\ is_prefix l0 l0'
  | _ :: _, [] => False
  end.

(** ** Objects and references

    The records of method01 as Python holds them: every list, dictionary
    and instance is an object in the heap, and variables, attributes and
    elements hold references.  Two loads build two sets of objects; an
    assignment to an attribute changes one object. *)

Inductive ref_value : Type :=
| RNone
| RBool (b : bool)
| RInt (z : Z)
| RFloat (f : pyfloat)
| RStr (s : string)
| RRef (a : nat).

Inductive object : Type :=
| OList (items : list ref_value)
| ODict (items : list (string * ref_value))
| OInstance (cls : pyclass) (attrs : list (string * ref_value)).

Definition heap := list object.

Section Build.

(** Building the elements of a list, or the values of a dictionary or of
    the attributes of an instance, one after the other. *)

Variable build : value -> heap -> ref_value * heap.

Fixpoint build_items (l : list value) (h : heap) : list ref_value * heap :=
  match l with
  | [] => ([], h)
  | x :: l' =>
      let '(r, h1) := build x h in
      let '(rs, h2) := build_items l' h1 in
      (r :: rs, h2)
  end.

Fixpoint build_entries (d : list (string * value)) (h : heap)
    : list (string * ref_value) * heap :=
  match d with
  | [] => ([], h)
  | kv :: d' =>
      let '(r, h1) := build (snd kv) h in
      let '(rs, h2) := build_entries d' h1 in
      ((fst kv, r) :: rs, h2)
  end.

End Build.

(** The objects of a tree of values, children first: a scalar is held as
    it is, a container becomes a new object at the end of the heap. *)
Fixpoint build (v : value) (h : heap) {struct v} : ref_value * heap :=
  match v with
  | VNone => (RNone, h)
  | VBool b => (RBool b, h)
  | VInt z => (RInt z, h)
  | VFloat f => (RFloat f, h)
  | VStr s => (RStr s, h)
  | VList l =>
      let '(rs, h') := build_items build l h in
      (RRef (List.length h'), h' ++ [OList rs])
  | VDict d =>
      let '(es, h') := build_entries build d h in
      (RRef (List.length h'), h' ++ [ODict es])
  | VObject c attrs =>
      let '(es, h') := build_entries build attrs h in
      (RRef (List.length h'), h' ++ [OInstance c es])
  end.

(** Reading a tree back from the heap. *)
Fixpoint fetch_items (f : ref_value -> option value) (rs : list ref_value)
    : option (list value) :=
  match rs with
  | [] => Some []
  | r :: rs' =>
      match f r, fetch_items f rs' with
      | Some t, Some ts => Some (t :: ts)
      | _, _ => None
      end
  end.

Fixpoint fetch_entries (f : ref_value -> option value) (es : list (string * ref_value))
    : option (list (string * value)) :=
  match es with
  | [] => Some []
  | kr :: es' =>
      match f (snd kr), fetch_entries f es' with
      | Some t, Some ts => Some ((fst kr, t) :: ts)
      | _, _ => None
      end
  end.

Fixpoint fetch (fuel : nat) (h : heap) (r : ref_value) {struct fuel} : option value :=
  match r with
  | RNone => Some VNone
  | RBool b => Some (VBool b)
  | RInt z => Some (VInt z)
  | RFloat f => Some (VFloat f)
  | RStr s => Some (VStr s)
  | RRef a =>
      match fuel with
      | O => None
      | S n =>
          match nth_error h a with
          | Some (OList rs) => option_map VList (fetch_items (fetch n h) rs)
          | Some (ODict es) => option_map VDict (fetch_entries (fetch n h) es)
          | Some (OInstance c es) => option_map (VObject c) (fetch_entries (fetch n h) es)
          | None => None
          end
      end
  end.

(** What a reference shows when it is printed or serialised. *)
Definition view (h : heap) (r : ref_value) : value :=
  match fetch (List.length h) h r with
  | Some t => t
  | None => VNone
  end.

(** Replacing the object at an address. *)
Fixpoint heap_update (a : nat) (o : object) (h : heap) {struct h} : heap :=
  match h with
  | [] => []
  | o' :: h' =>
      match a with
      | O => o :: h'
      | S a' => o' :: heap_update a' o h'
      end
  end.

(** [getattr] and [setattr] on a reference. *)
Definition heap_getattr (h : heap) (r : ref_value) (name : string) : result ref_value :=
  match r with
  | RRef a =>
      match nth_error h a with
      | Some (OInstance _ attrs) =>
          match dict_get name attrs with
          | Some v => Ok v
          | None => Raise (AttributeError name)
          end
      | _ => Raise (AttributeError name)
      end
  | _ => Raise (AttributeError name)
  end.

Definition heap_setattr (h : heap) (r : ref_value) (name : string) (v : ref_value)
    : result heap :=
  match r with
  | RRef a =>
      match nth_error h a with
      | Some (OInstance c attrs) =>
          Ok (heap_update a (OInstance c (dict_set name v attrs)) h)
      | _ => Raise (AttributeError name)
      end
  | _ => Raise (AttributeError name)
  end.

(** *** method01 over the heap *)

Module Store.

(** [schema.loads] leaves its result in the heap.  Every object of the
    result is made by the call that returns it: the lists by
    List._deserialize, which starts from an empty list, the instances by the
    classes that the postload methods call.  Strings and numbers are
    immutable and are held as they are. *)
Definition loads (schema : Schema) (only : option (list string)) (json_data : string)
    (h : heap) : result (ref_value * errdict * heap) :=
  rbind (loads schema only json_data)
    (fun r => let '(ref, h') := build (data r) h in Ok (ref, errors r, h')).

(** method01 with its objects in the heap: [result.data] and
    [datain.data] are references.  The assignment of line 251 evaluates the
    new list, then [result.data.network], and sets the attribute of that
    object. *)
Definition method01 (responsestr : string) (h : heap) : io heap :=
  result <- io_lift (loads Method01.CityBikesAPISchema None responsestr h) ;;
  let '(result_data, result_errors, h) := result in
  (if Nat.eqb (List.length result_errors) 0 then pass
   else raise (PyException (errors_str result_errors))) ;;
  print (py_str (view h result_data)) ;;
  ([DumpsLine (view h result_data)], Ok tt) ;;
  datain <- io_lift (loads Method01.CityBikesAPISchema None responsestr h) ;;
  let '(datain_data, datain_errors, h) := datain in
  (if Nat.eqb (List.length result_errors) 0 then pass
   else raise (PyException (errors_str result_errors))) ;;
  let '(company, h) := build (VList [VStr "Systems Cyclopolis"]) h in
  network <- io_lift (heap_getattr h result_data "network") ;;
  h <- io_lift (heap_setattr h network "company" company) ;;
  ([MarshalResultLine (view h datain_data)], Ok h).

End Store.

(** What [build] allocates: cells appended to the heap, from which the tree
    is read back whatever the cells below hold. *)
Definition built (v : value) : Prop :=
  forall h, exists ext,
    snd (build v h) = h ++ ext /\
    forall g, List.length g = List.length h ->
              fetch (List.length ext) (g ++ ext) (fst (build v h)) = Some v.

(** A document of the documented shape with two stations. *)
Definition two_station_document : string :=
  json_text
    "{'network':{'company':['Cyclopolis'],'href':'/v2/networks/cyclopolis-rhodes','id':'cyclopolis-rhodes','location':{'city':'Rhodes','country':'GR','latitude':'36.43','longitude':'28.22'},'name':'Cyclopolis','stations':[{'empty_slots':4,'extra':{'slots':7},'free_bikes':3,'id':'a1','latitude':36.45,'longitude':28.22,'name':'Mandraki','timestamp':'2018-06-01T10:00:00Z'},{'empty_slots':7,'extra':{'slots':7},'free_bikes':0,'id':'a2','latitude':36.44,'longitude':28.23,'name':'Elli','timestamp':'2018-06-01T10:00:05Z'}]}}".

Definition two_station_top : dict :=
  Eval vm_compute in
    match json_loads VDict two_station_document with
    | Ok (VDict d) => d
    | _ => []
    end.

Definition two_station_network : dict :=
  Eval vm_compute in
    match dict_get "network" two_station_top with
    | Some (VDict d) => d
    | _ => []
    end.

Definition two_station_stations : list value :=
  Eval vm_compute in
    match dict_get "stations" two_station_network with
    | Some (VList l) => l
    | _ => []
    end.

(** What method01 loads from [two_station_document]. *)
Definition two_station_result : UnmarshalResult :=
  Eval vm_compute in
    match loads Method01.CityBikesAPISchema None two_station_document with
    | Ok r => r
    | Raise _ => {| data := VNone; errors := [] |}
    end.

(** A document of the documented shape whose network has no [href]. *)
Definition no_href_document : string :=
  json_text
    "{'network':{'company':['Cyclopolis'],'id':'cyclopolis-rhodes','location':{'city':'Rhodes','country':'GR','latitude':'36.43','longitude':'28.22'},'name':'Cyclopolis','stations':[{'empty_slots':4,'extra':{'slots':7},'free_bikes':3,'id':'a1','latitude':36.45,'longitude':28.22,'name':'Mandraki','timestamp':'2018-06-01T10:00:00Z'}]}}".

(** The decoded [no_href_document]. *)
Definition no_href_value : value :=
  Eval vm_compute in
    match json_loads VDict no_href_document with
    | Ok v => v
    | Raise _ => VNone
    end.

(** Every schema under the field builds its record by calling a class
    whose [__init__] parameters are the declared field names, in order. *)
Fixpoint constructed (f : field) : Prop :=
  match f with
  | fields.Nested schema _ =>
      (exists cls,
          post_load schema = Some (instantiate cls (map fst (declared_fields schema)))) /\
      (fix all (fs : list (string * field)) : Prop :=
         match fs with
         | [] => True
         | nf :: fs' => constructed (snd nf) /\ all fs'
         end) (declared_fields schema)
  | fields.List container _ => constructed container
  | _ => True
  end.

(** Every key that the field's schemas declare is present in the value, at
    every level. *)
Fixpoint complete (f : field) (v : value) : bool :=
  match f with
  | fields.Nested schema _ =>
      match v with
      | VDict d =>
          forallb (fun nf =>
                     match dict_get (fst nf) d with
                     | Some x => complete (snd nf) x
                     | None => false
                     end) (declared_fields schema)
      | _ => false
      end
  | fields.List container _ =>
      match v with
      | VList l => forallb (complete container) l
      | _ => false
      end
  | _ => true
  end.

(** * Properties *)

Local Open Scope list_scope.

(** ** Induction over fields *)

Section FieldInduction.

Variable P : field -> Prop.
Hypothesis P_String : forall r, P (fields.String r).
Hypothesis P_Integer : forall r, P (fields.Integer r).
Hypothesis P_Float : forall r, P (fields.Float r).
Hypothesis P_Nested :
  forall schema r,
    Forall (fun nf => P (snd nf)) (declared_fields schema) ->
    P (fields.Nested schema r).
Hypothesis P_List : forall container r, P container -> P (fields.List container r).

Fixpoint field_induction (f : field) : P f :=
  match f with
  | fields.String r => P_String r
  | fields.Integer r => P_Integer r
  | fields.Float r => P_Float r
  | fields.Nested schema r =>
      P_Nested schema r
        ((fix all (fs : list (string * field)) : Forall (fun nf => P (snd nf)) fs :=
            match fs with
            | [] => Forall_nil _
            | nf :: fs' => Forall_cons nf (field_induction (snd nf)) (all fs')
            end) (declared_fields schema))
  | fields.List container r => P_List container r (field_induction container)
  end.

End FieldInduction.

(** ** Unfolding equations *)

Lemma deserialize_None : forall f only, deserialize f only VNone = fail NULL_MSG.
Proof. destruct f; reflexivity. Qed.

Lemma deserialize_Nested :
  forall schema r only v,
    v <> VNone ->
    deserialize (fields.Nested schema r) only v =
    match do_load deserialize schema only v with
    | Raise e => Uncaught e
    | Ok {| data := dat; errors := [] |} => Deserialized dat
    | Ok {| data := dat; errors := errs |} => ValidationError (MessageDict errs) dat
    end.
Proof. intros schema r only v Hv. destruct v; try reflexivity. congruence. Qed.

Lemma deserialize_List :
  forall container r only v,
    v <> VNone ->
    deserialize (fields.List container r) only v =
    match collection_items v with
    | None => fail "Not a valid list."
    | Some items => list_loop deserialize container items 0 [] []
    end.
Proof. intros container r only v Hv. destruct v; try reflexivity. congruence. Qed.

(** ** The unmarshaller, field by field *)

Lemma unmarshal_Ok :
  forall only d fs ret errs ret' errs',
    unmarshal deserialize only d fs ret errs = Ok (ret', errs') ->
    ret' = ret ++ field_values only d fs /\ errs' = errs ++ field_errors only d fs.
Proof.
  intros only d fs. induction fs as [|[name f] fs IH]; intros ret errs ret' errs' H.
  - simpl in H. inversion H. unfold field_values, field_errors. simpl.
    now rewrite !app_nil_r.
  - unfold field_values, field_errors in *. cbn [unmarshal] in H. cbn [flat_map fst snd].
    destruct (selected only name).
    + destruct (dict_get name d) as [raw|].
      * destruct (deserialize f (nested_only only name) raw) as [x|msgs edata|e].
        -- apply IH in H. destruct H as [-> ->]. now rewrite <- !app_assoc.
        -- apply IH in H. destruct H as [-> ->].
           destruct (py_truthy edata); now rewrite <- !app_assoc.
        -- discriminate.
      * destruct (fields.required f); apply IH in H; destruct H as [-> ->];
          now rewrite <- ?app_assoc.
    + now apply IH in H.
Qed.

Lemma unmarshal_total :
  forall only d fs ret errs,
    (forall name f raw e,
        In (name, f) fs -> dict_get name d = Some raw ->
        deserialize f (nested_only only name) raw <> Uncaught e) ->
    unmarshal deserialize only d fs ret errs =
    Ok (ret ++ field_values only d fs, errs ++ field_errors only d fs).
Proof.
  intros only d fs. induction fs as [|[name f] fs IH]; intros ret errs Hpure.
  - unfold field_values, field_errors. simpl. now rewrite !app_nil_r.
  - assert (Hrest : forall name' f' raw e,
               In (name', f') fs -> dict_get name' d = Some raw ->
               deserialize f' (nested_only only name') raw <> Uncaught e).
    { intros. apply Hpure; [now right | assumption]. }
    unfold field_values, field_errors in *. cbn [unmarshal flat_map fst snd].
    destruct (selected only name).
    + destruct (dict_get name d) as [raw|] eqn:Hget.
      * destruct (deserialize f (nested_only only name) raw) as [x|msgs edata|e] eqn:Hd.
        -- rewrite IH by assumption. now rewrite <- !app_assoc.
        -- rewrite IH by assumption. destruct (py_truthy edata); now rewrite <- !app_assoc.
        -- exfalso. eapply Hpure; [now left | eassumption | eassumption].
      * destruct (fields.required f); rewrite IH by assumption; now rewrite <- ?app_assoc.
    + now rewrite IH.
Qed.

Lemma list_loop_total :
  forall container items idx res errs,
    (forall each e, In each items -> deserialize container None each <> Uncaught e) ->
    list_loop deserialize container items idx res errs =
    match errs ++ list_errors container items idx with
    | [] => Deserialized (VList (res ++ list_values container items))
    | es => ValidationError (MessageDict es) (VList (res ++ list_values container items))
    end.
Proof.
  intros container items. induction items as [|each items IH]; intros idx res errs Hpure.
  - simpl. rewrite !app_nil_r. destruct errs; reflexivity.
  - assert (Hrest : forall each' e, In each' items ->
                                    deserialize container None each' <> Uncaught e).
    { intros. apply Hpure. now right. }
    cbn [list_loop list_errors list_values map].
    destruct (deserialize container None each) as [v|msgs edata|e] eqn:Hd.
    + rewrite IH by assumption. simpl. now rewrite <- !app_assoc.
    + rewrite IH by assumption. simpl. now rewrite <- !app_assoc.
    + exfalso. eapply Hpure; [now left | eassumption].
Qed.

Lemma list_loop_Deserialized :
  forall container items idx res errs v,
    list_loop deserialize container items idx res errs = Deserialized v ->
    errs = [] /\ v = VList (res ++ list_values container items) /\
    Forall (fun each => exists x, deserialize container None each = Deserialized x) items.
Proof.
  intros container items. induction items as [|each items IH]; intros idx res errs v H.
  - simpl in H. destruct errs; [|discriminate]. inversion H.
    repeat split; [now rewrite app_nil_r | constructor].
  - cbn [list_loop] in H. cbn [list_values map].
    destruct (deserialize container None each) as [x|msgs edata|e] eqn:Hd.
    + apply IH in H. destruct H as (-> & -> & Hall).
      repeat split; [now rewrite <- app_assoc | constructor; [eauto | assumption]].
    + apply IH in H. destruct H as (Herrs & _). now destruct errs.
    + discriminate.
Qed.

Lemma errdict_get_app :
  forall k a b,
    errdict_get k (a ++ b) =
    match errdict_get k a with Some m => Some m | None => errdict_get k b end.
Proof.
  intros k a b. induction a as [|[k' m] a IH]; [reflexivity|].
  simpl. now destruct (errkey_eqb k k').
Qed.

Lemma dict_get_app :
  forall (A : Type) k (a b : list (string * A)),
    dict_get k (a ++ b) =
    match dict_get k a with Some v => Some v | None => dict_get k b end.
Proof.
  intros A k a b. induction a as [|[k' v] a IH]; [reflexivity|].
  simpl. now destruct (String.eqb k k').
Qed.

Lemma list_errors_below :
  forall container items idx j,
    j < idx -> errdict_get (Index j) (list_errors container items idx) = None.
Proof.
  intros container items. induction items as [|each items IH]; intros idx j Hlt.
  - reflexivity.
  - cbn [list_errors]. rewrite errdict_get_app.
    destruct (deserialize container None each); cbn [errdict_get errkey_eqb];
      try (apply IH; lia).
    destruct (Nat.eqb_spec j idx); [lia | apply IH; lia].
Qed.

Lemma list_errors_at :
  forall container items idx i each msgs edata,
    nth_error items i = Some each ->
    deserialize container None each = ValidationError msgs edata ->
    errdict_get (Index (idx + i)) (list_errors container items idx) = Some msgs.
Proof.
  intros container items. induction items as [|x items IH]; intros idx i each msgs edata Hn Hd.
  - destruct i; discriminate.
  - cbn [list_errors]. rewrite errdict_get_app. destruct i as [|i].
    + simpl in Hn. inversion Hn; subst x. rewrite Hd.
      cbn [errdict_get errkey_eqb]. now rewrite Nat.add_0_r, Nat.eqb_refl.
    + simpl in Hn.
      match goal with
      | |- match errdict_get ?k ?l with _ => _ end = _ =>
          assert (Hhead : errdict_get k l = None)
      end.
      { destruct (deserialize container None x); cbn [errdict_get errkey_eqb];
          try reflexivity.
        destruct (Nat.eqb_spec (idx + S i) idx); [lia | reflexivity]. }
      rewrite Hhead, <- Nat.add_succ_comm. eapply IH; eassumption.
Qed.

Lemma distinct_cons :
  forall n names,
    distinct (n :: names) = true -> ~ In n names /\ distinct names = true.
Proof.
  intros n names H. simpl in H. apply andb_prop in H. destruct H as [Hn Hd].
  split; [|assumption]. intro Hin.
  apply negb_true_iff in Hn.
  assert (existsb (String.eqb n) names = true).
  { apply existsb_exists. exists n. split; [assumption | apply String.eqb_refl]. }
  congruence.
Qed.

Lemma field_errors_cons :
  forall only d nf fs,
    field_errors only d (nf :: fs) = field_errors only d [nf] ++ field_errors only d fs.
Proof. intros. unfold field_errors. simpl. now rewrite app_nil_r. Qed.

Lemma field_values_cons :
  forall only d nf fs,
    field_values only d (nf :: fs) = field_values only d [nf] ++ field_values only d fs.
Proof. intros. unfold field_values. simpl. now rewrite app_nil_r. Qed.

Lemma field_errors_other :
  forall only d n fs,
    ~ In n (map fst fs) -> errdict_get (Name n) (field_errors only d fs) = None.
Proof.
  intros only d n fs. induction fs as [|[n' f'] fs IH]; intros Hn; [reflexivity|].
  rewrite field_errors_cons, errdict_get_app.
  simpl in Hn.
  assert (Hne : String.eqb n n' = false).
  { apply String.eqb_neq. intro. subst. apply Hn. now left. }
  assert (Hhead : errdict_get (Name n) (field_errors only d [(n', f')]) = None).
  { unfold field_errors. simpl.
    destruct (selected only n'); [|reflexivity].
    destruct (dict_get n' d).
    - destruct (deserialize f' (nested_only only n') v); simpl; try reflexivity.
      now rewrite Hne.
    - destruct (fields.required f'); simpl; [now rewrite Hne | reflexivity]. }
  rewrite Hhead. apply IH. intro. apply Hn. now right.
Qed.

Lemma field_values_other :
  forall only d n fs,
    ~ In n (map fst fs) -> dict_get n (field_values only d fs) = None.
Proof.
  intros only d n fs. induction fs as [|[n' f'] fs IH]; intros Hn; [reflexivity|].
  rewrite field_values_cons, dict_get_app.
  simpl in Hn.
  assert (Hne : String.eqb n n' = false).
  { apply String.eqb_neq. intro. subst. apply Hn. now left. }
  assert (Hhead : dict_get n (field_values only d [(n', f')]) = None).
  { unfold field_values. simpl.
    destruct (selected only n'); [|reflexivity].
    destruct (dict_get n' d); [|reflexivity].
    destruct (deserialize f' (nested_only only n') v) as [x|msgs edata|e];
      simpl; try reflexivity.
    - now rewrite Hne.
    - destruct (py_truthy edata); simpl; [now rewrite Hne | reflexivity]. }
  rewrite Hhead. apply IH. intro. apply Hn. now right.
Qed.

Lemma field_errors_get :
  forall only d n f fs,
    distinct (map fst fs) = true ->
    In (n, f) fs ->
    errdict_get (Name n) (field_errors only d fs) =
    errdict_get (Name n) (field_errors only d [(n, f)]).
Proof.
  intros only d n f fs. induction fs as [|[n' f'] fs IH]; intros Hd Hin; [destruct Hin|].
  simpl in Hd. apply distinct_cons in Hd. destruct Hd as [Hnotin Hd].
  rewrite field_errors_cons, errdict_get_app.
  destruct Hin as [Heq|Hin].
  - inversion Heq; subst n' f'.
    rewrite (field_errors_other only d n fs Hnotin).
    now destruct (errdict_get (Name n) (field_errors only d [(n, f)])).
  - assert (Hne : n <> n').
    { intro. subst n'. apply Hnotin. apply in_map_iff. now exists (n, f). }
    rewrite (field_errors_other only d n [(n', f')]).
    + now apply IH.
    + simpl. intros [H|[]]. congruence.
Qed.

Lemma field_values_get :
  forall only d n f fs,
    distinct (map fst fs) = true ->
    In (n, f) fs ->
    dict_get n (field_values only d fs) = dict_get n (field_values only d [(n, f)]).
Proof.
  intros only d n f fs. induction fs as [|[n' f'] fs IH]; intros Hd Hin; [destruct Hin|].
  simpl in Hd. apply distinct_cons in Hd. destruct Hd as [Hnotin Hd].
  rewrite field_values_cons, dict_get_app.
  destruct Hin as [Heq|Hin].
  - inversion Heq; subst n' f'.
    rewrite (field_values_other only d n fs Hnotin).
    now destruct (dict_get n (field_values only d [(n, f)])).
  - assert (Hne : n <> n').
    { intro. subst n'. apply Hnotin. apply in_map_iff. now exists (n, f). }
    rewrite (field_values_other only d n [(n', f')]).
    + now apply IH.
    + simpl. intros [H|[]]. congruence.
Qed.

(** ** Schemas without post_load never let an exception through *)

Lemma do_load_no_post_load :
  forall schema only d,
    post_load schema = None ->
    (forall name f raw e,
        In (name, f) (declared_fields schema) -> dict_get name d = Some raw ->
        deserialize f (nested_only only name) raw <> Uncaught e) ->
    do_load deserialize schema only (VDict d) =
    Ok {| data := VDict (field_values only d (declared_fields schema));
          errors := field_errors only d (declared_fields schema) |}.
Proof.
  intros schema only d Hpost Hpure. unfold do_load.
  rewrite unmarshal_total by assumption. rewrite Hpost. simpl.
  now destruct (field_errors only d (declared_fields schema)).
Qed.

Lemma do_load_not_mapping :
  forall schema only v name field_obj rest,
    v <> VNone ->
    (forall d, v <> VDict d) ->
    filter (fun nf => selected only (fst nf)) (declared_fields schema) =
      (name, field_obj) :: rest ->
    do_load deserialize schema only v =
    Ok {| data := VDict [];
          errors := [(Name SCHEMA, Messages [type_message field_obj])] |}.
Proof.
  intros schema only v name field_obj rest Hnone Hdict Hfirst.
  destruct v as [|b|z|x|s|l|d|c a]; try (unfold do_load; rewrite Hfirst; reflexivity).
  - now destruct Hnone.
  - now destruct (Hdict d).
Qed.

Lemma do_load_not_mapping_pure :
  forall schema only v,
    post_load schema = None ->
    (forall d, v <> VDict d) ->
    exists r, do_load deserialize schema only v = Ok r.
Proof.
  intros schema only v Hpost Hdict.
  destruct v as [|b|z|x|s|l|d|c a];
    try (unfold do_load; rewrite ?Hpost;
         destruct (filter _ (declared_fields schema)) as [|[name f] rest];
         eexists; reflexivity).
  - unfold do_load. rewrite Hpost. eexists. reflexivity.
  - now destruct (Hdict d).
Qed.

Lemma deserialize_no_post_load :
  forall f, no_post_load f = true ->
            forall only v e, deserialize f only v <> Uncaught e.
Proof.
  induction f as [r|r|r|schema r IH|container r IH] using field_induction;
    intros Hnp only v e.
  - destruct v; simpl; discriminate.
  - destruct v; cbn; try discriminate;
      match goal with |- context [match ?x with _ => _ end] => destruct x end;
      discriminate.
  - destruct v; cbn; try discriminate;
      match goal with |- context [match ?x with _ => _ end] => destruct x end;
      discriminate.
  - simpl in Hnp. apply andb_prop in Hnp. destruct Hnp as [Hpost Hall].
    destruct (post_load schema) eqn:Hp; [discriminate|].
    destruct (match v with VNone => true | _ => false end) eqn:Hv.
    + destruct v; discriminate.
    + rewrite deserialize_Nested by (intro; subst; discriminate).
      destruct (match v with VDict _ => true | _ => false end) eqn:Hdict.
      * destruct v; try discriminate.
        rewrite do_load_no_post_load; [|assumption|].
        -- simpl. destruct (field_errors only d (declared_fields schema)); discriminate.
        -- intros name f raw e' Hin Hget.
           rewrite Forall_forall in IH. apply (IH (name, f) Hin).
           rewrite forallb_forall in Hall. apply (Hall (name, f) Hin).
      * destruct (do_load_not_mapping_pure schema only v Hp) as [[dat errs] Hr];
          [intros d ->; discriminate|].
        rewrite Hr. destruct errs; discriminate.
  - simpl in Hnp.
    destruct (match v with VNone => true | _ => false end) eqn:Hv.
    + destruct v; discriminate.
    + rewrite deserialize_List by (intro; subst; discriminate).
      destruct (collection_items v) as [items|]; [|discriminate].
      rewrite list_loop_total by (intros; now apply IH).
      simpl. destruct (list_errors container items 0); discriminate.
Qed.

Lemma no_post_load_Nested :
  forall schema r,
    no_post_load (fields.Nested schema r) = true ->
    post_load schema = None /\
    forall name f, In (name, f) (declared_fields schema) -> no_post_load f = true.
Proof.
  intros schema r H. cbn [no_post_load] in H. apply andb_prop in H. destruct H as [Hp Hall].
  split.
  - now destruct (post_load schema).
  - intros name f Hin. rewrite forallb_forall in Hall. apply (Hall (name, f) Hin).
Qed.

Lemma do_load_pure :
  forall schema r only d,
    no_post_load (fields.Nested schema r) = true ->
    do_load deserialize schema only (VDict d) =
    Ok {| data := VDict (field_values only d (declared_fields schema));
          errors := field_errors only d (declared_fields schema) |}.
Proof.
  intros schema r only d H. apply no_post_load_Nested in H. destruct H as [Hp Hall].
  apply do_load_no_post_load; [assumption|].
  intros name f raw e Hin _. apply deserialize_no_post_load. eapply Hall; eassumption.
Qed.

(** ** method00 *)

Lemma method00_pure :
  no_post_load (fields.Nested Method00.CityBikesAPISchema true) = true.
Proof. reflexivity. Qed.

Lemma StationSchema00_pure :
  no_post_load (fields.Nested Method00.StationSchema false) = true.
Proof. reflexivity. Qed.

Lemma load_station00 :
  forall st,
    do_load deserialize Method00.StationSchema None (VDict st) =
    Ok {| data := VDict (field_values None st (declared_fields Method00.StationSchema));
          errors := field_errors None st (declared_fields Method00.StationSchema) |}.
Proof. intros st. apply (do_load_pure _ false). reflexivity. Qed.

(** What method00's schema makes of a document whose network has a
    stations array: the stations are loaded one by one, and their errors
    are reported under network.stations. *)
Lemma load_method00_stations :
  forall top net stations,
    dict_get "network" top = Some (VDict net) ->
    dict_get "stations" net = Some (VList stations) ->
    let container := fields.Nested Method00.StationSchema false in
    exists dat,
      load Method00.CityBikesAPISchema Method00.only (VDict top) =
      Ok {| data := dat;
            errors := match list_errors container stations 0 with
                      | [] => []
                      | errs => [(Name "network",
                                  MessageDict [(Name "stations", MessageDict errs)])]
                      end |} /\
      (list_errors container stations 0 = [] ->
       dat = VDict [("network",
                     VDict [("stations", VList (list_values container stations))])]).
Proof.
  intros top net stations Hnet Hst container.
  unfold load.
  rewrite (do_load_pure _ true) by reflexivity.
  unfold field_values, field_errors.
  cbn [Method00.CityBikesAPISchema declared_fields flat_map fst snd].
  change (selected Method00.only "network") with true. cbv iota.
  rewrite Hnet.
  change (nested_only Method00.only "network")
    with (Some ["stations.name"; "stations.free_bikes"]).
  rewrite deserialize_Nested by discriminate.
  rewrite (do_load_pure _ true) by reflexivity.
  unfold field_values, field_errors.
  cbn [Method00.NetworkSchema declared_fields flat_map fst snd].
  change (selected (Some ["stations.name"; "stations.free_bikes"]) "company") with false.
  change (selected (Some ["stations.name"; "stations.free_bikes"]) "href") with false.
  change (selected (Some ["stations.name"; "stations.free_bikes"]) "id") with false.
  change (selected (Some ["stations.name"; "stations.free_bikes"]) "location") with false.
  change (selected (Some ["stations.name"; "stations.free_bikes"]) "name") with false.
  change (selected (Some ["stations.name"; "stations.free_bikes"]) "stations") with true.
  cbv iota. cbn [app]. rewrite Hst.
  rewrite deserialize_List by discriminate.
  cbn [collection_items].
  rewrite list_loop_total.
  2:{ intros each e _. apply deserialize_no_post_load. reflexivity. }
  cbn [app]. fold container.
  destruct (list_errors container stations 0) as [|err errs] eqn:Herrs.
  - eexists. split; [reflexivity|]. intros _. reflexivity.
  - cbn [app]. eexists. split; [reflexivity|]. discriminate.
Qed.

Lemma station00_missing :
  forall st key,
    key = "name" \/ key = "free_bikes" ->
    dict_get key st = None ->
    exists errs dat,
      deserialize (fields.Nested Method00.StationSchema false) None (VDict st) =
      ValidationError (MessageDict errs) dat /\
      errdict_get (Name key) errs = Some (Messages [MISSING_MSG]).
Proof.
  intros st key Hkey Hget.
  rewrite deserialize_Nested by discriminate.
  rewrite load_station00.
  assert (Hat : errdict_get (Name key)
                  (field_errors None st (declared_fields Method00.StationSchema)) =
                Some (Messages [MISSING_MSG])).
  { destruct Hkey as [-> | ->].
    - rewrite (field_errors_get None st "name" (fields.String true));
        [|reflexivity|cbn; tauto].
      unfold field_errors. cbn [flat_map fst snd selected]. rewrite Hget. reflexivity.
    - rewrite (field_errors_get None st "free_bikes" (fields.Integer true));
        [|reflexivity|cbn; tauto].
      unfold field_errors. cbn [flat_map fst snd selected]. rewrite Hget. reflexivity. }
  destruct (field_errors None st (declared_fields Method00.StationSchema)) as [|err errs].
  - discriminate.
  - eexists. eexists. split; [reflexivity | assumption].
Qed.

Lemma main_method00_raises :
  forall responsestr out e,
    method00 responsestr = (out, Raise e) -> main responsestr = (out, Raise e).
Proof.
  intros responsestr out e H. unfold main, toplevel.
  cbn [run_calls methods]. now rewrite H.
Qed.

Lemma method00_validation_fails :
  forall responsestr r,
    loads Method00.CityBikesAPISchema Method00.only responsestr = Ok r ->
    errors r <> [] ->
    method00 responsestr = ([], Raise (PyException (errors_str (errors r)))).
Proof.
  intros responsestr r Hl Herr. unfold method00. rewrite Hl.
  cbn [io_lift io_bind].
  destruct (errors r) as [|err errs] eqn:He; [congruence|]. reflexivity.
Qed.

(** A load by a schema without post_load returns a dictionary, with or
    without errors beside it. *)
Lemma load_returns_tree :
  forall schema only d r,
    post_load schema = None ->
    load schema only (VDict d) = Ok r ->
    exists tree, data r = VDict tree.
Proof.
  intros schema only d r Hpost H. unfold load, do_load in H.
  destruct (unmarshal deserialize only d (declared_fields schema) [] [])
    as [[ret errs]|e]; [|discriminate].
  rewrite Hpost in H. destruct errs; inversion H; eexists; reflexivity.
Qed.

(** C1 as stated fails: on the document of the claim the load does not
    fail, it returns, beside the errors, the tree of what it has loaded. *)
Lemma C1_tree_returned_beside_errors :
  loads Method00.CityBikesAPISchema Method00.only missing_name_document =
    Ok missing_name_result /\
  errors missing_name_result <> [] /\
  data missing_name_result =
    VDict [("network", VDict [("stations", VList [VDict [("free_bikes", VInt 3)]])])].
Proof. vm_compute. repeat split. discriminate. Qed.

(** C1, amended.  When a station object of network.stations lacks [name]
    or [free_bikes], the schema reports "Missing data for required field."
    at exactly that path (network, stations, the station's index, the
    field).  The load itself does not fail: it returns these errors together
    with a dictionary, the tree of what it could load.  method00 raises the
    exception that carries the errors before it uses this tree or prints
    anything, and the program ends there. *)
Theorem C1_missing_required_station_field :
  forall responsestr top net stations i station key,
    json_loads VDict responsestr = Ok (VDict top) ->
    dict_get "network" top = Some (VDict net) ->
    dict_get "stations" net = Some (VList stations) ->
    nth_error stations i = Some (VDict station) ->
    key = "name" \/ key = "free_bikes" ->
    dict_get key station = None ->
    exists r,
      loads Method00.CityBikesAPISchema Method00.only responsestr = Ok r /\
      errors_at [Name "network"; Name "stations"; Index i; Name key] (errors r) =
        Some (Messages [MISSING_MSG]) /\
      (exists tree, data r = VDict tree) /\
      method00 responsestr = ([], Raise (PyException (errors_str (errors r)))) /\
      main responsestr = ([], Raise (PyException (errors_str (errors r)))) /\
      kind_of (PyException (errors_str (errors r))) = ValidationErrorKind.
Proof.
  intros responsestr top net stations i station key Hjson Hnet Hst Hnth Hkey Hget.
  destruct (load_method00_stations top net stations Hnet Hst) as (dat & Hload & _).
  destruct (station00_missing station key Hkey Hget) as (serrs & sdat & Hdes & Hat).
  pose proof (list_errors_at _ stations 0 i _ _ _ Hnth Hdes) as Hidx.
  simpl in Hidx.
  destruct (load_returns_tree Method00.CityBikesAPISchema Method00.only top _ eq_refl Hload)
    as [tree Htree].
  cbn [data] in Htree.
  assert (Hloads : loads Method00.CityBikesAPISchema Method00.only responsestr =
                   load Method00.CityBikesAPISchema Method00.only (VDict top)).
  { unfold loads. now rewrite Hjson. }
  rewrite Hload in Hloads.
  destruct (list_errors (fields.Nested Method00.StationSchema false) stations 0)
    as [|err errs] eqn:Herrs; [discriminate|].
  remember (err :: errs) as L eqn:HL.
  eexists. split; [exact Hloads|].
  assert (Hpath : errors_at [Name "network"; Name "stations"; Index i; Name key]
                    [(Name "network",
                      MessageDict [(Name "stations", MessageDict L)])] =
                  Some (Messages [MISSING_MSG])).
  { unfold errors_at. cbn [messages_at errdict_get errkey_eqb String.eqb Ascii.eqb Bool.eqb].
    change (("network" =? "network")%string) with true. cbv iota.
    cbn [messages_at errdict_get errkey_eqb].
    change (("stations" =? "stations")%string) with true. cbv iota.
    cbn [messages_at]. rewrite Hidx. cbn [messages_at]. rewrite Hat. reflexivity. }
  cbn [errors data].
  split; [exact Hpath|].
  split; [exists tree; exact Htree|].
  assert (Hm : method00 responsestr =
               ([], Raise (PyException (errors_str
                  [(Name "network",
                    MessageDict [(Name "stations", MessageDict L)])])))).
  { apply (method00_validation_fails responsestr _ Hloads). discriminate. }
  split; [exact Hm|]. split; [|reflexivity].
  now apply main_method00_raises.
Qed.

Lemma C1_witness :
  exists r,
    loads Method00.CityBikesAPISchema Method00.only missing_name_document = Ok r /\
    errors_at [Name "network"; Name "stations"; Index 0; Name "name"] (errors r) =
      Some (Messages [MISSING_MSG]) /\
    (exists tree, data r = VDict tree) /\
    method00 missing_name_document = ([], Raise (PyException (errors_str (errors r)))) /\
    main missing_name_document = ([], Raise (PyException (errors_str (errors r)))) /\
    kind_of (PyException (errors_str (errors r))) = ValidationErrorKind.
Proof.
  apply (C1_missing_required_station_field missing_name_document
           [("network", VDict [("stations", VList [VDict [("free_bikes", VInt 3)]])])]
           [("stations", VList [VDict [("free_bikes", VInt 3)]])]
           [VDict [("free_bikes", VInt 3)]] 0 [("free_bikes", VInt 3)] "name").
  - vm_compute. reflexivity.
  - reflexivity.
  - reflexivity.
  - reflexivity.
  - left. reflexivity.
  - reflexivity.
Defined.

Example missing_name_message :
  method00 missing_name_document =
  ([], Raise (PyException
     "{'network': {'stations': {0: {'name': ['Missing data for required field.']}}}}")).
Proof. vm_compute. reflexivity. Qed.

(** ** Documents of the documented shape load without errors *)

Lemma conforms_deserialize :
  forall f,
    no_post_load f = true ->
    forall only v, conforms f only v = true ->
                   exists x, deserialize f only v = Deserialized x.
Proof.
  induction f as [r|r|r|schema r IH|container r IH] using field_induction;
    intros Hnp only v Hc.
  - destruct v; try discriminate. eexists. reflexivity.
  - destruct v; try discriminate. eexists. reflexivity.
  - destruct v; try discriminate.
    + cbn in Hc |- *. destruct (float_of_Z z); try discriminate. eexists. reflexivity.
    + eexists. reflexivity.
  - destruct v; try discriminate. cbn [conforms] in Hc.
    rewrite deserialize_Nested by discriminate.
    rewrite (do_load_pure _ r) by assumption.
    apply no_post_load_Nested in Hnp. destruct Hnp as [_ Hnp].
    assert (Herrs : field_errors only d (declared_fields schema) = []).
    { unfold field_errors.
      induction (declared_fields schema) as [|[name f] fs IHfs]; [reflexivity|].
      cbn [forallb fst snd] in Hc. apply andb_prop in Hc. destruct Hc as [Hhead Hc].
      inversion IH as [|? ? IHhead IHrest]; subst.
      cbn [flat_map fst snd].
      rewrite IHfs; [|assumption|intros; eapply Hnp; right; eassumption|assumption].
      rewrite app_nil_r.
      destruct (selected only name); [|reflexivity].
      destruct (dict_get name d) as [raw|].
      - destruct (IHhead (Hnp name f (or_introl eq_refl)) _ _ Hhead) as [x Hx].
        cbn [snd] in Hx. now rewrite Hx.
      - now destruct (fields.required f). }
    rewrite Herrs. eexists. reflexivity.
  - destruct v; try discriminate. cbn [conforms] in Hc. cbn [no_post_load] in Hnp.
    rewrite deserialize_List by discriminate. cbn [collection_items].
    rewrite list_loop_total by (intros; now apply deserialize_no_post_load).
    assert (Herrs : forall idx, list_errors container l idx = []).
    { induction l as [|each l IHl]; intros idx; [reflexivity|].
      cbn [forallb] in Hc. apply andb_prop in Hc. destruct Hc as [Hhead Hc].
      cbn [list_errors]. rewrite IHl by assumption.
      destruct (IH Hnp None each Hhead) as [x Hx]. now rewrite Hx. }
    rewrite Herrs. eexists. reflexivity.
Qed.

Lemma list_values_length :
  forall container items, List.length (list_values container items) = List.length items.
Proof. intros. unfold list_values. apply length_map. Qed.

Lemma list_errors_conforms :
  forall container items idx,
    no_post_load container = true ->
    Forall (fun each => conforms container None each = true) items ->
    list_errors container items idx = [].
Proof.
  intros container items idx Hnp Hall. revert idx.
  induction Hall as [|each items Hhead Hall IH]; intros idx; [reflexivity|].
  cbn [list_errors]. rewrite IH.
  destruct (conforms_deserialize container Hnp None each Hhead) as [x Hx]. now rewrite Hx.
Qed.

(** A station object of the documented shape: its required fields are a
    string and an integer, and they are loaded as they are. *)
Lemma station00_conforms :
  forall st,
    conforms (fields.Nested Method00.StationSchema false) None st = true ->
    exists d name free_bikes,
      st = VDict d /\
      dict_get "name" d = Some (VStr name) /\
      dict_get "free_bikes" d = Some (VInt free_bikes) /\
      exists d',
        deserialize (fields.Nested Method00.StationSchema false) None st =
          Deserialized (VDict d') /\
        dict_get "name" d' = Some (VStr name) /\
        dict_get "free_bikes" d' = Some (VInt free_bikes).
Proof.
  intros st Hc.
  destruct (conforms_deserialize _ StationSchema00_pure None st Hc) as [x Hx].
  destruct st; try discriminate.
  pose proof Hc as Hc'.
  cbn [conforms Method00.StationSchema declared_fields forallb fst snd selected] in Hc'.
  repeat (apply andb_prop in Hc'; destruct Hc' as [? Hc']).
  destruct (dict_get "name" d) as [[]|] eqn:Hname; try discriminate.
  destruct (dict_get "free_bikes" d) as [[]|] eqn:Hfb; try discriminate.
  exists d, s, z. split; [reflexivity|]. split; [assumption|]. split; [assumption|].
  rewrite deserialize_Nested in Hx by discriminate.
  rewrite load_station00 in Hx.
  exists (field_values None d (declared_fields Method00.StationSchema)).
  split; [|split].
  - rewrite deserialize_Nested by discriminate. rewrite load_station00.
    destruct (field_errors None d (declared_fields Method00.StationSchema));
      [reflexivity | discriminate].
  - rewrite (field_values_get None d "name" (fields.String true));
      [|reflexivity|cbn; tauto].
    unfold field_values. cbn [flat_map fst snd selected]. rewrite Hname. reflexivity.
  - rewrite (field_values_get None d "free_bikes" (fields.Integer true));
      [|reflexivity|cbn; tauto].
    unfold field_values. cbn [flat_map fst snd selected]. rewrite Hfb. reflexivity.
Qed.

(** ** Sequencing *)

Lemma io_bind_lift_Ok :
  forall (A B : Type) (a : A) (k : A -> io B), io_bind (io_lift (Ok a)) k = k a.
Proof. intros. unfold io_bind, io_lift. now destruct (k a). Qed.

Lemma io_bind_lift_Raise :
  forall (A B : Type) (e : exn) (k : A -> io B),
    io_bind (io_lift (Raise e)) k = ([], Raise e).
Proof. reflexivity. Qed.

Lemma io_bind_ret :
  forall (A B : Type) (a : A) (k : A -> io B), io_bind (io_ret a) k = k a.
Proof. intros. unfold io_bind, io_ret. now destruct (k a). Qed.

Lemma io_bind_raise :
  forall (A B : Type) (e : exn) (k : A -> io B), io_bind (raise e) k = ([], Raise e).
Proof. reflexivity. Qed.

Lemma method00_presentation :
  forall stations,
    Forall (fun st => conforms (fields.Nested Method00.StationSchema false) None st = true)
      stations ->
    for_each (list_values (fields.Nested Method00.StationSchema false) stations)
      (fun station =>
         io_bind (io_lift (getitem station "name")) (fun name =>
         io_bind (io_lift (py_add_str name " | Free Bikes: ")) (fun left =>
         io_bind (io_lift (getitem station "free_bikes")) (fun free_bikes =>
         print (left ++ py_str free_bikes)%string)))) =
    (map expected_line stations, Ok tt).
Proof.
  intros stations Hall. induction Hall as [|st stations Hst Hall IH]; [reflexivity|].
  destruct (station00_conforms st Hst)
    as (d & name & fb & -> & Hname & Hfb & d' & Hdes & Hname' & Hfb').
  cbn [list_values map for_each]. fold (list_values (fields.Nested Method00.StationSchema false) stations).
  rewrite Hdes, IH.
  unfold getitem. rewrite Hname', Hfb'.
  cbn [io_lift io_bind py_add_str print app expected_line].
  rewrite Hname, Hfb. reflexivity.
Qed.

(** C2.  For a document of the documented shape (every field that is
    present has its documented kind, every required field is present) whose
    network has a stations array, the mapping of method00 succeeds without
    errors; the loaded network.stations list has the length of the input
    array, its i-th element carries the name and free_bikes of the i-th input
    station, and method00 prints one line per station in the same order. *)
Theorem C2_stations_length_and_order :
  forall responsestr top net stations,
    json_loads VDict responsestr = Ok (VDict top) ->
    conforms (fields.Nested Method00.CityBikesAPISchema true) None (VDict top) = true ->
    dict_get "network" top = Some (VDict net) ->
    dict_get "stations" net = Some (VList stations) ->
    exists loaded,
      loads Method00.CityBikesAPISchema Method00.only responsestr =
        Ok {| data := VDict [("network", VDict [("stations", VList loaded)])];
              errors := [] |} /\
      List.length loaded = List.length stations /\
      (forall i st,
          nth_error stations i = Some st ->
          exists d name free_bikes d',
            st = VDict d /\
            dict_get "name" d = Some (VStr name) /\
            dict_get "free_bikes" d = Some (VInt free_bikes) /\
            nth_error loaded i = Some (VDict d') /\
            dict_get "name" d' = Some (VStr name) /\
            dict_get "free_bikes" d' = Some (VInt free_bikes)) /\
      method00 responsestr = (map expected_line stations, Ok tt).
Proof.
  intros responsestr top net stations Hjson Hc Hnet Hst.
  set (container := fields.Nested Method00.StationSchema false).
  assert (Hall : Forall (fun st => conforms container None st = true) stations).
  { cbn [conforms Method00.CityBikesAPISchema declared_fields forallb fst snd selected] in Hc.
    rewrite Hnet in Hc. apply andb_prop in Hc. destruct Hc as [Hc _].
    cbn [conforms Method00.NetworkSchema declared_fields forallb fst snd selected
           nested_only] in Hc.
    repeat (apply andb_prop in Hc; destruct Hc as [? Hc]).
    rewrite Hst in *.
    match goal with
    | H : forallb _ stations = true |- _ => rewrite forallb_forall in H;
                                            apply Forall_forall; exact H
    end. }
  destruct (load_method00_stations top net stations Hnet Hst) as (dat & Hload & Hdat).
  fold container in Hload, Hdat.
  rewrite (list_errors_conforms container stations 0 eq_refl Hall) in Hload, Hdat.
  specialize (Hdat eq_refl). subst dat.
  assert (Hloads : loads Method00.CityBikesAPISchema Method00.only responsestr =
                   Ok {| data := VDict [("network",
                                   VDict [("stations",
                                     VList (list_values container stations))])];
                         errors := [] |}).
  { unfold loads. rewrite Hjson. exact Hload. }
  exists (list_values container stations).
  split; [exact Hloads|]. split; [apply list_values_length|]. split.
  - intros i st Hnth.
    rewrite Forall_forall in Hall.
    destruct (station00_conforms st (Hall st (nth_error_In _ _ Hnth)))
      as (d & name & fb & -> & Hname & Hfb & d' & Hdes & Hname' & Hfb').
    exists d, name, fb, d'. repeat split; try assumption.
    unfold list_values. rewrite nth_error_map, Hnth. cbn [option_map].
    fold container in Hdes. now rewrite Hdes.
  - unfold method00. rewrite Hloads, io_bind_lift_Ok.
    cbn [errors data List.length Nat.eqb]. unfold pass. rewrite io_bind_ret.
    unfold getitem at 1. cbn [dict_get]. rewrite String.eqb_refl, io_bind_lift_Ok.
    unfold getitem at 1. cbn [dict_get]. rewrite String.eqb_refl, io_bind_lift_Ok.
    cbn [py_iter]. rewrite io_bind_lift_Ok.
    exact (method00_presentation stations Hall).
Qed.

Lemma C2_witness :
  exists loaded,
    loads Method00.CityBikesAPISchema Method00.only two_station_document =
      Ok {| data := VDict [("network", VDict [("stations", VList loaded)])];
            errors := [] |} /\
    List.length loaded = 2 /\
    (exists d0, nth_error loaded 0 = Some (VDict d0) /\
                dict_get "name" d0 = Some (VStr "Mandraki") /\
                dict_get "free_bikes" d0 = Some (VInt 3)) /\
    (exists d1, nth_error loaded 1 = Some (VDict d1) /\
                dict_get "name" d1 = Some (VStr "Elli") /\
                dict_get "free_bikes" d1 = Some (VInt 0)) /\
    method00 two_station_document =
      ([Line "Mandraki | Free Bikes: 3"; Line "Elli | Free Bikes: 0"], Ok tt).
Proof.
  destruct (C2_stations_length_and_order two_station_document two_station_top
              two_station_network two_station_stations)
    as (loaded & Hloads & Hlen & Hidx & Hrun).
  - vm_compute. reflexivity.
  - vm_compute. reflexivity.
  - vm_compute. reflexivity.
  - vm_compute. reflexivity.
  - exists loaded. split; [exact Hloads|]. split; [exact Hlen|].
    split; [|split; [|exact Hrun]].
    + destruct (Hidx 0 _ eq_refl) as (d & name & fb & d' & Hst & Hn & Hf & Hl & Hn' & Hf').
      inversion Hst; subst d. vm_compute in Hn, Hf.
      inversion Hn; subst name. inversion Hf; subst fb.
      exists d'. split; [exact Hl|]. split; assumption.
    + destruct (Hidx 1 _ eq_refl) as (d & name & fb & d' & Hst & Hn & Hf & Hl & Hn' & Hf').
      inversion Hst; subst d. vm_compute in Hn, Hf.
      inversion Hn; subst name. inversion Hf; subst fb.
      exists d'. split; [exact Hl|]. split; assumption.
Defined.

(** ** The minimal document *)

(** C3 as stated fails: on the minimal document the run does not succeed. *)
Lemma C3_minimal_run_does_not_succeed :
  ~ (main minimal_document =
     ([Line "Station A | Free Bikes: 3"; Line "Station B | Free Bikes: 0"], Ok tt)).
Proof. vm_compute. intro H. discriminate H. Qed.

(** C3, amended.  On the minimal document method00 returns after printing
    exactly the two lines, in that order; these two lines are all the program
    prints; the run then ends with an exception raised by method01, before
    method01 prints anything. *)
Theorem C3_minimal_document :
  method00 minimal_document =
    ([Line "Station A | Free Bikes: 3"; Line "Station B | Free Bikes: 0"], Ok tt) /\
  fst (main minimal_document) =
    [Line "Station A | Free Bikes: 3"; Line "Station B | Free Bikes: 0"] /\
  method01 minimal_document = ([], Raise TypeError) /\
  snd (main minimal_document) = Raise TypeError.
Proof. vm_compute. repeat split. Qed.

(** ** The calls of the module *)

Lemma run_calls_prefix :
  forall bound calls responsestr,
    is_prefix (fst (run_calls bound calls responsestr)) calls.
Proof.
  intros bound calls responsestr. induction calls as [|c calls IH]; [exact I|].
  cbn [run_calls]. destruct (bound c responsestr) as [out [[]|e]].
  - destruct (run_calls bound calls responsestr) as [entered [out' r]].
    cbn [fst is_prefix] in *. now split.
  - cbn [fst is_prefix]. split; [reflexivity|]. now destruct calls.
Qed.

(** C9.  The module calls method00, method01 and method02, in this order;
    a run enters an initial segment of these calls (all three when method00
    and method01 return) and never method03; and what the run prints and how
    it ends do not depend on what the name method03 is bound to. *)
Theorem C9_method03_never_called :
  toplevel = [CallMethod00; CallMethod01; CallMethod02] /\
  forall responsestr,
    let entered := fst (run_calls methods toplevel responsestr) in
    is_prefix entered toplevel /\
    ~ In CallMethod03 entered /\
    (forall out1 out2,
        method00 responsestr = (out1, Ok tt) ->
        method01 responsestr = (out2, Ok tt) ->
        entered = [CallMethod00; CallMethod01; CallMethod02]) /\
    main responsestr =
      io_bind (method00 responsestr) (fun _ =>
      io_bind (method01 responsestr) (fun _ => method02 responsestr)) /\
    forall f,
      run_calls (rebind_method03 f) toplevel responsestr =
      run_calls methods toplevel responsestr.
Proof.
  split; [reflexivity|]. intros responsestr entered.
  assert (Hprefix : is_prefix entered toplevel) by apply run_calls_prefix.
  split; [exact Hprefix|]. split; [|split; [|split]].
  - unfold toplevel in Hprefix.
    destruct entered as [|a [|b [|c [|d l]]]]; cbn [is_prefix] in Hprefix; cbn [In];
      intuition congruence.
  - intros out1 out2 H0 H1. subst entered. unfold toplevel.
    cbn [run_calls methods]. rewrite H0, H1.
    destruct (method02 responsestr) as [out3 [[]|e]]; reflexivity.
  - unfold main, toplevel. cbn [run_calls methods]. unfold io_bind.
    destruct (method00 responsestr) as [out0 [[]|e0]]; [|reflexivity].
    destruct (method01 responsestr) as [out1 [[]|e1]]; [|reflexivity].
    destruct (method02 responsestr) as [out2 [[]|e2]]; cbn; now rewrite ?app_nil_r.
  - intros f. reflexivity.
Qed.

(** ** method02 *)












(** ** Loads that succeed *)

Lemma do_load_success :
  forall schema only v r,
    v <> VNone ->
    filter (fun nf => selected only (fst nf)) (declared_fields schema) <> [] ->
    do_load deserialize schema only v = Ok r ->
    errors r = [] ->
    exists d,
      v = VDict d /\
      field_errors only d (declared_fields schema) = [] /\
      match post_load schema with
      | None => data r = VDict (field_values only d (declared_fields schema))
      | Some postload =>
          postload (field_values only d (declared_fields schema)) = Ok (data r)
      end.
Proof.
  intros schema only v r Hnone Hsel H Herr. unfold do_load in H.
  destruct v as [|b|z|x|s|l|d|c a];
    try (destruct (filter _ (declared_fields schema)) as [|[name f] rest];
         [now destruct Hsel | inversion H; subst; discriminate]).
  { now destruct Hnone. }
  destruct (unmarshal deserialize only d (declared_fields schema) [] [])
    as [[ret errs]|e] eqn:Hu; [|discriminate].
  apply unmarshal_Ok in Hu. cbn [app] in Hu. destruct Hu as [-> ->].
  exists d. split; [reflexivity|].
  destruct (field_errors only d (declared_fields schema)) as [|err errs] eqn:He.
  - split; [reflexivity|].
    destruct (post_load schema) as [postload|].
    + destruct (postload _) as [obj|e]; inversion H; subst. reflexivity.
    + inversion H; subst. reflexivity.
  - inversion H; subst. discriminate.
Qed.

Lemma deserialize_Nested_success :
  forall schema r only v x,
    filter (fun nf => selected only (fst nf)) (declared_fields schema) <> [] ->
    deserialize (fields.Nested schema r) only v = Deserialized x ->
    exists d,
      v = VDict d /\
      field_errors only d (declared_fields schema) = [] /\
      match post_load schema with
      | None => x = VDict (field_values only d (declared_fields schema))
      | Some postload => postload (field_values only d (declared_fields schema)) = Ok x
      end.
Proof.
  intros schema r only v x Hsel H.
  assert (Hv : v <> VNone) by (intros ->; rewrite deserialize_None in H; discriminate).
  rewrite deserialize_Nested in H by assumption.
  destruct (do_load deserialize schema only v) as [[dat errs]|e] eqn:Hl; [|discriminate].
  destruct errs; [|discriminate]. inversion H; subst.
  apply (do_load_success schema only v _ Hv Hsel Hl). reflexivity.
Qed.

Lemma instantiate_success :
  forall cls params kwargs obj,
    instantiate cls params kwargs = Ok obj ->
    obj = VObject cls (map (fun p => (p, match dict_get p kwargs with
                                         | Some v => v
                                         | None => VNone
                                         end)) params) /\
    forall p, In p params -> exists v, dict_get p kwargs = Some v.
Proof.
  intros cls params kwargs obj H. unfold instantiate in H.
  destruct (forallb (fun p => dict_mem p kwargs) params) eqn:Hall; [|discriminate].
  destruct (forallb _ kwargs); [|discriminate]. cbn in H. inversion H; subst.
  split; [reflexivity|]. intros p Hin.
  rewrite forallb_forall in Hall. specialize (Hall p Hin). unfold dict_mem in Hall.
  destruct (dict_get p kwargs) as [v|]; [eauto | discriminate].
Qed.

(** A loaded value of a declared field comes from the document, through the
    field, without error. *)
Lemma field_value_origin :
  forall only d fs name f x,
    distinct (map fst fs) = true ->
    In (name, f) fs ->
    field_errors only d fs = [] ->
    dict_get name (field_values only d fs) = Some x ->
    exists raw,
      dict_get name d = Some raw /\
      deserialize f (nested_only only name) raw = Deserialized x.
Proof.
  intros only d fs name f x Hd Hin Herr Hget.
  rewrite (field_values_get only d name f fs Hd Hin) in Hget.
  pose proof (field_errors_get only d name f fs Hd Hin) as He.
  rewrite Herr in He. cbn [errdict_get] in He.
  unfold field_values in Hget. unfold field_errors in He.
  cbn [flat_map fst snd] in Hget, He.
  destruct (selected only name); [|discriminate].
  destruct (dict_get name d) as [raw|]; [|discriminate].
  exists raw. split; [reflexivity|].
  destruct (deserialize f (nested_only only name) raw) as [y|msgs edata|e].
  - cbn in Hget. rewrite String.eqb_refl in Hget. now inversion Hget.
  - cbn in He. rewrite String.eqb_refl in He. discriminate.
  - discriminate.
Qed.

(** ** method01 *)

Lemma location01_success :
  forall locv locobj,
    deserialize (fields.Nested Method01.LocationSchema true) None locv =
      Deserialized locobj ->
    exists loc city country,
      locv = VDict loc /\
      dict_get "city" loc = Some (VStr city) /\
      dict_get "country" loc = Some (VStr country) /\
      locobj = VObject Location [("city", VStr city); ("country", VStr country)].
Proof.
  intros locv locobj H.
  apply deserialize_Nested_success in H; [|discriminate].
  destruct H as (loc & -> & Herr & Hpost).
  cbn [post_load Method01.LocationSchema] in Hpost.
  apply instantiate_success in Hpost. destruct Hpost as [-> Hkeys].
  set (fs := declared_fields Method01.LocationSchema) in *.
  destruct (Hkeys "city" (or_introl eq_refl)) as [cv Hcv].
  destruct (Hkeys "country" (or_intror (or_introl eq_refl))) as [kv Hkv].
  destruct (field_value_origin None loc fs "city" (fields.String false) cv
              eq_refl (or_introl eq_refl) Herr Hcv) as (craw & Hc & Hcd).
  destruct (field_value_origin None loc fs "country" (fields.String false) kv
              eq_refl (or_intror (or_introl eq_refl)) Herr Hkv) as (kraw & Hk & Hkd).
  destruct craw; try discriminate. destruct kraw; try discriminate.
  cbn in Hcd, Hkd. inversion Hcd; subst. inversion Hkd; subst.
  exists loc, s, s0. repeat split; try assumption.
  cbn [map]. rewrite Hcv, Hkv. reflexivity.
Qed.

Lemma network01_success :
  forall netv netobj,
    deserialize (fields.Nested Method01.NetworkSchema true) None netv =
      Deserialized netobj ->
    exists net attrs locv locobj,
      netv = VDict net /\
      netobj = VObject Network attrs /\
      dict_get "location" net = Some locv /\
      deserialize (fields.Nested Method01.LocationSchema true) None locv =
        Deserialized locobj /\
      dict_get "location" attrs = Some locobj.
Proof.
  intros netv netobj H.
  apply deserialize_Nested_success in H; [|discriminate].
  destruct H as (net & -> & Herr & Hpost).
  cbn [post_load Method01.NetworkSchema] in Hpost.
  apply instantiate_success in Hpost. destruct Hpost as [-> Hkeys].
  set (fs := declared_fields Method01.NetworkSchema) in *.
  destruct (Hkeys "location") as [locobj Hloc]; [cbn; tauto|].
  destruct (field_value_origin None net fs "location"
              (fields.Nested Method01.LocationSchema true) locobj
              eq_refl) as (locv & Hl & Hld); [cbn; tauto | assumption | assumption |].
  eexists net, _, locv, locobj.
  split; [reflexivity|]. split; [reflexivity|]. split; [assumption|].
  split; [exact Hld|].
  cbn [map dict_get]. 
  change (("location" =? "company")%string) with false.
  change (("location" =? "href")%string) with false.
  change (("location" =? "id")%string) with false.
  change (("location" =? "location")%string) with true.
  cbv iota. now rewrite Hloc.
Qed.

Lemma load01_success :
  forall v r,
    load Method01.CityBikesAPISchema None v = Ok r ->
    errors r = [] ->
    exists top netv netobj,
      v = VDict top /\
      dict_get "network" top = Some netv /\
      deserialize (fields.Nested Method01.NetworkSchema true) None netv =
        Deserialized netobj /\
      data r = VObject CityBikesAPI [("network", netobj)].
Proof.
  intros v r H Herr. unfold load in H.
  assert (Hv : v <> VNone) by (intros ->; discriminate).
  apply do_load_success in H; [|assumption|discriminate|assumption].
  destruct H as (top & -> & Hfe & Hpost).
  cbn [post_load Method01.CityBikesAPISchema] in Hpost.
  apply instantiate_success in Hpost. destruct Hpost as [Hdata Hkeys].
  set (fs := declared_fields Method01.CityBikesAPISchema) in *.
  destruct (Hkeys "network" (or_introl eq_refl)) as [netobj Hn].
  destruct (field_value_origin None top fs "network"
              (fields.Nested Method01.NetworkSchema true) netobj
              eq_refl (or_introl eq_refl) Hfe Hn) as (netv & Hnet & Hd).
  exists top, netv, netobj. repeat split; try assumption.
  rewrite Hdata. cbn [map]. now rewrite Hn.
Qed.

Lemma method01_validation_fails :
  forall responsestr r,
    loads Method01.CityBikesAPISchema None responsestr = Ok r ->
    errors r <> [] ->
    method01 responsestr = ([], Raise (PyException (errors_str (errors r)))).
Proof.
  intros responsestr r Hl Herr. unfold method01. rewrite Hl, io_bind_lift_Ok.
  destruct (errors r) as [|err errs] eqn:He; [congruence|]. reflexivity.
Qed.

(** A run of method01 whose load has no errors. *)
Lemma method01_success :
  forall responsestr r,
    loads Method01.CityBikesAPISchema None responsestr = Ok r ->
    errors r = [] ->
    method01 responsestr =
    ([Line (py_str (data r)); DumpsLine (data r); MarshalResultLine (data r)], Ok tt).
Proof.
  intros responsestr r Hl Herr.
  assert (Hload := Hl). unfold loads in Hload.
  destruct (json_loads VDict responsestr) as [doc|e]; [|discriminate].
  cbn [rbind] in Hload.
  destruct (load01_success doc r Hload Herr) as (top & netv & netobj & -> & Hnet & Hd & Hdata).
  destruct (network01_success netv netobj Hd)
    as (net & attrs & locv & locobj & -> & -> & _ & _ & _).
  unfold method01. rewrite Hl, io_bind_lift_Ok, Herr.
  cbn [List.length Nat.eqb]. unfold pass. rewrite io_bind_ret.
  rewrite Hdata.
  cbn [getattr dict_get setattr]. rewrite String.eqb_refl.
  cbn [print io_bind io_lift io_ret app]. rewrite Hdata. reflexivity.
Qed.

(** ** Validation failures and output *)

(** C6 as stated fails: a run in which validation fails (in method01) after
    method00 has printed a station line. *)
Lemma C6_station_line_before_failed_validation :
  main no_location_document =
  ([Line "Mandraki | Free Bikes: 3"],
   Raise (PyException "{'network': {'location': ['Missing data for required field.']}}")).
Proof. vm_compute. reflexivity. Qed.

(** C6, amended.  A method whose validation fails prints nothing and raises
    the exception whose message is the dictionary of errors (field paths and
    messages).  When it is method00 the program prints nothing at all; when
    it is method01, the lines method00 printed before are the whole
    output. *)
Theorem C6_failed_validation :
  forall responsestr r,
    errors r <> [] ->
    let failure := PyException (errors_str (errors r)) in
    kind_of failure = ValidationErrorKind /\
    (loads Method00.CityBikesAPISchema Method00.only responsestr = Ok r ->
     method00 responsestr = ([], Raise failure) /\
     main responsestr = ([], Raise failure)) /\
    (loads Method01.CityBikesAPISchema None responsestr = Ok r ->
     method01 responsestr = ([], Raise failure) /\
     forall out, method00 responsestr = (out, Ok tt) ->
                 main responsestr = (out, Raise failure)).
Proof.
  intros responsestr r Herr failure. split; [reflexivity|]. split.
  - intros Hl.
    assert (Hm := method00_validation_fails responsestr r Hl Herr).
    split; [exact Hm | now apply main_method00_raises].
  - intros Hl.
    assert (Hm := method01_validation_fails responsestr r Hl Herr).
    split; [exact Hm|]. intros out H0.
    unfold main, toplevel. cbn [run_calls methods]. rewrite H0, Hm.
    cbn. now rewrite app_nil_r.
Qed.

Lemma C6_witness :
  errors no_location_result <> [] /\
  loads Method01.CityBikesAPISchema None no_location_document = Ok no_location_result /\
  method01 no_location_document =
    ([], Raise (PyException
                  "{'network': {'location': ['Missing data for required field.']}}")) /\
  main no_location_document =
    ([Line "Mandraki | Free Bikes: 3"],
     Raise (PyException
              "{'network': {'location': ['Missing data for required field.']}}")).
Proof.
  assert (Herr : errors no_location_result <> []) by discriminate.
  assert (Hl : loads Method01.CityBikesAPISchema None no_location_document =
               Ok no_location_result) by (vm_compute; reflexivity).
  split; [exact Herr|]. split; [exact Hl|].
  destruct (proj2 (proj2 (C6_failed_validation no_location_document
                            no_location_result Herr)) Hl) as [Hm Hmain].
  split; [exact Hm|].
  apply Hmain. vm_compute. reflexivity.
Defined.

(** ** Two loads of the same text *)

(** ** The two loads of method01 *)

Section ValueInduction.

Variable P : value -> Prop.
Hypothesis HNone : P VNone.
Hypothesis HBool : forall b, P (VBool b).
Hypothesis HInt : forall z, P (VInt z).
Hypothesis HFloat : forall f, P (VFloat f).
Hypothesis HStr : forall s, P (VStr s).
Hypothesis HList : forall l, Forall P l -> P (VList l).
Hypothesis HDict : forall d, Forall (fun kv => P (snd kv)) d -> P (VDict d).
Hypothesis HObject :
  forall c attrs, Forall (fun kv => P (snd kv)) attrs -> P (VObject c attrs).

Fixpoint value_induction (v : value) : P v :=
  match v with
  | VNone => HNone
  | VBool b => HBool b
  | VInt z => HInt z
  | VFloat f => HFloat f
  | VStr s => HStr s
  | VList l =>
      HList l ((fix all (l : list value) : Forall P l :=
                  match l with
                  | [] => Forall_nil _
                  | x :: l' => Forall_cons x (value_induction x) (all l')
                  end) l)
  | VDict d =>
      HDict d ((fix all (d : list (string * value)) : Forall (fun kv => P (snd kv)) d :=
                  match d with
                  | [] => Forall_nil _
                  | kv :: d' => Forall_cons kv (value_induction (snd kv)) (all d')
                  end) d)
  | VObject c attrs =>
      HObject c attrs
        ((fix all (d : list (string * value)) : Forall (fun kv => P (snd kv)) d :=
            match d with
            | [] => Forall_nil _
            | kv :: d' => Forall_cons kv (value_induction (snd kv)) (all d')
            end) attrs)
  end.

End ValueInduction.

Lemma fetch_items_mono :
  forall (f g : ref_value -> option value) rs ts,
    (forall r t, f r = Some t -> g r = Some t) ->
    fetch_items f rs = Some ts -> fetch_items g rs = Some ts.
Proof.
  intros f g rs. induction rs as [|r rs IH]; intros ts Hfg H; [exact H|].
  cbn [fetch_items] in *.
  destruct (f r) as [t|] eqn:Hr; [|discriminate].
  destruct (fetch_items f rs) as [ts'|]; [|discriminate].
  now rewrite (Hfg _ _ Hr), (IH ts' Hfg eq_refl).
Qed.

Lemma fetch_entries_mono :
  forall (f g : ref_value -> option value) es ts,
    (forall r t, f r = Some t -> g r = Some t) ->
    fetch_entries f es = Some ts -> fetch_entries g es = Some ts.
Proof.
  intros f g es. induction es as [|[k r] es IH]; intros ts Hfg H; [exact H|].
  cbn [fetch_entries fst snd] in *.
  destruct (f r) as [t|] eqn:Hr; [|discriminate].
  destruct (fetch_entries f es) as [ts'|]; [|discriminate].
  now rewrite (Hfg _ _ Hr), (IH ts' Hfg eq_refl).
Qed.

(** Allocation leaves what a reference reaches as it is. *)
Lemma fetch_weaken :
  forall n h ext r t, fetch n h r = Some t -> fetch n (h ++ ext) r = Some t.
Proof.
  induction n as [|n IH]; intros h ext r t H.
  - destruct r; exact H.
  - destruct r as [| | | | |a]; try exact H. cbn [fetch] in *.
    destruct (nth_error h a) as [o|] eqn:Ha; [|discriminate].
    rewrite nth_error_app1 by (apply nth_error_Some; congruence). rewrite Ha.
    destruct o as [rs|es|c es].
    + destruct (fetch_items (fetch n h) rs) as [ts|] eqn:Hts; [|discriminate].
      now rewrite (fetch_items_mono _ (fetch n (h ++ ext)) _ _ (IH h ext) Hts).
    + destruct (fetch_entries (fetch n h) es) as [ts|] eqn:Hts; [|discriminate].
      now rewrite (fetch_entries_mono _ (fetch n (h ++ ext)) _ _ (IH h ext) Hts).
    + destruct (fetch_entries (fetch n h) es) as [ts|] eqn:Hts; [|discriminate].
      now rewrite (fetch_entries_mono _ (fetch n (h ++ ext)) _ _ (IH h ext) Hts).
Qed.

Lemma fetch_fuel_S :
  forall n h r t, fetch n h r = Some t -> fetch (S n) h r = Some t.
Proof.
  induction n as [|n IH]; intros h r t H.
  - destruct r; try exact H. discriminate.
  - destruct r as [| | | | |a]; try exact H.
    cbn [fetch] in H. change (fetch (S (S n)) h (RRef a)) with
      (match nth_error h a with
       | Some (OList rs) => option_map VList (fetch_items (fetch (S n) h) rs)
       | Some (ODict es) => option_map VDict (fetch_entries (fetch (S n) h) es)
       | Some (OInstance c es) => option_map (VObject c) (fetch_entries (fetch (S n) h) es)
       | None => None
       end).
    destruct (nth_error h a) as [[rs|es|c es]|]; [| | |discriminate].
    + destruct (fetch_items (fetch n h) rs) as [ts|] eqn:Hts; [|discriminate].
      now rewrite (fetch_items_mono _ (fetch (S n) h) _ _ (IH h) Hts).
    + destruct (fetch_entries (fetch n h) es) as [ts|] eqn:Hts; [|discriminate].
      now rewrite (fetch_entries_mono _ (fetch (S n) h) _ _ (IH h) Hts).
    + destruct (fetch_entries (fetch n h) es) as [ts|] eqn:Hts; [|discriminate].
      now rewrite (fetch_entries_mono _ (fetch (S n) h) _ _ (IH h) Hts).
Qed.

Lemma fetch_fuel :
  forall n m h r t, n <= m -> fetch n h r = Some t -> fetch m h r = Some t.
Proof.
  intros n m h r t Hle H. induction Hle as [|m Hle IH]; [exact H|].
  now apply fetch_fuel_S.
Qed.

Lemma build_items_built :
  forall l, Forall built l ->
    forall h, exists ext,
      snd (build_items build l h) = h ++ ext /\
      forall g, List.length g = List.length h ->
                fetch_items (fetch (List.length ext) (g ++ ext))
                  (fst (build_items build l h)) = Some l.
Proof.
  intros l Hall. induction Hall as [|x l Hx Hall IH]; intros h.
  - exists []. split; [cbn; now rewrite app_nil_r | reflexivity].
  - cbn [build_items]. destruct (Hx h) as (e1 & He1 & Hf1).
    destruct (build x h) as [r h1] eqn:Hb. cbn [fst snd] in He1, Hf1. subst h1.
    destruct (IH (h ++ e1)) as (e2 & He2 & Hf2).
    destruct (build_items build l (h ++ e1)) as [rs h2] eqn:Hbs. cbn [fst snd] in He2, Hf2.
    subst h2. exists (e1 ++ e2). cbn [fst snd]. split; [now rewrite app_assoc|].
    intros g Hg. cbn [fetch_items].
    assert (H1 : fetch (List.length (e1 ++ e2)) (g ++ e1 ++ e2) r = Some x).
    { rewrite app_assoc. apply fetch_weaken.
      apply (fetch_fuel (List.length e1)); [rewrite length_app; lia | now apply Hf1]. }
    rewrite H1.
    assert (H2 : fetch_items (fetch (List.length (e1 ++ e2)) (g ++ e1 ++ e2)) rs = Some l).
    { apply (fetch_items_mono (fetch (List.length e2) ((g ++ e1) ++ e2))).
      - intros r' t' Hr'. rewrite app_assoc.
        apply (fetch_fuel (List.length e2)); [rewrite length_app; lia | exact Hr'].
      - apply Hf2. rewrite !length_app. lia. }
    now rewrite H2.
Qed.

Lemma build_entries_built :
  forall d, Forall (fun kv => built (snd kv)) d ->
    forall h, exists ext,
      snd (build_entries build d h) = h ++ ext /\
      forall g, List.length g = List.length h ->
                fetch_entries (fetch (List.length ext) (g ++ ext))
                  (fst (build_entries build d h)) = Some d.
Proof.
  intros d Hall. induction Hall as [|[k x] d Hx Hall IH]; intros h.
  - exists []. split; [cbn; now rewrite app_nil_r | reflexivity].
  - cbn [build_entries fst snd] in *. destruct (Hx h) as (e1 & He1 & Hf1).
    destruct (build x h) as [r h1] eqn:Hb. cbn [fst snd] in He1, Hf1. subst h1.
    destruct (IH (h ++ e1)) as (e2 & He2 & Hf2).
    destruct (build_entries build d (h ++ e1)) as [rs h2] eqn:Hbs.
    cbn [fst snd] in He2, Hf2.
    subst h2. exists (e1 ++ e2). cbn [fst snd]. split; [now rewrite app_assoc|].
    intros g Hg. cbn [fetch_entries fst snd].
    assert (H1 : fetch (List.length (e1 ++ e2)) (g ++ e1 ++ e2) r = Some x).
    { rewrite app_assoc. apply fetch_weaken.
      apply (fetch_fuel (List.length e1)); [rewrite length_app; lia | now apply Hf1]. }
    rewrite H1.
    assert (H2 : fetch_entries (fetch (List.length (e1 ++ e2)) (g ++ e1 ++ e2)) rs = Some d).
    { apply (fetch_entries_mono (fetch (List.length e2) ((g ++ e1) ++ e2))).
      - intros r' t' Hr'. rewrite app_assoc.
        apply (fetch_fuel (List.length e2)); [rewrite length_app; lia | exact Hr'].
      - apply Hf2. rewrite !length_app. lia. }
    now rewrite H2.
Qed.

Lemma nth_error_last_cell :
  forall (g e : heap) o n,
    n = List.length g + List.length e ->
    nth_error (g ++ e ++ [o]) n = Some o.
Proof.
  intros g e o n ->. rewrite app_assoc.
  rewrite nth_error_app2 by (rewrite length_app; lia).
  rewrite length_app. replace (_ - _) with 0 by lia. reflexivity.
Qed.

Lemma build_built : forall v, built v.
Proof.
  induction v as [| | | | |l IH|d IH|c attrs IH] using value_induction; intros h;
    try (exists []; split; [cbn; now rewrite app_nil_r | reflexivity]).
  - destruct (build_items_built l IH h) as (e & He & Hf).
    cbn [build]. destruct (build_items build l h) as [rs h'] eqn:Hb.
    cbn [fst snd] in *. subst h'.
    exists (e ++ [OList rs]). split; [now rewrite app_assoc|].
    intros g Hg. rewrite length_app. cbn [List.length]. rewrite Nat.add_1_r.
    cbn [fetch]. rewrite (nth_error_last_cell g e) by (rewrite length_app; lia).
    rewrite (fetch_items_mono _ (fetch (List.length e) (g ++ e ++ [OList rs])) _ _
               (fun r t H => eq_trans (f_equal (fun x => fetch _ x r) (app_assoc g e _))
                                      (fetch_weaken _ _ _ _ _ H)) (Hf g Hg)).
    reflexivity.
  - destruct (build_entries_built d IH h) as (e & He & Hf).
    cbn [build]. destruct (build_entries build d h) as [rs h'] eqn:Hb.
    cbn [fst snd] in *. subst h'.
    exists (e ++ [ODict rs]). split; [now rewrite app_assoc|].
    intros g Hg. rewrite length_app. cbn [List.length]. rewrite Nat.add_1_r.
    cbn [fetch]. rewrite (nth_error_last_cell g e) by (rewrite length_app; lia).
    rewrite (fetch_entries_mono _ (fetch (List.length e) (g ++ e ++ [ODict rs])) _ _
               (fun r t H => eq_trans (f_equal (fun x => fetch _ x r) (app_assoc g e _))
                                      (fetch_weaken _ _ _ _ _ H)) (Hf g Hg)).
    reflexivity.
  - destruct (build_entries_built attrs IH h) as (e & He & Hf).
    cbn [build]. destruct (build_entries build attrs h) as [rs h'] eqn:Hb.
    cbn [fst snd] in *. subst h'.
    exists (e ++ [OInstance c rs]). split; [now rewrite app_assoc|].
    intros g Hg. rewrite length_app. cbn [List.length]. rewrite Nat.add_1_r.
    cbn [fetch]. rewrite (nth_error_last_cell g e) by (rewrite length_app; lia).
    rewrite (fetch_entries_mono _ (fetch (List.length e) (g ++ e ++ [OInstance c rs])) _ _
               (fun r t H => eq_trans (f_equal (fun x => fetch _ x r) (app_assoc g e _))
                                      (fetch_weaken _ _ _ _ _ H)) (Hf g Hg)).
    reflexivity.
Qed.




Lemma build_frame :
  forall v h, exists ext,
    snd (build v h) = h ++ ext /\
    forall g ext', List.length g = List.length h ->
                   fetch (List.length (g ++ ext ++ ext')) (g ++ ext ++ ext')
                     (fst (build v h)) = Some v.
Proof.
  intros v h. destruct (build_built v h) as (ext & Hext & Hf).
  exists ext. split; [exact Hext|]. intros g ext' Hg.
  rewrite app_assoc. apply (fetch_fuel (List.length ext)).
  - rewrite !length_app. lia.
  - apply fetch_weaken. now apply Hf.
Qed.

Lemma view_fetch :
  forall h r t, fetch (List.length h) h r = Some t -> view h r = t.
Proof. intros h r t H. unfold view. now rewrite H. Qed.

Lemma heap_update_length :
  forall a o h, List.length (heap_update a o h) = List.length h.
Proof.
  intros a o h. revert a. induction h as [|x h IH]; intros a; [reflexivity|].
  destruct a; cbn; [reflexivity | now rewrite IH].
Qed.

Lemma heap_update_app :
  forall a o h ext,
    a < List.length h -> heap_update a o (h ++ ext) = heap_update a o h ++ ext.
Proof.
  intros a o h ext. revert a. induction h as [|x h IH]; intros a Ha; [cbn in Ha; lia|].
  destruct a; cbn; [reflexivity|]. rewrite IH by (cbn in Ha; lia). reflexivity.
Qed.

Lemma heap_update_same :
  forall a o h, a < List.length h -> nth_error (heap_update a o h) a = Some o.
Proof.
  intros a o h. revert a. induction h as [|x h IH]; intros a Ha; [cbn in Ha; lia|].
  destruct a; cbn; [reflexivity|]. apply IH. cbn in Ha. lia.
Qed.

Lemma heap_update_other :
  forall a b o h, a <> b -> nth_error (heap_update a o h) b = nth_error h b.
Proof.
  intros a b o h. revert a b. induction h as [|x h IH]; intros a b Hne; [reflexivity|].
  destruct a, b; cbn; try reflexivity; [congruence|]. apply IH. congruence.
Qed.

Lemma dict_get_set_same :
  forall (A : Type) k (v : A) d, dict_get k (dict_set k v d) = Some v.
Proof.
  intros A k v d. induction d as [|[k' v'] d IH]; cbn.
  - now rewrite String.eqb_refl.
  - destruct (String.eqb k k') eqn:Hk; cbn; [now rewrite String.eqb_refl|].
    now rewrite Hk.
Qed.

(** The cells of a record tree of method01: the root and its network. *)
Lemma build_root :
  forall attrs h,
    exists h' es,
      build_entries build attrs h = (es, h') /\
      List.length h <= List.length h' /\
      build (VObject CityBikesAPI [("network", VObject Network attrs)]) h =
        (RRef (S (List.length h')),
         h' ++ [OInstance Network es;
                OInstance CityBikesAPI [("network", RRef (List.length h'))]]).
Proof.
  intros attrs h.
  assert (Hall : Forall (fun kv : string * value => built (snd kv)) attrs).
  { apply Forall_forall. intros kv _. apply build_built. }
  destruct (build_entries_built attrs Hall h) as (ext & Hext & _).
  destruct (build_entries build attrs h) as [es h'] eqn:Hb. cbn [snd] in Hext.
  exists h', es. split; [reflexivity|]. split; [subst h'; rewrite length_app; lia|].
  cbn [build build_entries fst snd]. rewrite Hb.
  rewrite length_app. cbn [List.length]. rewrite Nat.add_1_r.
  rewrite <- app_assoc. reflexivity.
Qed.

Lemma fetch_str :
  forall n h s, fetch n h (RStr s) = Some (VStr s).
Proof. intros n h s. now destruct n. Qed.

Lemma nth_error_cell :
  forall (g rest : heap) o, nth_error (g ++ o :: rest) (List.length g) = Some o.
Proof.
  intros g rest o. rewrite nth_error_app2 by lia. now rewrite Nat.sub_diag.
Qed.

Lemma nth_error_next_cell :
  forall (g rest : heap) o o',
    nth_error (g ++ o :: o' :: rest) (S (List.length g)) = Some o'.
Proof.
  intros g rest o o'. rewrite nth_error_app2 by lia.
  replace (S (List.length g) - List.length g) with 1 by lia. reflexivity.
Qed.

(** A load of method01 without errors returns a CityBikesAPI whose network
    is a Network. *)
Lemma loads01_shape :
  forall responsestr r,
    loads Method01.CityBikesAPISchema None responsestr = Ok r ->
    errors r = [] ->
    exists attrs, data r = VObject CityBikesAPI [("network", VObject Network attrs)].
Proof.
  intros responsestr r Hl Herr. unfold loads in Hl.
  destruct (json_loads VDict responsestr) as [doc|e]; [|discriminate].
  cbn [rbind] in Hl.
  destruct (load01_success doc r Hl Herr) as (top & netv & netobj & -> & Hnet & Hd & Hdata).
  destruct (network01_success netv netobj Hd) as (net & attrs & locv & locobj & -> & -> & _).
  exists attrs. exact Hdata.
Qed.

(** The heap of method01 at the end of a run without errors. *)
Lemma store_method01_cells :
  forall responsestr h r,
    loads Method01.CityBikesAPISchema None responsestr = Ok r ->
    errors r = [] ->
    exists result_data h1 datain_data h2 h3,
      Store.loads Method01.CityBikesAPISchema None responsestr h =
        Ok (result_data, errors r, h1) /\
      Store.loads Method01.CityBikesAPISchema None responsestr h1 =
        Ok (datain_data, errors r, h2) /\
      result_data <> datain_data /\
      view h1 result_data = data r /\
      view h2 result_data = data r /\
      view h2 datain_data = data r /\
      Store.method01 responsestr h =
        ([Line (py_str (data r)); DumpsLine (data r); MarshalResultLine (data r)],
         Ok h3) /\
      view h3 datain_data = data r /\
      exists network company,
        heap_getattr h3 result_data "network" = Ok network /\
        heap_getattr h3 network "company" = Ok company /\
        view h3 company = VList [VStr "Systems Cyclopolis"].
Proof.
  intros responsestr h r Hl Herr.
  destruct (loads01_shape _ _ Hl Herr) as [attrs Hdata].
  destruct (build_root attrs h) as (g1 & es1 & _ & _ & Hroot1).
  destruct (build_frame (data r) h) as (ext1 & Hext1 & Hframe1).
  rewrite Hdata, Hroot1 in Hext1, Hframe1. cbn [fst snd] in Hext1, Hframe1.
  remember (g1 ++ [OInstance Network es1;
                   OInstance CityBikesAPI [("network", RRef (List.length g1))]])
    as h1 eqn:Hh1.
  destruct (build_root attrs h1) as (g2 & es2 & _ & Hle2 & Hroot2).
  destruct (build_frame (data r) h1) as (ext2 & Hext2 & Hframe2).
  rewrite Hdata, Hroot2 in Hext2, Hframe2. cbn [fst snd] in Hext2, Hframe2.
  remember (g2 ++ [OInstance Network es2;
                   OInstance CityBikesAPI [("network", RRef (List.length g2))]])
    as h2 eqn:Hh2.
  set (cell := OList [RStr "Systems Cyclopolis"]).
  set (network' := OInstance Network (dict_set "company" (RRef (List.length h2)) es1)).
  set (h3 := heap_update (List.length g1) network' (h2 ++ [cell])).
  assert (Hlen1 : List.length h1 = S (S (List.length g1))).
  { rewrite Hh1, length_app. cbn [List.length]. lia. }
  assert (Hlen2 : List.length h2 = List.length h1 + List.length ext2).
  { rewrite Hext2. apply length_app. }
  assert (Hnet1 : nth_error h1 (List.length g1) = Some (OInstance Network es1)).
  { rewrite Hh1. apply nth_error_cell. }
  assert (Hroot : nth_error h1 (S (List.length g1)) =
                  Some (OInstance CityBikesAPI [("network", RRef (List.length g1))])).
  { rewrite Hh1. apply nth_error_next_cell. }
  assert (Hh3 : h3 = heap_update (List.length g1) network' h1 ++ ext2 ++ [cell]).
  { unfold h3. rewrite Hext2, <- app_assoc. apply heap_update_app. lia. }
  assert (Hl1 : Store.loads Method01.CityBikesAPISchema None responsestr h =
                Ok (RRef (S (List.length g1)), errors r, h1)).
  { unfold Store.loads. rewrite Hl. cbn [rbind]. rewrite Hdata, Hroot1. reflexivity. }
  assert (Hl2 : Store.loads Method01.CityBikesAPISchema None responsestr h1 =
                Ok (RRef (S (List.length g2)), errors r, h2)).
  { unfold Store.loads. rewrite Hl. cbn [rbind]. rewrite Hdata, Hroot2. reflexivity. }
  assert (Hv1 : view h1 (RRef (S (List.length g1))) = data r).
  { apply view_fetch. rewrite Hdata.
    specialize (Hframe1 h [] eq_refl). rewrite app_nil_r, <- Hext1 in Hframe1.
    exact Hframe1. }
  assert (Hv21 : view h2 (RRef (S (List.length g1))) = data r).
  { apply view_fetch. rewrite Hdata.
    specialize (Hframe1 h ext2 eq_refl).
    rewrite app_assoc, <- Hext1, <- Hext2 in Hframe1. exact Hframe1. }
  assert (Hv22 : view h2 (RRef (S (List.length g2))) = data r).
  { apply view_fetch. rewrite Hdata.
    specialize (Hframe2 h1 [] eq_refl). rewrite app_nil_r, <- Hext2 in Hframe2.
    exact Hframe2. }
  assert (Hv3 : view h3 (RRef (S (List.length g2))) = data r).
  { apply view_fetch. rewrite Hdata, Hh3.
    apply Hframe2. apply heap_update_length. }
  assert (Hget : heap_getattr (h2 ++ [cell]) (RRef (S (List.length g1))) "network" =
                 Ok (RRef (List.length g1))).
  { unfold heap_getattr. rewrite Hext2, <- app_assoc.
    rewrite nth_error_app1 by lia. rewrite Hroot. reflexivity. }
  assert (Hset : heap_setattr (h2 ++ [cell]) (RRef (List.length g1)) "company"
                   (RRef (List.length h2)) = Ok h3).
  { unfold heap_setattr. rewrite Hext2 at 1. rewrite <- app_assoc.
    rewrite nth_error_app1 by lia. rewrite Hnet1. reflexivity. }
  exists (RRef (S (List.length g1))), h1, (RRef (S (List.length g2))), h2, h3.
  split; [exact Hl1|]. split; [exact Hl2|].
  split; [intros Heq; inversion Heq; lia|].
  split; [exact Hv1|]. split; [exact Hv21|]. split; [exact Hv22|].
  split.
  { rewrite Herr in Hl1, Hl2.
    unfold Store.method01. rewrite Hl1, io_bind_lift_Ok.
    cbn [List.length Nat.eqb]. unfold pass. rewrite io_bind_ret.
    rewrite Hv1. rewrite Hl2.
    cbn [build build_items]. fold cell.
    cbn [print io_bind io_lift io_ret app].
    rewrite Hget. cbn [io_bind io_lift app]. rewrite Hset. cbn [io_bind app].
    fold h3. rewrite Hv3. reflexivity. }
  split; [exact Hv3|].
  exists (RRef (List.length g1)), (RRef (List.length h2)).
  assert (Hlt : List.length g1 < List.length (h2 ++ [cell])).
  { rewrite length_app. lia. }
  split; [|split].
  - unfold heap_getattr, h3. rewrite heap_update_other by lia.
    rewrite Hext2, <- app_assoc. rewrite nth_error_app1 by lia. rewrite Hroot. reflexivity.
  - unfold heap_getattr, h3. rewrite heap_update_same by exact Hlt.
    unfold network'. now rewrite dict_get_set_same.
  - apply view_fetch. unfold h3 at 1. rewrite heap_update_length, length_app.
    cbn [List.length]. rewrite Nat.add_1_r. cbn [fetch].
    unfold h3. rewrite heap_update_other by lia.
    rewrite nth_error_cell. unfold cell. cbn [fetch_items]. rewrite fetch_str. reflexivity.
Qed.

(** The embedding of method01 without a heap prints what method01 prints
    with its objects in the heap, and ends the same way. *)
Lemma store_method01_refines :
  forall responsestr h,
    fst (Store.method01 responsestr h) = fst (method01 responsestr) /\
    match snd (Store.method01 responsestr h), snd (method01 responsestr) with
    | Ok _, Ok _ => True
    | Raise e, Raise e' => e = e'
    | _, _ => False
    end.
Proof.
  intros responsestr h.
  destruct (loads Method01.CityBikesAPISchema None responsestr) as [r|e] eqn:Hl.
  - destruct (errors r) as [|err errs] eqn:Herr.
    + destruct (store_method01_cells responsestr h r Hl Herr)
        as (rd & h1 & dd & h2 & h3 & _ & _ & _ & _ & _ & _ & Hrun & _).
      rewrite Hrun, (method01_success _ _ Hl Herr). split; [reflexivity | exact I].
    + assert (Hne : errors r <> []) by (rewrite Herr; discriminate).
      rewrite (method01_validation_fails _ _ Hl Hne).
      unfold Store.method01, Store.loads. rewrite Hl. cbn [rbind].
      destruct (build (data r) h) as [ref h1]. rewrite io_bind_lift_Ok, Herr.
      split; reflexivity.
  - unfold Store.method01, Store.loads, method01. rewrite Hl. split; reflexivity.
Qed.

(** C7.  method01 maps the same text twice.  The two loads build two
    records that are distinct objects and field-wise equal: read from the
    heap after the second load, both show the tree that the text is mapped
    to.  The assignment to [company] that follows changes the first record
    only: its network then holds the new list, while the second record
    still shows the tree as loaded, which is what the last line printed
    serialises.  The run prints this tree three times, as the embedding
    without a heap does. *)
Theorem C7_mapping_is_deterministic :
  forall responsestr h r,
    loads Method01.CityBikesAPISchema None responsestr = Ok r ->
    errors r = [] ->
    exists result_data h1 datain_data h2 h3,
      Store.loads Method01.CityBikesAPISchema None responsestr h =
        Ok (result_data, [], h1) /\
      Store.loads Method01.CityBikesAPISchema None responsestr h1 =
        Ok (datain_data, [], h2) /\
      result_data <> datain_data /\
      view h2 result_data = view h2 datain_data /\
      view h2 datain_data = data r /\
      Store.method01 responsestr h =
        ([Line (py_str (data r)); DumpsLine (data r); MarshalResultLine (data r)],
         Ok h3) /\
      view h3 datain_data = data r /\
      (exists network company,
          heap_getattr h3 result_data "network" = Ok network /\
          heap_getattr h3 network "company" = Ok company /\
          view h3 company = VList [VStr "Systems Cyclopolis"]) /\
      method01 responsestr =
        ([Line (py_str (data r)); DumpsLine (data r); MarshalResultLine (data r)],
         Ok tt).
Proof.
  intros responsestr h r Hl Herr.
  destruct (store_method01_cells responsestr h r Hl Herr)
    as (rd & h1 & dd & h2 & h3 & Hl1 & Hl2 & Hne & _ & Hv1 & Hv2 & Hrun & Hv3 & Hco).
  rewrite Herr in Hl1, Hl2.
  exists rd, h1, dd, h2, h3.
  split; [exact Hl1|]. split; [exact Hl2|]. split; [exact Hne|].
  split; [now rewrite Hv1, Hv2|]. split; [exact Hv2|]. split; [exact Hrun|].
  split; [exact Hv3|]. split; [exact Hco|].
  now apply method01_success.
Qed.

Lemma C7_witness :
  exists result_data h1 datain_data h2 h3,
    Store.loads Method01.CityBikesAPISchema None two_station_document [] =
      Ok (result_data, [], h1) /\
    Store.loads Method01.CityBikesAPISchema None two_station_document h1 =
      Ok (datain_data, [], h2) /\
    result_data <> datain_data /\
    view h2 result_data = view h2 datain_data /\
    view h2 datain_data = data two_station_result /\
    fst (Store.method01 two_station_document []) =
      [Line (py_str (data two_station_result)); DumpsLine (data two_station_result);
       MarshalResultLine (data two_station_result)] /\
    snd (Store.method01 two_station_document []) = Ok h3 /\
    view h3 datain_data = data two_station_result.
Proof.
  destruct (C7_mapping_is_deterministic two_station_document [] two_station_result)
    as (rd & h1 & dd & h2 & h3 & Hl1 & Hl2 & Hne & Heq & Hv2 & Hrun & Hv3 & _).
  - vm_compute. reflexivity.
  - reflexivity.
  - exists rd, h1, dd, h2, h3.
    split; [exact Hl1|]. split; [exact Hl2|]. split; [exact Hne|].
    split; [exact Heq|]. split; [exact Hv2|].
    rewrite Hrun. split; [reflexivity|]. split; [reflexivity | exact Hv3].
Defined.

(** ** Location records *)

(** C8 as stated fails: the document has network.location.latitude, the
    Location record that method01's schema produces has no such field. *)
Lemma C8_location_without_latitude :
  exists top net loc network location,
    json_loads VDict full_document = Ok (VDict top) /\
    dict_get "network" top = Some (VDict net) /\
    dict_get "location" net = Some (VDict loc) /\
    dict_get "latitude" loc = Some (VStr "36.43") /\
    loads Method01.CityBikesAPISchema None full_document = Ok full_document_result /\
    getattr (data full_document_result) "network" = Ok network /\
    getattr network "location" = Ok location /\
    getattr location "latitude" = Raise (AttributeError "latitude").
Proof.
  do 5 eexists.
  split; [vm_compute; reflexivity|].
  split; [vm_compute; reflexivity|].
  split; [vm_compute; reflexivity|].
  split; [vm_compute; reflexivity|].
  split; [vm_compute; reflexivity|].
  split; [vm_compute; reflexivity|].
  split; [vm_compute; reflexivity|].
  vm_compute; reflexivity.
Qed.

(** C8, amended.  Every Location record that mapping produces (method01
    makes the only ones) carries exactly two fields, city and country, both
    strings, equal to the values of these keys in the document's
    network.location object; latitude and longitude are not carried. *)
Theorem C8_location_record :
  forall responsestr r,
    loads Method01.CityBikesAPISchema None responsestr = Ok r ->
    errors r = [] ->
    exists top net loc city country network,
      json_loads VDict responsestr = Ok (VDict top) /\
      dict_get "network" top = Some (VDict net) /\
      dict_get "location" net = Some (VDict loc) /\
      dict_get "city" loc = Some (VStr city) /\
      dict_get "country" loc = Some (VStr country) /\
      getattr (data r) "network" = Ok network /\
      getattr network "location" =
        Ok (VObject Location [("city", VStr city); ("country", VStr country)]).
Proof.
  intros responsestr r Hl Herr.
  unfold loads in Hl.
  destruct (json_loads VDict responsestr) as [doc|e]; [|discriminate].
  cbn [rbind] in Hl.
  destruct (load01_success doc r Hl Herr) as (top & netv & netobj & -> & Hnet & Hd & Hdata).
  destruct (network01_success netv netobj Hd)
    as (net & attrs & locv & locobj & -> & -> & Hloc & Hld & Hattr).
  destruct (location01_success locv locobj Hld)
    as (loc & city & country & -> & Hcity & Hcountry & ->).
  exists top, net, loc, city, country, (VObject Network attrs).
  repeat split; try assumption.
  - rewrite Hdata. cbn [getattr dict_get]. now rewrite String.eqb_refl.
  - cbn [getattr]. now rewrite Hattr.
Qed.

Lemma C8_witness :
  exists network,
    getattr (data full_document_result) "network" = Ok network /\
    getattr network "location" =
      Ok (VObject Location [("city", VStr "Rhodes"); ("country", VStr "GR")]).
Proof.
  assert (Hl : loads Method01.CityBikesAPISchema None full_document =
               Ok full_document_result) by (vm_compute; reflexivity).
  destruct (C8_location_record full_document full_document_result Hl eq_refl)
    as (top & net & loc & city & country & network & Hj & Hn & Hloc & Hc & Hk & Hg & Hgl).
  exists network. split; [exact Hg|].
  rewrite Hgl.
  assert (Hj' : json_loads VDict full_document = Ok (VDict full_document_top))
    by (vm_compute; reflexivity).
  rewrite Hj' in Hj. inversion Hj; subst top.
  vm_compute in Hn. inversion Hn; subst net.
  vm_compute in Hloc. inversion Hloc; subst loc.
  vm_compute in Hc. vm_compute in Hk. inversion Hc; inversion Hk. reflexivity.
Defined.


(** ** Keys the schema does not declare *)

Lemma prune_leaf :
  forall f v,
    match f with
    | fields.Nested _ _ | fields.List _ _ => False
    | _ => True
    end -> prune f v = v.
Proof. intros f v H. destruct f; try contradiction; destruct v; reflexivity. Qed.

Lemma dict_get_pruned :
  forall (fs : list (string * field)) name d,
    dict_get name
      (flat_map (fun kv => match dict_get (fst kv) fs with
                           | Some f' => [(fst kv, prune f' (snd kv))]
                           | None => []
                           end) d) =
    match dict_get name fs with
    | Some f' => option_map (prune f') (dict_get name d)
    | None => None
    end.
Proof.
  intros fs name d. induction d as [|[k v] d IH].
  - cbn. now destruct (dict_get name fs).
  - cbn [flat_map fst snd dict_get]. rewrite dict_get_app, IH.
    destruct (String.eqb_spec name k) as [->|Hne].
    + destruct (dict_get k fs) as [f'|]; [|reflexivity].
      cbn [dict_get]. now rewrite String.eqb_refl.
    + destruct (dict_get k fs) as [fk|].
      * cbn [dict_get]. apply String.eqb_neq in Hne. rewrite Hne. reflexivity.
      * reflexivity.
Qed.

Lemma list_loop_ext :
  forall container (g : value -> value) items idx res errs,
    (forall each, deserialize container None (g each) = deserialize container None each) ->
    list_loop deserialize container (map g items) idx res errs =
    list_loop deserialize container items idx res errs.
Proof.
  intros container g items. induction items as [|each items IH]; intros idx res errs Hg.
  - reflexivity.
  - cbn [map list_loop]. rewrite Hg.
    destruct (deserialize container None each); try reflexivity; now apply IH.
Qed.

Lemma unmarshal_pruned :
  forall only d d' fs ret errs,
    (forall name f, In (name, f) fs ->
                    exists g, dict_get name d' = option_map (prune g) (dict_get name d) /\
                              forall o v, deserialize f o (prune g v) = deserialize f o v) ->
    unmarshal deserialize only d' fs ret errs = unmarshal deserialize only d fs ret errs.
Proof.
  intros only d d' fs. induction fs as [|[name f] fs IH]; intros ret errs H; [reflexivity|].
  assert (Hrest : forall name' f', In (name', f') fs ->
             exists g, dict_get name' d' = option_map (prune g) (dict_get name' d) /\
                       forall o v, deserialize f' o (prune g v) = deserialize f' o v).
  { intros. apply H. now right. }
  destruct (H name f (or_introl eq_refl)) as (g & Hget & Hdes).
  cbn [unmarshal]. rewrite Hget.
  destruct (selected only name); [|now apply IH].
  destruct (dict_get name d) as [raw|]; cbn [option_map].
  - rewrite Hdes.
    destruct (deserialize f (nested_only only name) raw); try reflexivity; now apply IH.
  - destruct (fields.required f); now apply IH.
Qed.

Lemma do_load_pruned :
  forall schema schema' only d,
    (forall name f, In (name, f) (declared_fields schema) ->
                    exists g, dict_get name (declared_fields schema') = Some g /\
                              forall o v, deserialize f o (prune g v) = deserialize f o v) ->
    do_load deserialize schema only
      (VDict (flat_map (fun kv => match dict_get (fst kv) (declared_fields schema') with
                                  | Some f' => [(fst kv, prune f' (snd kv))]
                                  | None => []
                                  end) d)) =
    do_load deserialize schema only (VDict d).
Proof.
  intros schema schema' only d H. unfold do_load.
  rewrite (unmarshal_pruned only d); [reflexivity|].
  intros name f Hin. destruct (H name f Hin) as (g & Hg & Hdes).
  exists g. split; [|exact Hdes]. rewrite dict_get_pruned. now rewrite Hg.
Qed.

(** Removing the keys that a covering field does not declare changes
    nothing of what a field makes of a value. *)
Lemma deserialize_prune :
  forall f g,
    covers g f = true ->
    forall only v, deserialize f only (prune g v) = deserialize f only v.
Proof.
  induction f as [r|r|r|schema r IH|container r IH] using field_induction;
    intros g Hc only v.
  - destruct g; try discriminate; now rewrite prune_leaf.
  - destruct g; try discriminate; now rewrite prune_leaf.
  - destruct g; try discriminate; now rewrite prune_leaf.
  - destruct g as [| | |schema' r'|]; try discriminate. cbn [covers] in Hc.
    destruct v; try reflexivity.
    cbn [prune]. rewrite !deserialize_Nested by discriminate.
    rewrite do_load_pruned; [reflexivity|].
    intros name f Hin.
    rewrite forallb_forall in Hc. specialize (Hc (name, f) Hin). cbn [fst snd] in Hc.
    destruct (dict_get name (declared_fields schema')) as [g'|]; [|discriminate].
    exists g'. split; [reflexivity|]. intros o v.
    rewrite Forall_forall in IH. now apply (IH (name, f) Hin).
  - destruct g as [| | | |container' r']; try discriminate. cbn [covers] in Hc.
    destruct v; try reflexivity.
    cbn [prune]. rewrite !deserialize_List by discriminate.
    cbn [collection_items]. apply list_loop_ext. intros each. now apply IH.
Qed.

Lemma load_prune :
  forall schema schema' only v,
    covers (fields.Nested schema' true) (fields.Nested schema true) = true ->
    load schema only (prune_document schema' v) = load schema only v.
Proof.
  intros schema schema' only v Hc. unfold load, prune_document.
  destruct v; try reflexivity.
  cbn [prune covers] in *. apply do_load_pruned.
  intros name f Hin.
  rewrite forallb_forall in Hc. specialize (Hc (name, f) Hin). cbn [fst snd] in Hc.
  destruct (dict_get name (declared_fields schema')) as [g'|]; [|discriminate].
  exists g'. split; [reflexivity|]. intros o v. now apply deserialize_prune.
Qed.

(** ** The object hook *)

Lemma dict_set_map :
  forall (h : value -> value) k v (d : dict),
    dict_set k (h v) (map (fun kv => (fst kv, h (snd kv))) d) =
    map (fun kv => (fst kv, h (snd kv))) (dict_set k v d).
Proof.
  intros h k v d. induction d as [|[k' v'] d IH]; [reflexivity|].
  cbn [map dict_set fst snd]. destruct (String.eqb k k'); [reflexivity|].
  cbn [map fst snd]. now rewrite IH.
Qed.

Lemma dict_of_pairs_map :
  forall (h : value -> value) (pairs : list (string * value)),
    dict_of_pairs (map (fun kv => (fst kv, h (snd kv))) pairs) =
    map (fun kv => (fst kv, h (snd kv))) (dict_of_pairs pairs).
Proof.
  intros h pairs. unfold dict_of_pairs.
  assert (H : forall acc : dict,
             fold_left (fun d kv => dict_set (fst kv) (snd kv) d)
               (map (fun kv => (fst kv, h (snd kv))) pairs)
               (map (fun kv => (fst kv, h (snd kv))) acc) =
             map (fun kv => (fst kv, h (snd kv)))
               (fold_left (fun d kv => dict_set (fst kv) (snd kv) d) pairs acc)).
  { induction pairs as [|[k v] pairs IH]; intros acc; [reflexivity|].
    cbn [map fold_left fst snd]. rewrite dict_set_map. apply IH. }
  exact (H []).
Qed.

Lemma array_loop_hooked :
  forall hook scan1 scan2,
    (forall s, scan1 s = scan_map (hooked hook) (scan2 s)) ->
    forall fuel s values,
      array_loop scan1 fuel s (map (hooked hook) values) =
      scan_map (hooked hook) (array_loop scan2 fuel s values).
Proof.
  intros hook scan1 scan2 Hscan fuel. induction fuel as [|fuel IH]; intros s values.
  - reflexivity.
  - cbn [array_loop]. rewrite Hscan.
    destruct (scan2 s) as [v r|msg n|n|]; cbn [scan_map]; try reflexivity.
    destruct (skip_ws r) as [|c r'] eqn:Hr; [reflexivity|].
    destruct (Ascii.ascii_dec c "]") as [->|Hc1].
    + cbn [scan_map hooked]. now rewrite map_rev.
    + destruct (Ascii.ascii_dec c ",") as [->|Hc2].
      * change (hooked hook v :: map (hooked hook) values)
          with (map (hooked hook) (v :: values)).
        apply IH.
      * destruct c as [[] [] [] [] [] [] [] []]; try reflexivity; congruence.
Qed.

Lemma JSONArray_hooked :
  forall hook scan1 scan2,
    (forall s, scan1 s = scan_map (hooked hook) (scan2 s)) ->
    forall s, JSONArray scan1 s = scan_map (hooked hook) (JSONArray scan2 s).
Proof.
  intros hook scan1 scan2 Hscan s. unfold JSONArray.
  destruct (skip_ws s) as [|c r] eqn:Hs.
  - apply (array_loop_hooked hook scan1 scan2 Hscan _ _ []).
  - destruct (Ascii.ascii_dec c "]") as [->|Hc].
    + reflexivity.
    + transitivity (array_loop scan1 (S (List.length (c :: r))) (c :: r) []).
      { destruct c as [[] [] [] [] [] [] [] []]; try reflexivity; congruence. }
      rewrite (array_loop_hooked hook scan1 scan2 Hscan _ _ []).
      destruct c as [[] [] [] [] [] [] [] []]; try reflexivity; congruence.
Qed.

Lemma object_loop_hooked :
  forall hook scan1 scan2,
    (forall s, scan1 s = scan_map (hooked hook) (scan2 s)) ->
    forall fuel s pairs,
      object_loop hook scan1 fuel s (map (fun kv => (fst kv, hooked hook (snd kv))) pairs) =
      scan_map (hooked hook) (object_loop VDict scan2 fuel s pairs).
Proof.
  intros hook scan1 scan2 Hscan fuel. induction fuel as [|fuel IH]; intros s pairs.
  - reflexivity.
  - cbn [object_loop].
    destruct (scanstring (List.length s) s (S (List.length s)) []) as [key r|msg n|n|];
      try reflexivity.
    destruct (skip_ws r) as [|c r1]; [reflexivity|].
    destruct (Ascii.ascii_dec c ":") as [->|Hc].
    2:{ destruct c as [[] [] [] [] [] [] [] []]; try reflexivity; congruence. }
    rewrite Hscan.
    destruct (scan2 (skip_ws r1)) as [v r2|msg n|n|]; cbn [scan_map]; try reflexivity.
    destruct (skip_ws r2) as [|c2 r3]; [reflexivity|].
    destruct (Ascii.ascii_dec c2 "}") as [->|Hc1].
    + cbn [scan_map hooked].
      change ((key, hooked hook v) :: map (fun kv => (fst kv, hooked hook (snd kv))) pairs)
        with (map (fun kv => (fst kv, hooked hook (snd kv))) ((key, v) :: pairs)).
      now rewrite <- map_rev, dict_of_pairs_map.
    + destruct (Ascii.ascii_dec c2 ",") as [->|Hc2].
      * destruct (skip_ws r3) as [|c3 r4]; [reflexivity|].
        destruct (Ascii.eqb c3 DQUOTE); [|reflexivity].
        change ((key, hooked hook v) :: map (fun kv => (fst kv, hooked hook (snd kv))) pairs)
          with (map (fun kv => (fst kv, hooked hook (snd kv))) ((key, v) :: pairs)).
        apply IH.
      * destruct c2 as [[] [] [] [] [] [] [] []]; try reflexivity; congruence.
Qed.

Lemma JSONObject_hooked :
  forall hook scan1 scan2,
    (forall s, scan1 s = scan_map (hooked hook) (scan2 s)) ->
    forall s, JSONObject hook scan1 s = scan_map (hooked hook) (JSONObject VDict scan2 s).
Proof.
  intros hook scan1 scan2 Hscan s. unfold JSONObject.
  destruct (skip_ws s) as [|c r]; [reflexivity|].
  destruct (Ascii.eqb c "}"); [reflexivity|].
  destruct (Ascii.eqb c DQUOTE); [|reflexivity].
  apply (object_loop_hooked hook scan1 scan2 Hscan _ _ []).
Qed.

Lemma scan_once_hooked :
  forall hook fuel s,
    scan_once hook fuel s = scan_map (hooked hook) (scan_once VDict fuel s).
Proof.
  intros hook fuel. induction fuel as [|fuel IH]; intros s; [reflexivity|].
  cbn [scan_once]. destruct s as [|nextchar r]; [reflexivity|].
  destruct (Ascii.eqb nextchar DQUOTE).
  { destruct (scanstring (List.length r) r (List.length (nextchar :: r)) []);
      reflexivity. }
  destruct (Ascii.eqb nextchar "{"); [now apply JSONObject_hooked|].
  destruct (Ascii.eqb nextchar "["); [now apply JSONArray_hooked|].
  destruct (strip_prefix "null" (nextchar :: r)); [reflexivity|].
  destruct (strip_prefix "true" (nextchar :: r)); [reflexivity|].
  destruct (strip_prefix "false" (nextchar :: r)); [reflexivity|].
  destruct (match_number (nextchar :: r)) as [[res r']|] eqn:Hnum.
  - assert (Hres : hooked hook res = res).
    { unfold match_number in Hnum.
      repeat match type of Hnum with
             | context [match ?x with _ => _ end] => destruct x; try discriminate
             | context [if ?x then _ else _] => destruct x; try discriminate
             end;
        inversion Hnum; reflexivity. }
    cbn [scan_map]. now rewrite Hres.
  - destruct (strip_prefix "NaN" (nextchar :: r)); [reflexivity|].
    destruct (strip_prefix "Infinity" (nextchar :: r)); [reflexivity|].
    destruct (strip_prefix "-Infinity" (nextchar :: r)); reflexivity.
Qed.

(** Decoding with an object hook is decoding without, followed by the hook
    on every object. *)
Lemma json_loads_hooked :
  forall hook text,
    json_loads hook text =
    match json_loads VDict text with
    | Ok v => Ok (hooked hook v)
    | Raise e => Raise e
    end.
Proof.
  intros hook text. unfold json_loads.
  destruct (strip_prefix _ (list_ascii_of_string text)); [reflexivity|].
  rewrite scan_once_hooked.
  destruct (scan_once VDict _ _) as [obj r|msg n|n|]; cbn [scan_map]; try reflexivity.
  destruct (skip_ws r); reflexivity.
Qed.

(** ** method02 and undeclared keys *)

Lemma dict_get_map :
  forall (h : value -> value) k (d : dict),
    dict_get k (map (fun kv => (fst kv, h (snd kv))) d) = option_map h (dict_get k d).
Proof.
  intros h k d. induction d as [|[k' v] d IH]; [reflexivity|].
  cbn [map dict_get fst snd]. now destruct (String.eqb k k').
Qed.

Lemma getattr_namespace :
  forall d k,
    getattr (hooked namespace_hook (VDict d)) k =
    match dict_get k d with
    | Some v => Ok (hooked namespace_hook v)
    | None => Raise (AttributeError k)
    end.
Proof.
  intros d k. cbn [hooked]. unfold namespace_hook at 1. cbn [getattr].
  rewrite dict_get_map. now destruct (dict_get k d).
Qed.

Lemma getattr_pruned_namespace :
  forall schema r d k f,
    dict_get k (declared_fields schema) = Some f ->
    getattr (hooked namespace_hook (prune (fields.Nested schema r) (VDict d))) k =
    match dict_get k d with
    | Some v => Ok (hooked namespace_hook (prune f v))
    | None => Raise (AttributeError k)
    end.
Proof.
  intros schema r d k f Hf. cbn [prune]. rewrite getattr_namespace, dict_get_pruned, Hf.
  now destruct (dict_get k d).
Qed.

Lemma for_each_map :
  forall (A B : Type) (g : A -> B) (body : B -> io unit) l,
    for_each (map g l) body = for_each l (fun x => body (g x)).
Proof.
  intros A B g body l. induction l as [|x l IH]; [reflexivity|].
  cbn [map for_each]. now rewrite IH.
Qed.

Lemma for_each_pointwise :
  forall (A : Type) (body body' : A -> io unit) l,
    (forall x, body x = body' x) -> for_each l body = for_each l body'.
Proof.
  intros A body body' l H. induction l as [|x l IH]; [reflexivity|].
  cbn [for_each]. now rewrite H, IH.
Qed.

Lemma method02_line_pruned :
  forall st,
    let body station :=
      io_bind (io_lift (getattr station "name")) (fun name =>
      io_bind (io_lift (py_add_str name " | Free Bikes: ")) (fun left =>
      io_bind (io_lift (getattr station "free_bikes")) (fun free_bikes =>
      print (left ++ py_str free_bikes)%string))) in
    body (hooked namespace_hook (prune (fields.Nested Method00.StationSchema false) st)) =
    body (hooked namespace_hook st).
Proof.
  intros st body. destruct st; try reflexivity. unfold body.
  rewrite (getattr_pruned_namespace Method00.StationSchema false d "name"
             (fields.String true) eq_refl).
  rewrite (getattr_pruned_namespace Method00.StationSchema false d "free_bikes"
             (fields.Integer true) eq_refl).
  rewrite !getattr_namespace.
  destruct (dict_get "name" d) as [nv|]; [|reflexivity].
  rewrite (prune_leaf (fields.String true)) by exact I.
  destruct (dict_get "free_bikes" d) as [fv|]; [|reflexivity].
  now rewrite (prune_leaf (fields.Integer true)) by exact I.
Qed.

(** What method02 does once the text is decoded. *)
Lemma method02_decoded :
  forall responsestr doc,
    json_loads VDict responsestr = Ok doc ->
    method02 responsestr =
    io_bind (io_lift (getattr (hooked namespace_hook doc) "network")) (fun network =>
    io_bind (io_lift (getattr network "stations")) (fun stations =>
    io_bind (io_lift (py_iter stations)) (fun items =>
    io_bind (for_each items (fun station =>
      io_bind (io_lift (getattr station "name")) (fun name =>
      io_bind (io_lift (py_add_str name " | Free Bikes: ")) (fun left =>
      io_bind (io_lift (getattr station "free_bikes")) (fun free_bikes =>
      print (left ++ py_str free_bikes)%string))))) (fun _ =>
    io_bind (io_lift (getattr (hooked namespace_hook doc) "network")) (fun network =>
    io_bind (io_lift (getattr network "stations")) (fun stations =>
    print ("type(boundclass.network.stations): " ++ py_type_str stations)%string)))))).
Proof.
  intros responsestr doc Hj. unfold method02. fold namespace_hook.
  rewrite json_loads_hooked, Hj, io_bind_lift_Ok. reflexivity.
Qed.

Lemma method02_pruned :
  forall responsestr responsestr' doc,
    json_loads VDict responsestr = Ok doc ->
    json_loads VDict responsestr' =
      Ok (prune_document Method00.CityBikesAPISchema doc) ->
    method02 responsestr' = method02 responsestr.
Proof.
  intros responsestr responsestr' doc Hj Hj'.
  rewrite (method02_decoded _ _ Hj), (method02_decoded _ _ Hj').
  unfold prune_document.
  destruct doc as [| | | | | |top|]; try reflexivity.
  rewrite (getattr_pruned_namespace Method00.CityBikesAPISchema true top "network"
             (fields.Nested Method00.NetworkSchema true) eq_refl).
  rewrite getattr_namespace.
  destruct (dict_get "network" top) as [nv|]; [|reflexivity].
  rewrite !io_bind_lift_Ok.
  destruct nv as [| | | | | |net|]; try reflexivity.
  rewrite (getattr_pruned_namespace Method00.NetworkSchema true net "stations"
             (fields.List (fields.Nested Method00.StationSchema false) false) eq_refl).
  rewrite getattr_namespace.
  destruct (dict_get "stations" net) as [sv|]; [|reflexivity].
  rewrite !io_bind_lift_Ok.
  destruct sv as [| | | | |l| |]; try reflexivity.
  cbn [prune hooked py_iter py_type_str]. rewrite !io_bind_lift_Ok.
  rewrite !for_each_map.
  erewrite for_each_pointwise; [reflexivity|].
  intros st. apply method02_line_pruned.
Qed.

(** C4 as stated fails for method02: the namespaces bound from a document
    with network.extraField differ from those bound from the same document
    without the key; the extra key is an attribute of the network record. *)
Lemma C4_namespace_keeps_extra_key :
  exists doc bound bound' network,
    json_loads VDict extra_field_document = Ok doc /\
    json_loads VDict extra_field_removed =
      Ok (prune_document Method00.CityBikesAPISchema doc) /\
    json_loads namespace_hook extra_field_document = Ok bound /\
    json_loads namespace_hook extra_field_removed = Ok bound' /\
    bound <> bound' /\
    getattr bound "network" = Ok network /\
    getattr network "extraField" = Ok (VInt 1).
Proof.
  do 4 eexists.
  split; [vm_compute; reflexivity|].
  split; [vm_compute; reflexivity|].
  split; [vm_compute; reflexivity|].
  split; [vm_compute; reflexivity|].
  split; [discriminate|].
  split; vm_compute; reflexivity.
Qed.

(** C4, amended.  Keys that the schemas do not declare have no effect on
    the schema mappings nor on what the program prints: for a document and
    the same document with every undeclared key removed, the schemas of
    method00 and of method01 load the same result (the same record tree, or
    the same errors), each of the three methods prints the same lines and
    ends the same way, and so does the program. *)
Theorem C4_unknown_keys_ignored :
  forall responsestr responsestr' doc,
    json_loads VDict responsestr = Ok doc ->
    json_loads VDict responsestr' =
      Ok (prune_document Method00.CityBikesAPISchema doc) ->
    loads Method00.CityBikesAPISchema Method00.only responsestr' =
      loads Method00.CityBikesAPISchema Method00.only responsestr /\
    loads Method01.CityBikesAPISchema None responsestr' =
      loads Method01.CityBikesAPISchema None responsestr /\
    method00 responsestr' = method00 responsestr /\
    method01 responsestr' = method01 responsestr /\
    method02 responsestr' = method02 responsestr /\
    main responsestr' = main responsestr.
Proof.
  intros responsestr responsestr' doc Hj Hj'.
  assert (Hl0 : loads Method00.CityBikesAPISchema Method00.only responsestr' =
                loads Method00.CityBikesAPISchema Method00.only responsestr).
  { unfold loads. rewrite Hj, Hj'. cbn [rbind]. now apply load_prune. }
  assert (Hl1 : loads Method01.CityBikesAPISchema None responsestr' =
                loads Method01.CityBikesAPISchema None responsestr).
  { unfold loads. rewrite Hj, Hj'. cbn [rbind]. now apply load_prune. }
  assert (H0 : method00 responsestr' = method00 responsestr).
  { unfold method00. now rewrite Hl0. }
  assert (H1 : method01 responsestr' = method01 responsestr).
  { unfold method01. now rewrite Hl1. }
  assert (H2 : method02 responsestr' = method02 responsestr).
  { exact (method02_pruned responsestr responsestr' doc Hj Hj'). }
  repeat split; try assumption.
  unfold main, toplevel. cbn [run_calls methods]. now rewrite H0, H1, H2.
Qed.

Lemma C4_witness :
  json_loads VDict extra_field_document = Ok extra_field_value /\
  json_loads VDict extra_field_removed =
    Ok (prune_document Method00.CityBikesAPISchema extra_field_value) /\
  main extra_field_removed = main extra_field_document.
Proof.
  assert (H : json_loads VDict extra_field_document = Ok extra_field_value)
    by (vm_compute; reflexivity).
  assert (H' : json_loads VDict extra_field_removed =
               Ok (prune_document Method00.CityBikesAPISchema extra_field_value))
    by (vm_compute; reflexivity).
  split; [exact H|]. split; [exact H'|].
  exact (proj2 (proj2 (proj2 (proj2 (proj2
    (C4_unknown_keys_ignored extra_field_document extra_field_removed
       extra_field_value H H')))))).
Defined.

(** ** Malformed text *)

(** C5.  When the text is not well-formed JSON, [json.loads] raises its
    decode error before anything else is done with the text: no schema loads
    it, each method raises that error without printing, and so does the
    program; the error is of the syntax kind, not of the validation kind. *)
Theorem C5_syntax_error_before_validation :
  forall responsestr msg pos,
    json_loads VDict responsestr = Raise (JSONDecodeError msg pos) ->
    (forall schema only,
        loads schema only responsestr = Raise (JSONDecodeError msg pos)) /\
    method00 responsestr = ([], Raise (JSONDecodeError msg pos)) /\
    method01 responsestr = ([], Raise (JSONDecodeError msg pos)) /\
    method02 responsestr = ([], Raise (JSONDecodeError msg pos)) /\
    main responsestr = ([], Raise (JSONDecodeError msg pos)) /\
    kind_of (JSONDecodeError msg pos) = SyntaxErrorKind.
Proof.
  intros responsestr msg pos H.
  assert (Hl : forall schema only,
             loads schema only responsestr = Raise (JSONDecodeError msg pos)).
  { intros. unfold loads. now rewrite H. }
  assert (Hm : method00 responsestr = ([], Raise (JSONDecodeError msg pos))).
  { unfold method00. now rewrite Hl. }
  repeat split; try assumption.
  - unfold method01. now rewrite Hl.
  - unfold method02. now rewrite json_loads_hooked, H.
  - now apply main_method00_raises.
Qed.

Lemma C5_witness :
  json_loads VDict invalid_text =
    Raise (JSONDecodeError "Expecting property name enclosed in double quotes" 1) /\
  main invalid_text =
    ([], Raise (JSONDecodeError "Expecting property name enclosed in double quotes" 1)).
Proof.
  assert (H : json_loads VDict invalid_text =
              Raise (JSONDecodeError "Expecting property name enclosed in double quotes" 1))
    by (vm_compute; reflexivity).
  split; [exact H|].
  exact (proj1 (proj2 (proj2 (proj2 (proj2
    (C5_syntax_error_before_validation invalid_text _ _ H)))))).
Defined.

(** ** Stations without a name *)



(** * Further properties *)

(** ** Documents that are not what the schemas expect *)

Lemma main_method01_raises :
  forall responsestr out0 out1 e,
    method00 responsestr = (out0, Ok tt) ->
    method01 responsestr = (out1, Raise e) ->
    main responsestr = (out0 ++ out1, Raise e).
Proof.
  intros responsestr out0 out1 e H0 H1. unfold main, toplevel.
  cbn [run_calls methods]. now rewrite H0, H1.
Qed.

(** X1.  A document that is not an object is not loaded by either schema
    method.  For an array, a string, a number or a boolean the schema stores
    the type message of its only field, the nested network, "Invalid type.",
    under the key _schema: method00, method01 and the program end with the
    exception carrying this dictionary.  For null the load returns None
    without an error: method00 then fails on the subscript of None, and in
    method01 the post_load method fails on unpacking None, both with a
    TypeError.  Nothing is printed in either case. *)
Theorem X1_document_not_an_object :
  forall responsestr doc,
    json_loads VDict responsestr = Ok doc ->
    (forall d, doc <> VDict d) ->
    let failure := match doc with
                   | VNone => TypeError
                   | _ => PyException "{'_schema': ['Invalid type.']}"
                   end in
    method00 responsestr = ([], Raise failure) /\
    method01 responsestr = ([], Raise failure) /\
    main responsestr = ([], Raise failure).
Proof.
  intros responsestr doc Hj Hdoc failure.
  assert (H0 : method00 responsestr = ([], Raise failure)).
  { unfold method00, loads, load. rewrite Hj.
    destruct doc as [|b|z|x|s|l|d|c a]; try reflexivity. now destruct (Hdoc d). }
  split; [exact H0|]. split; [|now apply main_method00_raises].
  unfold method01, loads, load. rewrite Hj.
  destruct doc as [|b|z|x|s|l|d|c a]; try reflexivity. now destruct (Hdoc d).
Qed.

Lemma X1_witness :
  main "[]" = ([], Raise (PyException "{'_schema': ['Invalid type.']}")) /\
  main "null" = ([], Raise TypeError).
Proof.
  split.
  - refine (proj2 (proj2 (X1_document_not_an_object "[]" (VList []) _ _))).
    + vm_compute. reflexivity.
    + discriminate.
  - refine (proj2 (proj2 (X1_document_not_an_object "null" VNone _ _))).
    + vm_compute. reflexivity.
    + discriminate.
Defined.

(** X2.  An object without the key network fails validation in both schema
    methods with "Missing data for required field." under network; nothing
    is printed and the program ends in method00. *)
Theorem X2_network_missing :
  forall responsestr top,
    json_loads VDict responsestr = Ok (VDict top) ->
    dict_get "network" top = None ->
    let failure := PyException "{'network': ['Missing data for required field.']}" in
    method00 responsestr = ([], Raise failure) /\
    method01 responsestr = ([], Raise failure) /\
    main responsestr = ([], Raise failure).
Proof.
  intros responsestr top Hj Hnet failure.
  assert (Hl0 : loads Method00.CityBikesAPISchema Method00.only responsestr =
                Ok {| data := VDict [];
                      errors := [(Name "network", Messages [MISSING_MSG])] |}).
  { unfold loads, load. rewrite Hj. cbn [rbind]. unfold do_load.
    cbn [Method00.CityBikesAPISchema declared_fields unmarshal].
    change (selected Method00.only "network") with true. cbv iota.
    rewrite Hnet. reflexivity. }
  assert (Hl1 : loads Method01.CityBikesAPISchema None responsestr =
                Ok {| data := VDict [];
                      errors := [(Name "network", Messages [MISSING_MSG])] |}).
  { unfold loads, load. rewrite Hj. cbn [rbind]. unfold do_load.
    cbn [Method01.CityBikesAPISchema declared_fields unmarshal selected].
    rewrite Hnet. reflexivity. }
  assert (H0 : method00 responsestr = ([], Raise failure)).
  { rewrite (method00_validation_fails _ _ Hl0) by discriminate. reflexivity. }
  split; [exact H0|]. split; [|now apply main_method00_raises].
  rewrite (method01_validation_fails _ _ Hl1) by discriminate. reflexivity.
Qed.

Lemma X2_witness :
  main "{}" = ([], Raise (PyException "{'network': ['Missing data for required field.']}")).
Proof.
  refine (proj2 (proj2 (X2_network_missing "{}" [] _ _))).
  - vm_compute. reflexivity.
  - reflexivity.
Defined.

(** X3.  method00 does not require network.stations: when the network
    object has no stations key, validation passes (no errors), and the
    presentation loop then fails on the subscript with KeyError 'stations';
    nothing is printed, and the failure is not a validation error. *)
Theorem X3_method00_stations_missing :
  forall responsestr top net,
    json_loads VDict responsestr = Ok (VDict top) ->
    dict_get "network" top = Some (VDict net) ->
    dict_get "stations" net = None ->
    loads Method00.CityBikesAPISchema Method00.only responsestr =
      Ok {| data := VDict [("network", VDict [])]; errors := [] |} /\
    method00 responsestr = ([], Raise (KeyError "stations")) /\
    main responsestr = ([], Raise (KeyError "stations")) /\
    kind_of (KeyError "stations") = OtherErrorKind.
Proof.
  intros responsestr top net Hj Hnet Hst.
  assert (Hl : loads Method00.CityBikesAPISchema Method00.only responsestr =
               Ok {| data := VDict [("network", VDict [])]; errors := [] |}).
  { unfold loads, load. rewrite Hj. cbn [rbind].
    rewrite (do_load_pure _ true) by reflexivity.
    unfold field_values, field_errors.
    cbn [Method00.CityBikesAPISchema declared_fields flat_map fst snd].
    change (selected Method00.only "network") with true. cbv iota.
    rewrite Hnet.
    change (nested_only Method00.only "network")
      with (Some ["stations.name"; "stations.free_bikes"]).
    rewrite deserialize_Nested by discriminate.
    rewrite (do_load_pure _ true) by reflexivity.
    unfold field_values, field_errors.
    cbn [Method00.NetworkSchema declared_fields flat_map fst snd].
    change (selected (Some ["stations.name"; "stations.free_bikes"]) "company") with false.
    change (selected (Some ["stations.name"; "stations.free_bikes"]) "href") with false.
    change (selected (Some ["stations.name"; "stations.free_bikes"]) "id") with false.
    change (selected (Some ["stations.name"; "stations.free_bikes"]) "location") with false.
    change (selected (Some ["stations.name"; "stations.free_bikes"]) "name") with false.
    change (selected (Some ["stations.name"; "stations.free_bikes"]) "stations") with true.
    cbv iota. cbn [app]. rewrite Hst. reflexivity. }
  assert (H0 : method00 responsestr = ([], Raise (KeyError "stations"))).
  { unfold method00. rewrite Hl, io_bind_lift_Ok.
    cbn [errors data List.length Nat.eqb]. unfold pass. rewrite io_bind_ret.
    unfold getitem at 1. cbn [dict_get]. rewrite String.eqb_refl, io_bind_lift_Ok.
    reflexivity. }
  split; [exact Hl|]. split; [exact H0|]. split; [|reflexivity].
  now apply main_method00_raises.
Qed.

Lemma X3_witness :
  method00 (json_text "{'network':{}}") = ([], Raise (KeyError "stations")).
Proof.
  refine (proj1 (proj2 (X3_method00_stations_missing (json_text "{'network':{}}")
                          [("network", VDict [])] [] _ _ _))).
  - vm_compute. reflexivity.
  - reflexivity.
  - reflexivity.
Defined.

(** What a nested schema answers when one of its required plain fields is
    missing: an exception of a constructor, or errors that name the field. *)
Lemma nested_required_missing :
  forall schema r only d name f,
    distinct (map fst (declared_fields schema)) = true ->
    In (name, f) (declared_fields schema) ->
    selected only name = true ->
    fields.required f = true ->
    check_required f (nested_only only name) = Messages [MISSING_MSG] ->
    dict_get name d = None ->
    (exists e, deserialize (fields.Nested schema r) only (VDict d) = Uncaught e) \/
    (exists errs dat,
        deserialize (fields.Nested schema r) only (VDict d) =
          ValidationError (MessageDict errs) dat /\
        errdict_get (Name name) errs = Some (Messages [MISSING_MSG])).
Proof.
  intros schema r only d name f Hd Hin Hsel Hreq Hchk Hget.
  rewrite deserialize_Nested by discriminate. unfold do_load.
  destruct (unmarshal deserialize only d (declared_fields schema) [] [])
    as [[ret errs]|e] eqn:Hu.
  - apply unmarshal_Ok in Hu. cbn [app] in Hu. destruct Hu as [-> ->].
    assert (Hat : errdict_get (Name name) (field_errors only d (declared_fields schema)) =
                  Some (Messages [MISSING_MSG])).
    { rewrite (field_errors_get only d name f _ Hd Hin).
      unfold field_errors. cbn [flat_map fst snd]. rewrite Hsel, Hget, Hreq, Hchk.
      cbn [app errdict_get errkey_eqb]. now rewrite String.eqb_refl. }
    right.
    destruct (field_errors only d (declared_fields schema)) as [|err errs];
      [discriminate|].
    eexists. eexists. split; [reflexivity | exact Hat].
  - left. eexists. reflexivity.
Qed.

(** X4.  method01 requires network.stations: when the network object has
    no stations key and the load returns, its errors name network.stations
    with "Missing data for required field.", and method01 raises the
    exception carrying them without printing.  (method00, whose schema does
    not require stations, fails later with a KeyError instead.) *)
Theorem X4_method01_stations_missing :
  forall responsestr top net r,
    json_loads VDict responsestr = Ok (VDict top) ->
    dict_get "network" top = Some (VDict net) ->
    dict_get "stations" net = None ->
    loads Method01.CityBikesAPISchema None responsestr = Ok r ->
    errors_at [Name "network"; Name "stations"] (errors r) =
      Some (Messages [MISSING_MSG]) /\
    method01 responsestr = ([], Raise (PyException (errors_str (errors r)))).
Proof.
  intros responsestr top net r Hj Hnet Hst Hl.
  assert (Herr : errors_at [Name "network"; Name "stations"] (errors r) =
                 Some (Messages [MISSING_MSG])).
  { unfold loads in Hl. rewrite Hj in Hl. cbn [rbind] in Hl.
    unfold load, do_load in Hl.
    cbn [Method01.CityBikesAPISchema declared_fields unmarshal selected] in Hl.
    rewrite Hnet in Hl. cbn [nested_only] in Hl.
    destruct (nested_required_missing Method01.NetworkSchema true None net "stations"
                (fields.List (fields.Nested Method01.StationSchema false) true)
                eq_refl) as [(e & He) | (errs & dat & He & Hat)];
      try reflexivity; try assumption; [cbn; tauto | |].
    - rewrite He in Hl. discriminate.
    - rewrite He in Hl. cbn [app] in Hl.
      destruct (py_truthy dat); inversion Hl; subst; cbn [errors];
        unfold errors_at; cbn [messages_at errdict_get errkey_eqb];
        rewrite String.eqb_refl; cbn [messages_at]; now rewrite Hat. }
  split; [exact Herr|].
  apply method01_validation_fails; [exact Hl|].
  intro H. rewrite H in Herr. discriminate.
Qed.

Lemma X4_witness :
  method01 (json_text "{'network':{}}") =
    ([], Raise (PyException
       "{'network': {'location': ['Missing data for required field.'], 'stations': ['Missing data for required field.']}}")).
Proof.
  refine (proj2 (X4_method01_stations_missing (json_text "{'network':{}}")
            [("network", VDict [])] []
            {| data := VDict [];
               errors := [(Name "network",
                           MessageDict [(Name "location", Messages [MISSING_MSG]);
                                        (Name "stations", Messages [MISSING_MSG])])] |}
            _ _ _ _)).
  - vm_compute. reflexivity.
  - reflexivity.
  - reflexivity.
  - vm_compute. reflexivity.
Defined.

(** ** Stations that fail validation in method00 *)

(** The errors of a station are reported at network.stations[i], and
    method00 raises them before printing. *)
Lemma method00_station_error :
  forall responsestr top net stations i st serrs sdat,
    json_loads VDict responsestr = Ok (VDict top) ->
    dict_get "network" top = Some (VDict net) ->
    dict_get "stations" net = Some (VList stations) ->
    nth_error stations i = Some st ->
    deserialize (fields.Nested Method00.StationSchema false) None st =
      ValidationError serrs sdat ->
    exists r,
      loads Method00.CityBikesAPISchema Method00.only responsestr = Ok r /\
      errors_at [Name "network"; Name "stations"; Index i] (errors r) = Some serrs /\
      method00 responsestr = ([], Raise (PyException (errors_str (errors r)))) /\
      main responsestr = ([], Raise (PyException (errors_str (errors r)))).
Proof.
  intros responsestr top net stations i st serrs sdat Hj Hnet Hst Hnth Hdes.
  destruct (load_method00_stations top net stations Hnet Hst) as (dat & Hload & _).
  pose proof (list_errors_at _ stations 0 i _ _ _ Hnth Hdes) as Hidx.
  cbn [Nat.add] in Hidx.
  assert (Hloads : loads Method00.CityBikesAPISchema Method00.only responsestr =
                   load Method00.CityBikesAPISchema Method00.only (VDict top)).
  { unfold loads. now rewrite Hj. }
  rewrite Hload in Hloads.
  destruct (list_errors (fields.Nested Method00.StationSchema false) stations 0)
    as [|err errs] eqn:Herrs; [discriminate|].
  remember (err :: errs) as L eqn:HL.
  eexists. split; [exact Hloads|]. cbn [errors].
  assert (Hm : method00 responsestr =
               ([], Raise (PyException (errors_str
                  [(Name "network",
                    MessageDict [(Name "stations", MessageDict L)])])))).
  { apply (method00_validation_fails responsestr _ Hloads). discriminate. }
  split; [|split; [exact Hm | now apply main_method00_raises]].
  unfold errors_at. cbn [messages_at errdict_get errkey_eqb].
  change (("network" =? "network")%string) with true. cbv iota.
  cbn [messages_at errdict_get errkey_eqb].
  change (("stations" =? "stations")%string) with true. cbv iota.
  cbn [messages_at]. rewrite Hidx. reflexivity.
Qed.

(** X5.  A station whose name is present but is not a string fails
    validation at network.stations[i].name, with "Field may not be null."
    for null and "Not a valid string." otherwise; method00 raises the
    exception carrying the errors before printing, and the program ends. *)
Theorem X5_station_name_not_a_string :
  forall responsestr top net stations i station v,
    json_loads VDict responsestr = Ok (VDict top) ->
    dict_get "network" top = Some (VDict net) ->
    dict_get "stations" net = Some (VList stations) ->
    nth_error stations i = Some (VDict station) ->
    dict_get "name" station = Some v ->
    (forall s, v <> VStr s) ->
    exists r,
      loads Method00.CityBikesAPISchema Method00.only responsestr = Ok r /\
      errors_at [Name "network"; Name "stations"; Index i; Name "name"] (errors r) =
        Some (Messages [match v with
                        | VNone => NULL_MSG
                        | _ => "Not a valid string."
                        end]) /\
      method00 responsestr = ([], Raise (PyException (errors_str (errors r)))) /\
      main responsestr = ([], Raise (PyException (errors_str (errors r)))).
Proof.
  intros responsestr top net stations i station v Hj Hnet Hst Hnth Hname Hv.
  set (msg := match v with VNone => NULL_MSG | _ => "Not a valid string." end).
  assert (Hdv : deserialize (fields.String true) None v = fail msg).
  { subst msg. destruct v; try reflexivity. now destruct (Hv s). }
  assert (Hat : errdict_get (Name "name")
                  (field_errors None station (declared_fields Method00.StationSchema)) =
                Some (Messages [msg])).
  { rewrite (field_errors_get None station "name" (fields.String true));
      [|reflexivity|cbn; tauto].
    unfold field_errors. cbn [flat_map fst snd selected nested_only].
    rewrite Hname, Hdv. reflexivity. }
  assert (Hdes : exists errs dat,
             deserialize (fields.Nested Method00.StationSchema false) None (VDict station) =
               ValidationError (MessageDict errs) dat /\
             errdict_get (Name "name") errs = Some (Messages [msg])).
  { rewrite deserialize_Nested by discriminate. rewrite load_station00.
    destruct (field_errors None station (declared_fields Method00.StationSchema))
      as [|err errs]; [discriminate|].
    eexists. eexists. split; [reflexivity | exact Hat]. }
  destruct Hdes as (errs & dat & Hdes & Hat').
  destruct (method00_station_error _ _ _ _ _ _ _ _ Hj Hnet Hst Hnth Hdes)
    as (r & Hl & Hpath & Hm & Hmain).
  exists r. split; [exact Hl|]. split; [|split; assumption].
  unfold errors_at in *.
  change [Name "network"; Name "stations"; Index i; Name "name"]
    with ([Name "network"; Name "stations"; Index i] ++ [Name "name"]).
  revert Hpath. generalize (MessageDict (errors r)).
  generalize [Name "network"; Name "stations"; Index i].
  induction l as [|k l IH]; intros m Hpath.
  - cbn in Hpath. inversion Hpath; subst. cbn [app messages_at]. now rewrite Hat'.
  - cbn [app messages_at] in *. destruct m as [|d]; [discriminate|].
    destruct (errdict_get k d); [now apply IH | discriminate].
Qed.

Lemma X5_witness :
  method00 (json_text "{'network':{'stations':[{'name':7,'free_bikes':3}]}}") =
    ([], Raise (PyException
       "{'network': {'stations': {0: {'name': ['Not a valid string.']}}}}")).
Proof.
  destruct (X5_station_name_not_a_string
              (json_text "{'network':{'stations':[{'name':7,'free_bikes':3}]}}")
              [("network",
                VDict [("stations", VList [VDict [("name", VInt 7); ("free_bikes", VInt 3)]])])]
              [("stations", VList [VDict [("name", VInt 7); ("free_bikes", VInt 3)]])]
              [VDict [("name", VInt 7); ("free_bikes", VInt 3)]] 0
              [("name", VInt 7); ("free_bikes", VInt 3)] (VInt 7))
    as (r & Hl & _ & Hm & _).
  - vm_compute. reflexivity.
  - reflexivity.
  - reflexivity.
  - reflexivity.
  - reflexivity.
  - discriminate.
  - rewrite Hm. vm_compute in Hl. inversion Hl; subst r. vm_compute. reflexivity.
Defined.

(** X6.  An element of network.stations that is not an object (and not
    null) is refused under network.stations[i]._schema with a single
    message, the type message of a field of StationSchema: "Invalid input
    type.", or "Invalid type." for the nested extra.  The field visited
    first gives the message, and the library visits the fields in the order
    of a set of names, so the statement names no one of the two.  method00
    raises the exception carrying the errors before printing, and the
    program ends. *)
Theorem X6_station_not_an_object :
  forall responsestr top net stations i st,
    json_loads VDict responsestr = Ok (VDict top) ->
    dict_get "network" top = Some (VDict net) ->
    dict_get "stations" net = Some (VList stations) ->
    nth_error stations i = Some st ->
    st <> VNone ->
    (forall d, st <> VDict d) ->
    exists r msg,
      loads Method00.CityBikesAPISchema Method00.only responsestr = Ok r /\
      In msg (map (fun nf => type_message (snd nf))
                (declared_fields Method00.StationSchema)) /\
      errors_at [Name "network"; Name "stations"; Index i] (errors r) =
        Some (MessageDict [(Name SCHEMA, Messages [msg])]) /\
      method00 responsestr = ([], Raise (PyException (errors_str (errors r)))) /\
      main responsestr = ([], Raise (PyException (errors_str (errors r)))).
Proof.
  intros responsestr top net stations i st Hj Hnet Hst Hnth Hnone Hdict.
  destruct (filter (fun nf => selected None (fst nf))
              (declared_fields Method00.StationSchema)) as [|[name f] rest] eqn:Hfirst;
    [discriminate|].
  assert (Hin : In (name, f) (declared_fields Method00.StationSchema)).
  { apply (proj1 (filter_In (fun nf => selected None (fst nf)) (name, f) _)).
    rewrite Hfirst. now left. }
  destruct (method00_station_error responsestr top net stations i st
              (MessageDict [(Name SCHEMA, Messages [type_message f])]) (VDict [])
              Hj Hnet Hst Hnth) as (r & Hl & Hat & Hm & Hmain).
  - rewrite deserialize_Nested by assumption.
    rewrite (do_load_not_mapping _ _ _ _ _ _ Hnone Hdict Hfirst). reflexivity.
  - exists r, (type_message f). split; [exact Hl|]. split; [|repeat split; assumption].
    apply in_map_iff. exists (name, f). split; [reflexivity | exact Hin].
Qed.

Lemma X6_witness :
  exists r msg,
    loads Method00.CityBikesAPISchema Method00.only
      (json_text "{'network':{'stations':['a',5]}}") = Ok r /\
    In msg ["Invalid input type."; "Invalid type."] /\
    errors_at [Name "network"; Name "stations"; Index 1] (errors r) =
      Some (MessageDict [(Name SCHEMA, Messages [msg])]) /\
    method00 (json_text "{'network':{'stations':['a',5]}}") =
      ([], Raise (PyException (errors_str (errors r)))).
Proof.
  destruct (X6_station_not_an_object (json_text "{'network':{'stations':['a',5]}}")
              [("network", VDict [("stations", VList [VStr "a"; VInt 5])])]
              [("stations", VList [VStr "a"; VInt 5])] [VStr "a"; VInt 5] 1 (VInt 5))
    as (r & msg & Hl & Hin & Hat & Hm & _).
  - vm_compute. reflexivity.
  - reflexivity.
  - reflexivity.
  - reflexivity.
  - discriminate.
  - discriminate.
  - exists r, msg. split; [exact Hl|]. split; [|split; assumption].
    cbn in Hin. cbn. tauto.
Defined.

(** ** method02 on whole documents *)

Lemma for_each_prints :
  forall (A : Type) (body : A -> io unit) (f : A -> line) l,
    Forall (fun x => body x = ([f x], Ok tt)) l ->
    for_each l body = (map f l, Ok tt).
Proof.
  intros A body f l H. induction H as [|x l Hx H IH]; [reflexivity|].
  cbn [for_each map]. now rewrite Hx, IH.
Qed.

(** X7.  For a document whose network.stations is an array of objects that
    each have a string name and an integer free_bikes, method02 prints one
    line "name | Free Bikes: n" per station, in document order, then the line
    that shows the type of the stations list, and returns. *)
Theorem X7_method02_prints_stations :
  forall responsestr top net stations,
    json_loads VDict responsestr = Ok (VDict top) ->
    dict_get "network" top = Some (VDict net) ->
    dict_get "stations" net = Some (VList stations) ->
    Forall (fun st => exists d name free_bikes,
                st = VDict d /\
                dict_get "name" d = Some (VStr name) /\
                dict_get "free_bikes" d = Some (VInt free_bikes)) stations ->
    method02 responsestr =
      (map expected_line stations ++
       [Line "type(boundclass.network.stations): <class 'list'>"], Ok tt).
Proof.
  intros responsestr top net stations Hj Hnet Hst Hall.
  rewrite (method02_decoded _ _ Hj).
  rewrite !getattr_namespace, Hnet, !io_bind_lift_Ok.
  rewrite !getattr_namespace, Hst, !io_bind_lift_Ok.
  cbn [hooked py_iter]. rewrite io_bind_lift_Ok.
  rewrite for_each_map.
  erewrite (for_each_prints _ _ expected_line).
  - reflexivity.
  - eapply Forall_impl; [|exact Hall].
    intros st (d & name & fb & -> & Hn & Hf).
    rewrite !getattr_namespace, Hn, Hf, io_bind_lift_Ok.
    cbn [hooked py_add_str]. rewrite !io_bind_lift_Ok.
    cbn [expected_line]. now rewrite Hn, Hf.
Qed.

Lemma X7_witness :
  method02 minimal_document =
    ([Line "Station A | Free Bikes: 3"; Line "Station B | Free Bikes: 0";
      Line "type(boundclass.network.stations): <class 'list'>"], Ok tt).
Proof.
  refine (X7_method02_prints_stations minimal_document
    [("network",
      VDict [("stations",
              VList [VDict [("name", VStr "Station A"); ("free_bikes", VInt 3)];
                     VDict [("name", VStr "Station B"); ("free_bikes", VInt 0)]])])]
    [("stations",
      VList [VDict [("name", VStr "Station A"); ("free_bikes", VInt 3)];
             VDict [("name", VStr "Station B"); ("free_bikes", VInt 0)]])]
    [VDict [("name", VStr "Station A"); ("free_bikes", VInt 3)];
     VDict [("name", VStr "Station B"); ("free_bikes", VInt 0)]] _ _ _ _).
  - vm_compute. reflexivity.
  - reflexivity.
  - reflexivity.
  - constructor; [|constructor; [|constructor]].
    + exists [("name", VStr "Station A"); ("free_bikes", VInt 3)], "Station A", 3%Z.
      repeat split.
    + exists [("name", VStr "Station B"); ("free_bikes", VInt 0)], "Station B", 0%Z.
      repeat split.
Defined.

(** X8.  method02 checks nothing before it reads attributes: when the
    document is an object without the key network, or its network is an
    object without the key stations, method02 ends with the AttributeError
    of that name and prints nothing. *)
Theorem X8_method02_missing_container :
  forall responsestr top,
    json_loads VDict responsestr = Ok (VDict top) ->
    (dict_get "network" top = None ->
     method02 responsestr = ([], Raise (AttributeError "network"))) /\
    (forall net,
        dict_get "network" top = Some (VDict net) ->
        dict_get "stations" net = None ->
        method02 responsestr = ([], Raise (AttributeError "stations"))).
Proof.
  intros responsestr top Hj. rewrite (method02_decoded _ _ Hj). split.
  - intros Hnet. now rewrite !getattr_namespace, Hnet.
  - intros net Hnet Hst.
    rewrite !getattr_namespace, Hnet, !io_bind_lift_Ok.
    now rewrite !getattr_namespace, Hst.
Qed.

Lemma X8_witness :
  method02 "{}" = ([], Raise (AttributeError "network")) /\
  method02 (json_text "{'network':{}}") = ([], Raise (AttributeError "stations")).
Proof.
  split.
  - refine (proj1 (X8_method02_missing_container "{}" [] _) _).
    + vm_compute. reflexivity.
    + reflexivity.
  - refine (proj2 (X8_method02_missing_container (json_text "{'network':{}}")
                     [("network", VDict [])] _) [] _ _).
    + vm_compute. reflexivity.
    + reflexivity.
    + reflexivity.
Defined.

(** ** method03 *)

Lemma append_assoc :
  forall a b c : string, ((a ++ b) ++ c)%string = (a ++ (b ++ c))%string.
Proof.
  intros a b c. induction a as [|x a IH]; [reflexivity|]. cbn. now rewrite IH.
Qed.

Lemma dict_mem_map :
  forall (h : value -> value) k (d : dict),
    dict_mem k (map (fun kv => (fst kv, h (snd kv))) d) = dict_mem k d.
Proof.
  intros h k d. unfold dict_mem. rewrite dict_get_map. now destruct (dict_get k d).
Qed.

(** A dictionary that does not have both keys is left a dictionary. *)
Lemma decoder_keeps :
  forall d,
    dict_mem "free_bikes" d && dict_mem "name" d = false ->
    hooked Method03.object_decoder (VDict d) =
    VDict (map (fun kv => (fst kv, hooked Method03.object_decoder (snd kv))) d).
Proof.
  intros d H. cbn [hooked]. unfold Method03.object_decoder at 1.
  now rewrite !dict_mem_map, H.
Qed.

(** A dictionary with both keys becomes a Station. *)
Lemma decoder_station :
  forall d name free_bikes,
    dict_get "name" d = Some name ->
    dict_get "free_bikes" d = Some free_bikes ->
    hooked Method03.object_decoder (VDict d) =
    VObject Station03 [("name", hooked Method03.object_decoder name);
                       ("free_bikes", hooked Method03.object_decoder free_bikes)].
Proof.
  intros d name free_bikes Hn Hf. cbn [hooked]. unfold Method03.object_decoder at 1.
  rewrite !dict_mem_map. unfold dict_mem. rewrite Hn, Hf. cbn [andb].
  now rewrite !dict_get_map, Hn, Hf.
Qed.

Lemma object_decode_decoded :
  forall str doc,
    json_loads VDict str = Ok doc ->
    Method03.object_decode str =
    (let obj := hooked Method03.object_decoder doc in
     has_network <- py_in "network" obj ;;
     if has_network then
       network <- getitem obj "network" ;;
       has_stations <- py_in "stations" network ;;
       if has_stations then
         network <- getitem obj "network" ;;
         getitem network "stations"
       else Ok VNone
     else Ok VNone)%result.
Proof.
  intros str doc Hj. unfold Method03.object_decode.
  now rewrite json_loads_hooked, Hj.
Qed.

Lemma getitem_map :
  forall (h : value -> value) (d : dict) k v,
    dict_get k d = Some v ->
    getitem (VDict (map (fun kv => (fst kv, h (snd kv))) d)) k = Ok (h v).
Proof. intros h d k v H. cbn [getitem]. now rewrite dict_get_map, H. Qed.

Lemma py_in_map :
  forall (h : value -> value) (d : dict) k,
    py_in k (VDict (map (fun kv => (fst kv, h (snd kv))) d)) = Ok (dict_mem k d).
Proof. intros h d k. cbn [py_in]. now rewrite dict_mem_map. Qed.

(** X9.  When neither the document nor its network object carries both
    keys free_bikes and name, and network.stations is an array of objects
    that each have a string name and an integer free_bikes, method03 decodes
    every station into a Station, prints one line "name | Free Bikes: n" per
    station in document order, then the line showing the type of the list,
    and returns. *)
Theorem X9_method03_prints_stations :
  forall responsestr top net stations,
    json_loads VDict responsestr = Ok (VDict top) ->
    dict_mem "free_bikes" top && dict_mem "name" top = false ->
    dict_get "network" top = Some (VDict net) ->
    dict_mem "free_bikes" net && dict_mem "name" net = false ->
    dict_get "stations" net = Some (VList stations) ->
    Forall (fun st => exists d name free_bikes,
                st = VDict d /\
                dict_get "name" d = Some (VStr name) /\
                dict_get "free_bikes" d = Some (VInt free_bikes)) stations ->
    method03 responsestr =
      (map expected_line stations ++ [Line "type(boundclasslist): <class 'list'>"],
       Ok tt).
Proof.
  intros responsestr top net stations Hj Htop Hnet Hnetp Hst Hall.
  set (h := hooked Method03.object_decoder).
  assert (Hdec : Method03.object_decode responsestr = Ok (VList (map h stations))).
  { rewrite (object_decode_decoded _ _ Hj). cbv zeta.
    rewrite (decoder_keeps top Htop). fold h.
    rewrite py_in_map. unfold dict_mem at 1. rewrite Hnet. cbn [rbind].
    rewrite (getitem_map h top "network" _ Hnet). cbn [rbind].
    unfold h at 1 2. rewrite (decoder_keeps net Hnetp). fold h.
    rewrite py_in_map. unfold dict_mem at 1. rewrite Hst. cbn [rbind].
    rewrite (getitem_map h net "stations" _ Hst). reflexivity. }
  unfold method03. rewrite Hdec, io_bind_lift_Ok. cbn [py_iter].
  rewrite io_bind_lift_Ok, for_each_map.
  erewrite (for_each_prints _ _ expected_line).
  - reflexivity.
  - eapply Forall_impl; [|exact Hall].
    intros st (d & name & fb & -> & Hn & Hf). unfold h.
    rewrite (decoder_station d _ _ Hn Hf).
    cbn [expected_line]. rewrite Hn, Hf. unfold print, station_line.
    do 2 f_equal. f_equal. cbn. now rewrite append_assoc.
Qed.

Lemma X9_witness :
  method03 minimal_document =
    ([Line "Station A | Free Bikes: 3"; Line "Station B | Free Bikes: 0";
      Line "type(boundclasslist): <class 'list'>"], Ok tt).
Proof.
  refine (X9_method03_prints_stations minimal_document
    [("network",
      VDict [("stations",
              VList [VDict [("name", VStr "Station A"); ("free_bikes", VInt 3)];
                     VDict [("name", VStr "Station B"); ("free_bikes", VInt 0)]])])]
    [("stations",
      VList [VDict [("name", VStr "Station A"); ("free_bikes", VInt 3)];
             VDict [("name", VStr "Station B"); ("free_bikes", VInt 0)]])]
    [VDict [("name", VStr "Station A"); ("free_bikes", VInt 3)];
     VDict [("name", VStr "Station B"); ("free_bikes", VInt 0)]] _ _ _ _ _ _).
  - vm_compute. reflexivity.
  - reflexivity.
  - reflexivity.
  - reflexivity.
  - reflexivity.
  - constructor; [|constructor; [|constructor]].
    + exists [("name", VStr "Station A"); ("free_bikes", VInt 3)], "Station A", 3%Z.
      repeat split.
    + exists [("name", VStr "Station B"); ("free_bikes", VInt 0)], "Station B", 0%Z.
      repeat split.
Defined.

(** X10.  The object hook of method03 recognises a station by its keys
    alone: a network object that itself has the keys name and free_bikes is
    decoded into a Station, the membership test for stations then fails on
    it, and method03 ends with a TypeError without printing. *)
Theorem X10_method03_network_taken_for_station :
  forall responsestr top net name free_bikes,
    json_loads VDict responsestr = Ok (VDict top) ->
    dict_mem "free_bikes" top && dict_mem "name" top = false ->
    dict_get "network" top = Some (VDict net) ->
    dict_get "name" net = Some name ->
    dict_get "free_bikes" net = Some free_bikes ->
    Method03.object_decode responsestr = Raise TypeError /\
    method03 responsestr = ([], Raise TypeError).
Proof.
  intros responsestr top net name free_bikes Hj Htop Hnet Hn Hf.
  set (h := hooked Method03.object_decoder).
  assert (Hdec : Method03.object_decode responsestr = Raise TypeError).
  { rewrite (object_decode_decoded _ _ Hj). cbv zeta.
    rewrite (decoder_keeps top Htop). fold h.
    rewrite py_in_map. unfold dict_mem at 1. rewrite Hnet. cbn [rbind].
    rewrite (getitem_map h top "network" _ Hnet). cbn [rbind].
    unfold h at 1. rewrite (decoder_station net _ _ Hn Hf). reflexivity. }
  split; [exact Hdec|]. unfold method03. now rewrite Hdec.
Qed.

Lemma X10_witness :
  method03 (json_text "{'network':{'name':'Rhodes','free_bikes':9,'stations':[]}}") =
    ([], Raise TypeError).
Proof.
  refine (proj2 (X10_method03_network_taken_for_station
    (json_text "{'network':{'name':'Rhodes','free_bikes':9,'stations':[]}}")
    [("network",
      VDict [("name", VStr "Rhodes"); ("free_bikes", VInt 9); ("stations", VList [])])]
    [("name", VStr "Rhodes"); ("free_bikes", VInt 9); ("stations", VList [])]
    (VStr "Rhodes") (VInt 9) _ _ _ _ _)).
  - vm_compute. reflexivity.
  - reflexivity.
  - reflexivity.
  - reflexivity.
  - reflexivity.
Defined.



(** ** Exceptions that constructors raise inside a load *)

Lemma constructed_fields :
  forall (fs : list (string * field)),
    (fix all (fs : list (string * field)) : Prop :=
       match fs with
       | [] => True
       | nf :: fs' => constructed (snd nf) /\ all fs'
       end) fs ->
    forall name f, In (name, f) fs -> constructed f.
Proof.
  induction fs as [|nf fs IH]; intros H name f Hin; [destruct Hin|].
  destruct H as [Hhead Hrest]. destruct Hin as [->|Hin]; [exact Hhead|].
  eapply IH; eassumption.
Qed.

Lemma constructed_Nested :
  forall schema r,
    constructed (fields.Nested schema r) ->
    (exists cls,
        post_load schema = Some (instantiate cls (map fst (declared_fields schema)))) /\
    forall name f, In (name, f) (declared_fields schema) -> constructed f.
Proof.
  intros schema r [Hpost Hall]. split; [exact Hpost|].
  now apply constructed_fields.
Qed.

Lemma instantiate_raises :
  forall cls params kwargs e, instantiate cls params kwargs = Raise e -> e = TypeError.
Proof.
  intros cls params kwargs e H. unfold instantiate in H.
  destruct (_ && _); now inversion H.
Qed.

Lemma unmarshal_Raise :
  forall only d fs ret errs e,
    unmarshal deserialize only d fs ret errs = Raise e ->
    exists name f raw,
      In (name, f) fs /\ dict_get name d = Some raw /\
      deserialize f (nested_only only name) raw = Uncaught e.
Proof.
  intros only d fs. induction fs as [|[name f] fs IH]; intros ret errs e H;
    [discriminate|].
  cbn [unmarshal] in H.
  assert (Hrest : forall ret' errs',
             unmarshal deserialize only d fs ret' errs' = Raise e ->
             exists name' f' raw,
               In (name', f') ((name, f) :: fs) /\ dict_get name' d = Some raw /\
               deserialize f' (nested_only only name') raw = Uncaught e).
  { intros ret' errs' H'. destruct (IH _ _ _ H') as (n' & f' & raw & Hin & Hg & Hd).
    exists n', f', raw. split; [now right | now split]. }
  destruct (selected only name); [|eapply Hrest; eassumption].
  destruct (dict_get name d) as [raw|] eqn:Hget.
  - destruct (deserialize f (nested_only only name) raw) as [x|msgs edata|e'] eqn:Hd;
      try (eapply Hrest; eassumption).
    inversion H; subst. exists name, f, raw. split; [now left | now split].
  - destruct (fields.required f); eapply Hrest; eassumption.
Qed.

Lemma list_loop_Uncaught :
  forall container items idx res errs e,
    list_loop deserialize container items idx res errs = Uncaught e ->
    exists each, In each items /\ deserialize container None each = Uncaught e.
Proof.
  intros container items. induction items as [|x items IH]; intros idx res errs e H.
  - cbn in H. destruct errs; discriminate.
  - cbn [list_loop] in H.
    destruct (deserialize container None x) as [v|msgs edata|e'] eqn:Hd.
    + destruct (IH _ _ _ _ H) as (each & Hin & He). exists each. split; [now right|exact He].
    + destruct (IH _ _ _ _ H) as (each & Hin & He). exists each. split; [now right|exact He].
    + inversion H; subst. exists x. split; [now left | exact Hd].
Qed.

(** The only exception that gets out of a load of such schemas is the
    TypeError of a constructor that lacks an argument. *)
Lemma constructed_Uncaught :
  forall f,
    constructed f ->
    forall only v e, deserialize f only v = Uncaught e -> e = TypeError.
Proof.
  induction f as [r|r|r|schema r IH|container r IH] using field_induction;
    intros Hc only v e H.
  - exfalso. revert H. apply deserialize_no_post_load. reflexivity.
  - exfalso. revert H. apply deserialize_no_post_load. reflexivity.
  - exfalso. revert H. apply deserialize_no_post_load. reflexivity.
  - apply constructed_Nested in Hc. destruct Hc as [(cls & Hpost) Hfields].
    assert (Hv : v <> VNone) by (intros ->; rewrite deserialize_None in H; discriminate).
    rewrite deserialize_Nested in H by assumption.
    unfold do_load in H.
    destruct v as [|b|z|x|s|l|d|c a];
      try (destruct (filter _ (declared_fields schema)) as [|[n0 f0] rest0];
           [rewrite Hpost in H;
            destruct (instantiate cls _ []) as [obj|e'] eqn:Hi;
            [discriminate | inversion H; subst; eapply instantiate_raises; eassumption]
           | discriminate]).
    { now destruct Hv. }
    destruct (unmarshal deserialize only d (declared_fields schema) [] [])
      as [[ret errs]|e'] eqn:Hu.
    + destruct errs; [|discriminate]. rewrite Hpost in H.
      destruct (instantiate cls _ ret) as [obj|e'] eqn:Hi; [discriminate|].
      inversion H; subst. eapply instantiate_raises. eassumption.
    + inversion H; subst.
      destruct (unmarshal_Raise _ _ _ _ _ _ Hu) as (name & f & raw & Hin & _ & Hd).
      rewrite Forall_forall in IH.
      apply (IH (name, f) Hin (Hfields name f Hin) _ _ _ Hd).
  - assert (Hv : v <> VNone) by (intros ->; rewrite deserialize_None in H; discriminate).
    rewrite deserialize_List in H by assumption.
    destruct (collection_items v) as [items|]; [|discriminate].
    destruct (list_loop_Uncaught _ _ _ _ _ _ H) as (each & _ & He).
    eapply IH; eassumption.
Qed.

Lemma method01_constructed :
  constructed (fields.Nested Method01.CityBikesAPISchema true).
Proof.
  cbn. repeat split; try (eexists; reflexivity).
Qed.

(** An element that raises ends the loop over a list with that exception,
    when no other exception can come before. *)
Lemma list_loop_raises :
  forall container items idx res errs i x e,
    (forall each e', deserialize container None each = Uncaught e' -> e' = e) ->
    nth_error items i = Some x ->
    deserialize container None x = Uncaught e ->
    list_loop deserialize container items idx res errs = Uncaught e.
Proof.
  intros container items. induction items as [|y items IH];
    intros idx res errs i x e Hall Hn Hd.
  - destruct i; discriminate.
  - cbn [list_loop]. destruct i as [|i].
    + cbn in Hn. inversion Hn; subst. now rewrite Hd.
    + cbn in Hn. destruct (deserialize container None y) as [v|msgs edata|e'] eqn:Hy.
      * eapply IH; eassumption.
      * eapply IH; eassumption.
      * now rewrite (Hall _ _ Hy).
Qed.

Lemma unmarshal_raises :
  forall only d fs ret errs name f raw e,
    (forall name' f' raw' e',
        In (name', f') fs ->
        deserialize f' (nested_only only name') raw' = Uncaught e' -> e' = e) ->
    In (name, f) fs ->
    selected only name = true ->
    dict_get name d = Some raw ->
    deserialize f (nested_only only name) raw = Uncaught e ->
    unmarshal deserialize only d fs ret errs = Raise e.
Proof.
  intros only d fs. induction fs as [|[n' f'] fs IH];
    intros ret errs name f raw e Hall Hin Hsel Hget Hd; [destruct Hin|].
  assert (Hrest : forall name' f'' raw' e',
             In (name', f'') fs ->
             deserialize f'' (nested_only only name') raw' = Uncaught e' -> e' = e).
  { intros. eapply Hall; [right|]; eassumption. }
  cbn [unmarshal]. destruct Hin as [Heq|Hin].
  - inversion Heq; subst. now rewrite Hsel, Hget, Hd.
  - destruct (selected only n'); [|eapply IH; eassumption].
    destruct (dict_get n' d) as [raw'|].
    + destruct (deserialize f' (nested_only only n') raw') as [x|msgs edata|e'] eqn:Hd'.
      * eapply IH; eassumption.
      * eapply IH; eassumption.
      * now rewrite (Hall n' f' raw' e' (or_introl eq_refl) Hd').
    + destruct (fields.required f'); eapply IH; eassumption.
Qed.


(** ** Documents of the documented shape in method01 *)

Lemma list_loop_ValidationError :
  forall container items idx res errs msgs dat,
    list_loop deserialize container items idx res errs = ValidationError msgs dat ->
    errs <> [] \/
    exists each msgs' dat',
      In each items /\ deserialize container None each = ValidationError msgs' dat'.
Proof.
  intros container items. induction items as [|x items IH]; intros idx res errs msgs dat H.
  - cbn in H. destruct errs; [discriminate | left; discriminate].
  - cbn [list_loop] in H.
    destruct (deserialize container None x) as [v|msgs' dat'|e] eqn:Hd.
    + destruct (IH _ _ _ _ _ H) as [Hne | (each & m & d' & Hin & He)]; [now left|].
      right. exists each, m, d'. split; [now right | exact He].
    + right. exists x, msgs', dat'. split; [now left | exact Hd].
    + discriminate.
Qed.

Lemma conforms_field_errors :
  forall only d (fs : list (string * field)),
    Forall (fun nf => forall only' v,
                conforms (snd nf) only' v = true ->
                forall msgs dat, deserialize (snd nf) only' v <> ValidationError msgs dat) fs ->
    forallb (fun nf =>
               if selected only (fst nf) then
                 match dict_get (fst nf) d with
                 | Some x => conforms (snd nf) (nested_only only (fst nf)) x
                 | None => negb (fields.required (snd nf))
                 end
               else true) fs = true ->
    field_errors only d fs = [].
Proof.
  intros only d fs IH Hc. unfold field_errors.
  induction fs as [|[name f] fs IHfs]; [reflexivity|].
  cbn [forallb fst snd] in Hc. apply andb_prop in Hc. destruct Hc as [Hhead Hc].
  inversion IH as [|? ? IHhead IHrest]; subst.
  cbn [flat_map fst snd]. rewrite IHfs by assumption. rewrite app_nil_r.
  destruct (selected only name); [|reflexivity].
  destruct (dict_get name d) as [raw|].
  - cbn [snd] in IHhead.
    destruct (deserialize f (nested_only only name) raw) as [x|msgs dat|e] eqn:Hd;
      try reflexivity.
    exfalso. eapply IHhead; eassumption.
  - now destruct (fields.required f).
Qed.

(** A value of the documented shape gives no validation error, whatever the
    schemas do after loading. *)
Lemma conforms_no_error :
  forall f only v,
    conforms f only v = true ->
    forall msgs dat, deserialize f only v <> ValidationError msgs dat.
Proof.
  induction f as [r|r|r|schema r IH|container r IH] using field_induction;
    intros only v Hc msgs dat H.
  - destruct v; discriminate.
  - destruct v; discriminate.
  - destruct v; try discriminate.
    cbn in Hc, H. destruct (float_of_Z z); discriminate.
  - destruct v; try discriminate. cbn [conforms] in Hc.
    rewrite deserialize_Nested in H by discriminate. unfold do_load in H.
    destruct (unmarshal deserialize only d (declared_fields schema) [] [])
      as [[ret errs]|e] eqn:Hu; [|discriminate].
    apply unmarshal_Ok in Hu. cbn [app] in Hu. destruct Hu as [-> ->].
    rewrite (conforms_field_errors only d _ IH Hc) in H.
    destruct (post_load schema) as [postload|]; [|discriminate].
    destruct (postload _); discriminate.
  - destruct v; try discriminate. cbn [conforms] in Hc.
    rewrite deserialize_List in H by discriminate. cbn [collection_items] in H.
    apply list_loop_ValidationError in H.
    destruct H as [Hne | (each & m & d' & Hin & He)]; [now apply Hne|].
    rewrite forallb_forall in Hc. eapply IH; [apply Hc|]; eassumption.
Qed.

Lemma instantiate_missing :
  forall cls params kwargs p,
    In p params -> dict_get p kwargs = None ->
    instantiate cls params kwargs = Raise TypeError.
Proof.
  intros cls params kwargs p Hin Hget. unfold instantiate.
  destruct (forallb (fun p => dict_mem p kwargs) params) eqn:Hall; [|reflexivity].
  rewrite forallb_forall in Hall. specialize (Hall p Hin).
  unfold dict_mem in Hall. rewrite Hget in Hall. discriminate.
Qed.

Lemma field_values_absent :
  forall only d fs name,
    dict_get name d = None -> dict_get name (field_values only d fs) = None.
Proof.
  intros only d fs name Hget. unfold field_values.
  induction fs as [|[n f] fs IH]; [reflexivity|].
  cbn [flat_map fst snd]. rewrite dict_get_app, IH.
  destruct (selected only n); [|reflexivity].
  destruct (dict_get n d) as [raw|] eqn:Hn; [|reflexivity].
  assert (Hne : (name =? n)%string = false).
  { apply String.eqb_neq. intros ->. congruence. }
  destruct (deserialize f (nested_only only n) raw) as [x|msgs dat|e].
  - cbn. now rewrite Hne.
  - destruct (py_truthy dat); cbn; now rewrite ?Hne.
  - reflexivity.
Qed.

Lemma forallb_false :
  forall A (p : A -> bool) l,
    forallb p l = false -> exists x, In x l /\ p x = false.
Proof.
  intros A p l. induction l as [|x l IH]; intros H; [discriminate|].
  cbn in H. destruct (p x) eqn:Hp.
  - destruct (IH H) as (y & Hin & Hy). exists y. split; [now right | exact Hy].
  - exists x. split; [now left | exact Hp].
Qed.

(** A value of the documented shape that lacks a declared key, at any
    level, makes the constructor of its record fail: the load ends with a
    TypeError, not with a validation error. *)
Lemma incomplete_raises :
  forall f,
    constructed f ->
    forall v,
      conforms f None v = true ->
      complete f v = false ->
      deserialize f None v = Uncaught TypeError.
Proof.
  induction f as [r|r|r|schema r IH|container r IH] using field_induction;
    intros Hcons v Hc Hi; try discriminate.
  - pose proof (constructed_Nested _ _ Hcons) as [(cls & Hpost) Hfields].
    destruct v; try discriminate. cbn [conforms] in Hc. cbn [complete] in Hi.
    rewrite deserialize_Nested by discriminate. unfold do_load.
    assert (Hall : forall name' f' raw' e',
               In (name', f') (declared_fields schema) ->
               deserialize f' (nested_only None name') raw' = Uncaught e' ->
               e' = TypeError).
    { intros name' f' raw' e' Hin Hd.
      eapply (constructed_Uncaught f'); [eapply Hfields|]; eassumption. }
    apply forallb_false in Hi. destruct Hi as ([name f] & Hin & Hi). cbn [fst snd] in Hi.
    rewrite forallb_forall in Hc. pose proof (Hc _ Hin) as Hcf. cbn [fst snd selected] in Hcf.
    destruct (dict_get name d) as [raw|] eqn:Hget.
    + rewrite Forall_forall in IH.
      pose proof (IH _ Hin (Hfields _ _ Hin) raw Hcf Hi) as Hd. cbn [snd] in Hd.
      rewrite (unmarshal_raises None d (declared_fields schema) [] [] name f raw TypeError
                 Hall Hin eq_refl Hget Hd).
      reflexivity.
    + destruct (unmarshal deserialize None d (declared_fields schema) [] [])
        as [[ret errs]|e] eqn:Hu.
      * apply unmarshal_Ok in Hu. cbn [app] in Hu. destruct Hu as [-> ->].
        rewrite conforms_field_errors.
        -- rewrite Hpost.
           rewrite (instantiate_missing cls _ _ name); [reflexivity| |].
           ++ apply in_map_iff. now exists (name, f).
           ++ now apply field_values_absent.
        -- apply Forall_forall. intros nf _ only' v' Hv'. now apply conforms_no_error.
        -- apply forallb_forall. exact Hc.
      * destruct (unmarshal_Raise _ _ _ _ _ _ Hu) as (n' & f' & raw' & Hin' & _ & Hd').
        now rewrite (Hall _ _ _ _ Hin' Hd').
  - destruct v; try discriminate. cbn [conforms] in Hc. cbn [complete] in Hi.
    rewrite deserialize_List by discriminate. cbn [collection_items].
    apply forallb_false in Hi. destruct Hi as (each & Hin & Hi).
    rewrite forallb_forall in Hc.
    destruct (In_nth_error _ _ Hin) as [i Hi'].
    eapply list_loop_raises; [|exact Hi'|].
    + intros y e' Hy. eapply (constructed_Uncaught container); [exact Hcons|exact Hy].
    + apply IH; [exact Hcons | now apply Hc | exact Hi].
Qed.

Lemma field_values_keys :
  forall d (fs : list (string * field)),
    (forall nf, In nf fs ->
                exists raw x, dict_get (fst nf) d = Some raw /\
                              deserialize (snd nf) None raw = Deserialized x) ->
    map fst (field_values None d fs) = map fst fs.
Proof.
  intros d fs. unfold field_values. induction fs as [|[n f] fs IH]; intros H; [reflexivity|].
  cbn [flat_map]. rewrite map_app, IH by (intros; apply H; now right).
  destruct (H (n, f) (or_introl eq_refl)) as (raw & x & Hget & Hd). cbn [fst snd] in Hget, Hd.
  cbn [fst snd selected nested_only]. now rewrite Hget, Hd.
Qed.

Lemma dict_mem_keys :
  forall (kwargs : dict) p, In p (map fst kwargs) -> dict_mem p kwargs = true.
Proof.
  intros kwargs p. unfold dict_mem. induction kwargs as [|[k v] kwargs IH]; intros Hin;
    [destruct Hin|].
  cbn [dict_get]. destruct (String.eqb_spec p k) as [->|Hne]; [reflexivity|].
  cbn in Hin. destruct Hin as [Heq|Hin]; [congruence|]. now apply IH.
Qed.

Lemma instantiate_keys :
  forall cls params kwargs,
    map fst kwargs = params ->
    exists attrs, instantiate cls params kwargs = Ok (VObject cls attrs).
Proof.
  intros cls params kwargs Hk. unfold instantiate.
  assert (H1 : forallb (fun p => dict_mem p kwargs) params = true).
  { apply forallb_forall. intros p Hin. apply dict_mem_keys. now rewrite Hk. }
  assert (H2 : forallb (fun kv => existsb (String.eqb (fst kv)) params) kwargs = true).
  { apply forallb_forall. intros kv Hin. apply existsb_exists. exists (fst kv).
    split; [rewrite <- Hk; now apply in_map | apply String.eqb_refl]. }
  rewrite H1, H2. eexists. reflexivity.
Qed.

(** A value of the documented shape with every declared key present is
    loaded into a record. *)
Lemma complete_deserialize :
  forall f,
    constructed f ->
    forall v,
      conforms f None v = true ->
      complete f v = true ->
      exists x, deserialize f None v = Deserialized x.
Proof.
  induction f as [r|r|r|schema r IH|container r IH] using field_induction;
    intros Hcons v Hc Hi.
  - destruct v; try discriminate. eexists. reflexivity.
  - destruct v; try discriminate. eexists. reflexivity.
  - destruct v; try discriminate.
    + cbn in Hc |- *. destruct (float_of_Z z); try discriminate. eexists. reflexivity.
    + eexists. reflexivity.
  - pose proof (constructed_Nested _ _ Hcons) as [(cls & Hpost) Hfields].
    destruct v; try discriminate. cbn [conforms] in Hc. cbn [complete] in Hi.
    rewrite forallb_forall in Hc, Hi. rewrite Forall_forall in IH.
    assert (Heach : forall nf, In nf (declared_fields schema) ->
               exists raw x, dict_get (fst nf) d = Some raw /\
                             deserialize (snd nf) None raw = Deserialized x).
    { intros [name f] Hin. cbn [fst snd].
      pose proof (Hc _ Hin) as Hcf. pose proof (Hi _ Hin) as Hif.
      cbn [fst snd selected] in Hcf, Hif.
      destruct (dict_get name d) as [raw|]; [|discriminate].
      destruct (IH _ Hin (Hfields _ _ Hin) raw Hcf Hif) as [x Hx].
      exists raw, x. split; [reflexivity | exact Hx]. }
    rewrite deserialize_Nested by discriminate. unfold do_load.
    rewrite unmarshal_total.
    + cbn [app]. rewrite conforms_field_errors.
      * rewrite Hpost.
        destruct (instantiate_keys cls _ _ (field_values_keys d _ Heach)) as [attrs Ha].
        rewrite Ha. eexists. reflexivity.
      * apply Forall_forall. intros nf _ only' v' Hv'. now apply conforms_no_error.
      * apply forallb_forall. exact Hc.
    + intros name f raw e Hin Hget Hd.
      destruct (Heach _ Hin) as (raw' & x & Hget' & Hx). cbn [fst snd] in Hget', Hx.
      cbn [nested_only] in Hd. congruence.
  - destruct v; try discriminate. cbn [conforms] in Hc. cbn [complete] in Hi.
    rewrite deserialize_List by discriminate. cbn [collection_items].
    rewrite forallb_forall in Hc, Hi.
    assert (Heach : forall each, In each l ->
               exists x, deserialize container None each = Deserialized x).
    { intros each Hin. apply IH; [exact Hcons | now apply Hc | now apply Hi]. }
    rewrite list_loop_total.
    + assert (Herrs : forall idx, list_errors container l idx = []).
      { clear Hc Hi. induction l as [|each l IHl]; intros idx; [reflexivity|].
        cbn [list_errors]. rewrite IHl by (intros; apply Heach; now right).
        destruct (Heach each (or_introl eq_refl)) as [x Hx]. now rewrite Hx. }
      cbn [app]. rewrite Herrs. eexists. reflexivity.
    + intros each e Hin Hd. destruct (Heach each Hin) as [x Hx]. congruence.
Qed.

(** ** method01 on documents of the documented shape *)

(** A field of a record that raises makes the load of the record raise. *)
Lemma schema_raises :
  forall schema r d name f raw,
    constructed (fields.Nested schema r) ->
    In (name, f) (declared_fields schema) ->
    dict_get name d = Some raw ->
    deserialize f None raw = Uncaught TypeError ->
    do_load deserialize schema None (VDict d) = Raise TypeError.
Proof.
  intros schema r d name f raw Hcons Hin Hget Hd.
  apply constructed_Nested in Hcons. destruct Hcons as [_ Hfields].
  unfold do_load.
  rewrite (unmarshal_raises None d (declared_fields schema) [] [] name f raw TypeError);
    try assumption; try reflexivity.
  intros name' f' raw' e' Hin' Hd'.
  eapply (constructed_Uncaught f'); [eapply Hfields|]; eassumption.
Qed.

Lemma load_deserialize :
  forall schema r only v x,
    v <> VNone ->
    deserialize (fields.Nested schema r) only v = x ->
    match x with
    | Uncaught e => load schema only v = Raise e
    | Deserialized dat => load schema only v = Ok {| data := dat; errors := [] |}
    | ValidationError msgs dat =>
        exists errs, msgs = MessageDict errs /\ errs <> [] /\
                     load schema only v = Ok {| data := dat; errors := errs |}
    end.
Proof.
  intros schema r only v x Hv H. rewrite deserialize_Nested in H by assumption.
  unfold load. destruct (do_load deserialize schema only v) as [[dat errs]|e]; subst x.
  - destruct errs as [|err errs]; [reflexivity|].
    eexists. split; [reflexivity|]. split; [discriminate | reflexivity].
  - reflexivity.
Qed.

Lemma method01_raises :
  forall responsestr doc e,
    json_loads VDict responsestr = Ok doc ->
    load Method01.CityBikesAPISchema None doc = Raise e ->
    method01 responsestr = ([], Raise e).
Proof.
  intros responsestr doc e Hj Hl. unfold method01, loads.
  rewrite Hj. cbn [rbind]. rewrite Hl. reflexivity.
Qed.

(** The stations of a document that has the shape the schemas of method01
    document. *)
Lemma conforming_document01 :
  forall doc,
    conforms (fields.Nested Method01.CityBikesAPISchema true) None doc = true ->
    exists top net stations,
      doc = VDict top /\
      dict_get "network" top = Some (VDict net) /\
      dict_get "stations" net = Some (VList stations) /\
      Forall (fun st => conforms (fields.Nested Method00.StationSchema false) None st = true)
        stations.
Proof.
  intros doc Hc. destruct doc as [| | | | | | top |]; try discriminate.
  cbn [conforms Method01.CityBikesAPISchema declared_fields forallb fst snd selected] in Hc.
  destruct (dict_get "network" top) as [netv|] eqn:Hnet; [|discriminate].
  apply andb_prop in Hc. destruct Hc as [Hc _].
  destruct netv as [| | | | | | net |]; try discriminate.
  cbn [conforms Method01.NetworkSchema declared_fields forallb fst snd selected
         nested_only] in Hc.
  repeat (apply andb_prop in Hc; destruct Hc as [? Hc]).
  destruct (dict_get "stations" net) as [sv|] eqn:Hst; [|discriminate].
  destruct sv as [| | | | | stations | |]; try discriminate.
  exists top, net, stations.
  split; [reflexivity|]. split; [exact Hnet|]. split; [exact Hst|].
  match goal with
  | H : forallb _ stations = true |- _ =>
      rewrite forallb_forall in H; apply Forall_forall; intros st Hin; exact (H st Hin)
  end.
Qed.

(** method00 looks at the stations only. *)
Lemma method00_prints :
  forall responsestr top net stations,
    json_loads VDict responsestr = Ok (VDict top) ->
    dict_get "network" top = Some (VDict net) ->
    dict_get "stations" net = Some (VList stations) ->
    Forall (fun st => conforms (fields.Nested Method00.StationSchema false) None st = true)
      stations ->
    method00 responsestr = (map expected_line stations, Ok tt).
Proof.
  intros responsestr top net stations Hjson Hnet Hst Hall.
  set (container := fields.Nested Method00.StationSchema false).
  destruct (load_method00_stations top net stations Hnet Hst) as (dat & Hload & Hdat).
  fold container in Hload, Hdat.
  rewrite (list_errors_conforms container stations 0 eq_refl Hall) in Hload, Hdat.
  specialize (Hdat eq_refl). subst dat.
  unfold method00, loads. rewrite Hjson. cbn [rbind]. rewrite Hload, io_bind_lift_Ok.
  cbn [errors data List.length Nat.eqb]. unfold pass. rewrite io_bind_ret.
  unfold getitem at 1. cbn [dict_get]. rewrite String.eqb_refl, io_bind_lift_Ok.
  unfold getitem at 1. cbn [dict_get]. rewrite String.eqb_refl, io_bind_lift_Ok.
  cbn [py_iter]. rewrite io_bind_lift_Ok.
  exact (method00_presentation stations Hall).
Qed.

Lemma method02_prints :
  forall responsestr top net stations,
    json_loads VDict responsestr = Ok (VDict top) ->
    dict_get "network" top = Some (VDict net) ->
    dict_get "stations" net = Some (VList stations) ->
    Forall (fun st => conforms (fields.Nested Method00.StationSchema false) None st = true)
      stations ->
    method02 responsestr =
      (map expected_line stations ++
       [Line "type(boundclass.network.stations): <class 'list'>"], Ok tt).
Proof.
  intros responsestr top net stations Hj Hnet Hst Hall.
  rewrite (method02_decoded _ _ Hj).
  rewrite !getattr_namespace, Hnet, !io_bind_lift_Ok.
  rewrite !getattr_namespace, Hst, !io_bind_lift_Ok.
  cbn [hooked py_iter]. rewrite io_bind_lift_Ok.
  rewrite for_each_map.
  erewrite (for_each_prints _ _ expected_line).
  - reflexivity.
  - eapply Forall_impl; [|exact Hall].
    intros st Hc.
    destruct (station00_conforms st Hc) as (d & name & fb & -> & Hn & Hf & _).
    rewrite !getattr_namespace, Hn, Hf, io_bind_lift_Ok.
    cbn [hooked py_add_str]. rewrite !io_bind_lift_Ok.
    cbn [expected_line]. now rewrite Hn, Hf.
Qed.

(** X12.  In method01 a station object of the documented shape that lacks
    one of the keys the Station class takes (at any level: an extra object
    without slots counts) makes the load end with the TypeError of the
    constructor, whatever the rest of the document holds: method01 prints
    nothing, and the program ends with this TypeError once method00 has
    returned. *)
Theorem X12_method01_incomplete_station :
  forall responsestr top net stations i st,
    json_loads VDict responsestr = Ok (VDict top) ->
    dict_get "network" top = Some (VDict net) ->
    dict_get "stations" net = Some (VList stations) ->
    nth_error stations i = Some st ->
    conforms (fields.Nested Method01.StationSchema false) None st = true ->
    complete (fields.Nested Method01.StationSchema false) st = false ->
    method01 responsestr = ([], Raise TypeError) /\
    forall out, method00 responsestr = (out, Ok tt) ->
                main responsestr = (out, Raise TypeError).
Proof.
  intros responsestr top net stations i st Hj Hnet Hst Hnth Hc Hi.
  assert (Hstation : deserialize (fields.Nested Method01.StationSchema false) None st
                     = Uncaught TypeError).
  { apply incomplete_raises; [|assumption|assumption].
    cbn. repeat split; try (eexists; reflexivity). }
  assert (Hlist : deserialize
                    (fields.List (fields.Nested Method01.StationSchema false) true)
                    None (VList stations) = Uncaught TypeError).
  { rewrite deserialize_List by discriminate. cbn [collection_items].
    eapply list_loop_raises; [|exact Hnth|exact Hstation].
    intros each e' He.
    eapply (constructed_Uncaught (fields.Nested Method01.StationSchema false));
      [|exact He].
    cbn. repeat split; try (eexists; reflexivity). }
  assert (Hnetwork : deserialize (fields.Nested Method01.NetworkSchema true) None (VDict net)
                     = Uncaught TypeError).
  { rewrite deserialize_Nested by discriminate.
    rewrite (schema_raises Method01.NetworkSchema true net "stations"
               (fields.List (fields.Nested Method01.StationSchema false) true)
               (VList stations));
      [reflexivity| | |exact Hst|exact Hlist].
    - cbn. repeat split; try (eexists; reflexivity).
    - cbn. tauto. }
  assert (Hload : load Method01.CityBikesAPISchema None (VDict top) = Raise TypeError).
  { unfold load.
    apply (schema_raises Method01.CityBikesAPISchema true top "network"
             (fields.Nested Method01.NetworkSchema true) (VDict net));
      [exact method01_constructed| |exact Hnet|exact Hnetwork].
    cbn. tauto. }
  pose proof (method01_raises _ _ _ Hj Hload) as H1.
  split; [exact H1|].
  intros out H0. rewrite (main_method01_raises _ _ _ _ H0 H1). now rewrite app_nil_r.
Qed.

Lemma X12_witness :
  method01 minimal_document = ([], Raise TypeError) /\
  forall out, method00 minimal_document = (out, Ok tt) ->
              main minimal_document = (out, Raise TypeError).
Proof.
  refine (X12_method01_incomplete_station minimal_document _ _ _ 0 _ _ _ _ _ _ _).
  - vm_compute. reflexivity.
  - vm_compute. reflexivity.
  - vm_compute. reflexivity.
  - vm_compute. reflexivity.
  - vm_compute. reflexivity.
  - vm_compute. reflexivity.
Defined.

(** X13.  A document of the shape the schemas of method01 document (every
    key that is present has its documented kind, the required ones are
    present) in which a declared key is absent at some level, an optional key
    such as the href of the network included, does not get through method01:
    method00 returns normally, method01 prints nothing and ends with the
    TypeError of a constructor, and the program ends with it after the
    output of method00. *)
Theorem X13_method01_incomplete_document :
  forall responsestr doc,
    json_loads VDict responsestr = Ok doc ->
    conforms (fields.Nested Method01.CityBikesAPISchema true) None doc = true ->
    complete (fields.Nested Method01.CityBikesAPISchema true) doc = false ->
    snd (method00 responsestr) = Ok tt /\
    method01 responsestr = ([], Raise TypeError) /\
    main responsestr = (fst (method00 responsestr), Raise TypeError).
Proof.
  intros responsestr doc Hj Hc Hi.
  pose proof (incomplete_raises _ method01_constructed doc Hc Hi) as Hd.
  destruct (conforming_document01 doc Hc) as (top & net & stations & -> & Hnet & Hst & Hall).
  assert (Hv : VDict top <> VNone) by discriminate.
  pose proof (load_deserialize _ _ _ _ _ Hv Hd) as Hl. cbn beta iota in Hl.
  pose proof (method01_raises _ _ _ Hj Hl) as H1.
  pose proof (method00_prints _ _ _ _ Hj Hnet Hst Hall) as H0.
  split; [now rewrite H0|]. split; [exact H1|].
  rewrite (main_method01_raises _ _ _ _ H0 H1), H0. cbn [fst]. now rewrite app_nil_r.
Qed.

Lemma X13_witness :
  snd (method00 no_href_document) = Ok tt /\
  method01 no_href_document = ([], Raise TypeError) /\
  main no_href_document = (fst (method00 no_href_document), Raise TypeError).
Proof.
  apply (X13_method01_incomplete_document no_href_document no_href_value).
  - vm_compute. reflexivity.
  - vm_compute. reflexivity.
  - vm_compute. reflexivity.
Defined.

(** X14.  A document of the documented shape with every declared key
    present at every level goes through the whole program: the load of
    method01 has no errors and gives a record, method00 and method02 print
    one line per station in document order, method01 prints the record and
    its two serializations between them, and the program returns. *)
Theorem X14_complete_document :
  forall responsestr top net stations,
    json_loads VDict responsestr = Ok (VDict top) ->
    conforms (fields.Nested Method01.CityBikesAPISchema true) None (VDict top) = true ->
    complete (fields.Nested Method01.CityBikesAPISchema true) (VDict top) = true ->
    dict_get "network" top = Some (VDict net) ->
    dict_get "stations" net = Some (VList stations) ->
    exists root,
      loads Method01.CityBikesAPISchema None responsestr =
        Ok {| data := root; errors := [] |} /\
      method01 responsestr =
        ([Line (py_str root); DumpsLine root; MarshalResultLine root], Ok tt) /\
      main responsestr =
        (map expected_line stations ++
         [Line (py_str root); DumpsLine root; MarshalResultLine root] ++
         map expected_line stations ++
         [Line "type(boundclass.network.stations): <class 'list'>"], Ok tt).
Proof.
  intros responsestr top net stations Hj Hc Hi Hnet Hst.
  destruct (complete_deserialize _ method01_constructed _ Hc Hi) as [root Hd].
  assert (Hv : VDict top <> VNone) by discriminate.
  pose proof (load_deserialize _ _ _ _ _ Hv Hd) as Hl. cbn beta iota in Hl.
  assert (Hloads : loads Method01.CityBikesAPISchema None responsestr =
                   Ok {| data := root; errors := [] |}).
  { unfold loads. rewrite Hj. exact Hl. }
  pose proof (method01_success _ _ Hloads eq_refl) as H1. cbn [data] in H1.
  destruct (conforming_document01 _ Hc) as (top' & net' & stations' & Ht & Hnet' & Hst' & Hall).
  inversion Ht; subst top'. rewrite Hnet in Hnet'. inversion Hnet'; subst net'.
  rewrite Hst in Hst'. inversion Hst'; subst stations'.
  pose proof (method00_prints _ _ _ _ Hj Hnet Hst Hall) as H0.
  pose proof (method02_prints _ _ _ _ Hj Hnet Hst Hall) as H2.
  exists root. split; [exact Hloads|]. split; [exact H1|].
  unfold main, toplevel. cbn [run_calls methods snd]. rewrite H0, H1, H2.
  cbn [snd io_ret]. now rewrite app_nil_r.
Qed.

Lemma X14_witness :
  exists root,
    loads Method01.CityBikesAPISchema None full_document =
      Ok {| data := root; errors := [] |} /\
    method01 full_document =
      ([Line (py_str root); DumpsLine root; MarshalResultLine root], Ok tt) /\
    main full_document =
      (map expected_line full_document_stations ++
       [Line (py_str root); DumpsLine root; MarshalResultLine root] ++
       map expected_line full_document_stations ++
       [Line "type(boundclass.network.stations): <class 'list'>"], Ok tt).
Proof.
  apply (X14_complete_document full_document full_document_top full_document_network
           full_document_stations).
  - vm_compute. reflexivity.
  - vm_compute. reflexivity.
  - vm_compute. reflexivity.
  - vm_compute. reflexivity.
  - vm_compute. reflexivity.
Defined.

(** ** The records of method01 *)

Lemma getattr_instantiated :
  forall cls params (kwargs : dict) p v,
    In p params ->
    dict_get p kwargs = Some v ->
    getattr (VObject cls (map (fun p => (p, match dict_get p kwargs with
                                            | Some v => v
                                            | None => VNone
                                            end)) params)) p = Ok v.
Proof.
  intros cls params kwargs p v Hin Hget. unfold getattr.
  induction params as [|q params IH]; [destruct Hin|].
  cbn [map dict_get]. destruct (String.eqb_spec p q) as [->|Hne].
  - now rewrite Hget.
  - destruct Hin as [Heq|Hin]; [congruence|]. now apply IH.
Qed.

Lemma integer_deserialized :
  forall r only raw x,
    deserialize (fields.Integer r) only raw = Deserialized x ->
    exists z, py_int raw = Conv z /\ x = VInt z.
Proof.
  intros r only raw x H.
  destruct raw as [|b|z|f|s|l|d|c a]; cbn [deserialize] in H; try discriminate;
    match type of H with
    | match ?c with _ => _ end = _ => destruct c as [z'| | |] eqn:Hc; try discriminate
    end;
    inversion H; subst; exists z'; split; reflexivity || assumption.
Qed.

(** A station that is loaded into a record: the record is a Station, its
    name is the string of the document and its free_bikes the integer the
    document's value converts to. *)
Lemma station01_record :
  forall st record,
    deserialize (fields.Nested Method01.StationSchema false) None st = Deserialized record ->
    exists d name raw free_bikes attrs,
      st = VDict d /\
      dict_get "name" d = Some (VStr name) /\
      dict_get "free_bikes" d = Some raw /\
      py_int raw = Conv free_bikes /\
      record = VObject Station attrs /\
      getattr record "name" = Ok (VStr name) /\
      getattr record "free_bikes" = Ok (VInt free_bikes).
Proof.
  intros st record H.
  apply deserialize_Nested_success in H; [|discriminate].
  destruct H as (d & -> & Herr & Hpost).
  cbn [post_load Method01.StationSchema] in Hpost.
  pose proof Hpost as Hinst.
  apply instantiate_success in Hinst. destruct Hinst as [Hrec Hkeys].
  set (fs := declared_fields Method01.StationSchema) in *.
  destruct (Hkeys "name") as [nv Hnv]; [cbn; tauto|].
  destruct (Hkeys "free_bikes") as [fv Hfv]; [cbn; tauto|].
  destruct (field_value_origin None d fs "name" (fields.String true) nv eq_refl)
    as (nraw & Hn & Hnd); [cbn; tauto | assumption | assumption |].
  destruct (field_value_origin None d fs "free_bikes" (fields.Integer true) fv eq_refl)
    as (fraw & Hf & Hfd); [cbn; tauto | assumption | assumption |].
  destruct nraw; try discriminate. cbn in Hnd. inversion Hnd; subst nv.
  apply integer_deserialized in Hfd. destruct Hfd as (z & Hz & ->).
  exists d, s, fraw, z. eexists.
  split; [reflexivity|]. split; [exact Hn|]. split; [exact Hf|]. split; [exact Hz|].
  split; [exact Hrec|]. rewrite Hrec.
  split; apply getattr_instantiated; try assumption; cbn; tauto.
Qed.

(** X15.  When the load of method01 has no errors, the record it returns
    holds, under network.stations, a list with one Station record per
    station of the document, in document order; each record carries the name
    of its station, a string, and its free_bikes converted to an integer. *)
Theorem X15_method01_station_records :
  forall responsestr top net stations r,
    json_loads VDict responsestr = Ok (VDict top) ->
    dict_get "network" top = Some (VDict net) ->
    dict_get "stations" net = Some (VList stations) ->
    loads Method01.CityBikesAPISchema None responsestr = Ok r ->
    errors r = [] ->
    exists network loaded,
      getattr (data r) "network" = Ok network /\
      getattr network "stations" = Ok (VList loaded) /\
      List.length loaded = List.length stations /\
      forall i st,
        nth_error stations i = Some st ->
        exists d name raw free_bikes attrs,
          st = VDict d /\
          dict_get "name" d = Some (VStr name) /\
          dict_get "free_bikes" d = Some raw /\
          py_int raw = Conv free_bikes /\
          nth_error loaded i = Some (VObject Station attrs) /\
          getattr (VObject Station attrs) "name" = Ok (VStr name) /\
          getattr (VObject Station attrs) "free_bikes" = Ok (VInt free_bikes).
Proof.
  intros responsestr top net stations r Hj Hnet Hst Hl Herr.
  unfold loads in Hl. rewrite Hj in Hl. cbn [rbind] in Hl.
  destruct (load01_success _ _ Hl Herr) as (top' & netv & netobj & Ht & Hnet' & Hd & Hdata).
  inversion Ht; subst top'. rewrite Hnet in Hnet'. inversion Hnet'; subst netv.
  apply deserialize_Nested_success in Hd; [|discriminate].
  destruct Hd as (net' & Hn & Hfe & Hpost).
  inversion Hn; subst net'.
  cbn [post_load Method01.NetworkSchema] in Hpost.
  apply instantiate_success in Hpost. destruct Hpost as [Hobj Hkeys].
  set (fs := declared_fields Method01.NetworkSchema) in *.
  set (container := fields.Nested Method01.StationSchema false).
  destruct (Hkeys "stations") as [sobj Hs]; [cbn; tauto|].
  destruct (field_value_origin None net fs "stations" (fields.List container true) sobj
              eq_refl) as (sraw & Hsraw & Hsd); [cbn; tauto | assumption | assumption |].
  rewrite Hst in Hsraw. inversion Hsraw; subst sraw.
  rewrite deserialize_List in Hsd by discriminate. cbn [collection_items nested_only] in Hsd.
  apply list_loop_Deserialized in Hsd. destruct Hsd as (_ & -> & Hall). cbn [app] in *.
  exists netobj, (list_values container stations).
  split; [rewrite Hdata; cbn [getattr dict_get]; now rewrite String.eqb_refl|].
  split; [rewrite Hobj; apply getattr_instantiated; [cbn; tauto | exact Hs]|].
  split; [apply list_values_length|].
  intros i st Hnth. rewrite Forall_forall in Hall.
  destruct (Hall st (nth_error_In _ _ Hnth)) as [record Hrec].
  destruct (station01_record st record Hrec)
    as (d & name & raw & fb & attrs & -> & Hname & Hfb & Hz & -> & Hgn & Hgf).
  exists d, name, raw, fb, attrs. repeat split; try assumption.
  unfold list_values. rewrite nth_error_map, Hnth. cbn [option_map].
  fold container in Hrec. now rewrite Hrec.
Qed.

Lemma X15_witness :
  exists network loaded,
    getattr (data two_station_result) "network" = Ok network /\
    getattr network "stations" = Ok (VList loaded) /\
    List.length loaded = 2 /\
    (exists attrs, nth_error loaded 0 = Some (VObject Station attrs) /\
                   getattr (VObject Station attrs) "name" = Ok (VStr "Mandraki") /\
                   getattr (VObject Station attrs) "free_bikes" = Ok (VInt 3)) /\
    (exists attrs, nth_error loaded 1 = Some (VObject Station attrs) /\
                   getattr (VObject Station attrs) "name" = Ok (VStr "Elli") /\
                   getattr (VObject Station attrs) "free_bikes" = Ok (VInt 0)).
Proof.
  destruct (X15_method01_station_records two_station_document two_station_top
              two_station_network two_station_stations two_station_result)
    as (network & loaded & Hn & Hs & Hlen & Hidx).
  - vm_compute. reflexivity.
  - vm_compute. reflexivity.
  - vm_compute. reflexivity.
  - vm_compute. reflexivity.
  - vm_compute. reflexivity.
  - exists network, loaded. split; [exact Hn|]. split; [exact Hs|]. split; [exact Hlen|].
    split.
    + destruct (Hidx 0 _ eq_refl)
        as (d & name & raw & fb & attrs & Hst & Hname & Hraw & Hz & Hl & Hgn & Hgf).
      inversion Hst; subst d. vm_compute in Hname, Hraw.
      inversion Hname; subst name. inversion Hraw; subst raw.
      vm_compute in Hz. inversion Hz; subst fb.
      exists attrs. split; [exact Hl|]. split; assumption.
    + destruct (Hidx 1 _ eq_refl)
        as (d & name & raw & fb & attrs & Hst & Hname & Hraw & Hz & Hl & Hgn & Hgf).
      inversion Hst; subst d. vm_compute in Hname, Hraw.
      inversion Hname; subst name. inversion Hraw; subst raw.
      vm_compute in Hz. inversion Hz; subst fb.
      exists attrs. split; [exact Hl|]. split; assumption.
Defined.
